(** * Query resolution pipeline of the data-analysis agent

    A shallow embedding of [src/query_processor.py] (class [QueryProcessor])
    and [src/data_processor.py] (class [DataProcessor]), together with the
    properties of the pipeline that are stated in the specification.

    Conventions of the embedding.
    - A Python [str] is the Rocq string of its UTF-8 bytes.  White space is
      that of [str.isspace], ASCII or not.  Case folding and the digits of
      [\d] are the ASCII ones: [lower] and [findall_digits] are those of
      Python on ASCII text.  They decide the matches of the ASCII keywords
      as Python does on any text; the claim on the number read from a
      query speaks of queries in ASCII.
    - Python [int] is [Z]; [int(s)] refuses a literal of more than 4300
      digits, the default of [sys.int_max_str_digits] (CPython 3.11, and
      the security releases of 3.7 to 3.10).  Floating-point arithmetic is
      not interpreted: the
      operations the code performs on floats are fields of the class
      [Float64], and the numeric routines of pandas that the code calls
      ([corr], [describe], [memory_usage], ...) are fields of [Pandas].
    - A pandas [DataFrame] is an object in a heap ([gmap loc DataFrame]);
      methods run in a state-and-exception monad [M] so that aliasing
      ([QueryProcessor.df] is the caller's frame, [DataProcessor.df] is a
      copy) and [try]/[except] are explicit.
    - [exec], [eval] and the chat-completion endpoint are oracles
      ([Python], [OpenAI]) that answer every call: with a value or with an
      exception.  Calls to [logging] are left out. *)

From Stdlib Require Import ZArith Ascii String DecimalString Sorting.Sorted Permutation.
From stdpp Require Import base option list gmap strings fin_maps.

Open Scope string_scope.
Open Scope Z_scope.

(** ** Exceptions and results *)

(** The exception classes the pipeline can meet.  [except Exception] catches
    every class that derives from [Exception]; [SystemExit],
    [KeyboardInterrupt] and [GeneratorExit] derive from [BaseException]
    only. *)
Inductive exc_class :=
  | PlainException | SyntaxError | NameError | TypeError | ValueError
  | KeyError | AttributeError | ZeroDivisionError | RuntimeError
  | SystemExit | KeyboardInterrupt | GeneratorExit.

Definition is_Exception (c : exc_class) : bool :=
  match c with
  | SystemExit | KeyboardInterrupt | GeneratorExit => false
  | _ => true
  end.

(** An exception object: its class and [str(e)]. *)
Record exn := Exn { exn_class : exc_class; exn_msg : string }.

Inductive result (A : Type) :=
  | Ok (a : A)
  | Raise (e : exn).
Arguments Ok {A} a.
Arguments Raise {A} e.

Definition result_bind {A B} (r : result A) (k : A -> result B) : result B :=
  match r with
  | Ok a => k a
  | Raise e => Raise e
  end.

(** Evaluate [f] on each element, left to right, stopping at the first
    exception. *)
Fixpoint result_map {A B} (f : A -> result B) (l : list A) : result (list B) :=
  match l with
  | [] => Ok []
  | x :: l' =>
      result_bind (f x) (fun y =>
      result_bind (result_map f l') (fun ys => Ok (y :: ys)))
  end.

(** ** Python strings *)

Module Str.

Definition LF : ascii := ascii_of_nat 10.
Definition nl : string := String LF "".

(** [c.isspace()] for an ASCII character: TAB..CR, FS..US and SPACE. *)
Definition is_space (c : ascii) : bool :=
  let n := nat_of_ascii c in
  ((9 <=? n)%nat && (n <=? 13)%nat) || ((28 <=? n)%nat && (n <=? 32)%nat).

(** The ASCII digits. *)
Definition is_digit (c : ascii) : bool :=
  let n := nat_of_ascii c in (48 <=? n)%nat && (n <=? 57)%nat.


Definition lower_char (c : ascii) : ascii :=
  let n := nat_of_ascii c in
  if (65 <=? n)%nat && (n <=? 90)%nat then ascii_of_nat (n + 32) else c.

(** [s.lower()] *)
Fixpoint lower (s : string) : string :=
  match s with
  | EmptyString => EmptyString
  | String c s' => String (lower_char c) (lower s')
  end.

(** The white space outside ASCII, by its UTF-8 bytes: U+0085 and U+00A0;
    U+1680, U+2000..U+200A, U+2028, U+2029, U+202F, U+205F and U+3000. *)
Definition is_space2 (c1 c2 : ascii) : bool :=
  (nat_of_ascii c1 =? 194)%nat
  && ((nat_of_ascii c2 =? 133)%nat || (nat_of_ascii c2 =? 160)%nat).

Definition is_space3 (c1 c2 c3 : ascii) : bool :=
  let n1 := nat_of_ascii c1 in
  let n2 := nat_of_ascii c2 in
  let n3 := nat_of_ascii c3 in
  ((n1 =? 225)%nat && (n2 =? 154)%nat && (n3 =? 128)%nat)
  || ((n1 =? 226)%nat && (n2 =? 128)%nat
      && (((128 <=? n3)%nat && (n3 <=? 138)%nat)
          || (n3 =? 168)%nat || (n3 =? 169)%nat || (n3 =? 175)%nat))
  || ((n1 =? 226)%nat && (n2 =? 129)%nat && (n3 =? 159)%nat)
  || ((n1 =? 227)%nat && (n2 =? 128)%nat && (n3 =? 128)%nat).

(** [s.lstrip()] *)
Fixpoint lstrip (s : string) : string :=
  match s with
  | EmptyString => s
  | String c1 s1 =>
      if is_space c1 then lstrip s1
      else
        match s1 with
        | EmptyString => s
        | String c2 s2 =>
            if is_space2 c1 c2 then lstrip s2
            else
              match s2 with
              | EmptyString => s
              | String c3 s3 => if is_space3 c1 c2 c3 then lstrip s3 else s
              end
        end
  end.

(** [lstrip] of a text read backwards: the bytes of a character come in
    reverse order. *)
Fixpoint lstrip_rev (s : string) : string :=
  match s with
  | EmptyString => s
  | String c1 s1 =>
      if is_space c1 then lstrip_rev s1
      else
        match s1 with
        | EmptyString => s
        | String c2 s2 =>
            if is_space2 c2 c1 then lstrip_rev s2
            else
              match s2 with
              | EmptyString => s
              | String c3 s3 => if is_space3 c3 c2 c1 then lstrip_rev s3 else s
              end
        end
  end.

Fixpoint rev_acc (s acc : string) : string :=
  match s with
  | EmptyString => acc
  | String c s' => rev_acc s' (String c acc)
  end.

Definition rev (s : string) : string := rev_acc s "".

(** [s.rstrip()] *)
Definition rstrip (s : string) : string := rev (lstrip_rev (rev s)).

(** [s.strip()] *)
Definition strip (s : string) : string := rstrip (lstrip s).

(** [s.startswith(p)] *)
Fixpoint startswith (p s : string) : bool :=
  match p, s with
  | EmptyString, _ => true
  | String a p', String b s' => if Ascii.eqb a b then startswith p' s' else false
  | String _ _, EmptyString => false
  end.

(** [needle in hay] *)
Fixpoint contains (needle hay : string) : bool :=
  startswith needle hay ||
  match hay with
  | EmptyString => false
  | String _ hay' => contains needle hay'
  end.

(** [any(word in s for word in words)] *)
Definition any_in (words : list string) (s : string) : bool :=
  existsb (fun word => contains word s) words.

Fixpoint drop (n : nat) (s : string) : string :=
  match n, s with
  | O, _ => s
  | S n', String _ s' => drop n' s'
  | S _, EmptyString => EmptyString
  end.

(** Cut [hay] at the first occurrence of [needle]: the text before it and
    the text after it. *)
Fixpoint partition (needle hay : string) : option (string * string) :=
  if startswith needle hay then Some ("", drop (String.length needle) hay)
  else match hay with
       | EmptyString => None
       | String c hay' =>
           match partition needle hay' with
           | Some (before, after) => Some (String c before, after)
           | None => None
           end
       end.

(** [s.split('\n')] *)
Fixpoint split_lines_acc (cur : string) (s : string) : list string :=
  match s with
  | EmptyString => [rev cur]
  | String c s' =>
      if Ascii.eqb c LF then rev cur :: split_lines_acc "" s'
      else split_lines_acc (String c cur) s'
  end.

Definition split_lines (s : string) : list string := split_lines_acc "" s.

(** [sep.join(parts)] *)
Fixpoint join (sep : string) (parts : list string) : string :=
  match parts with
  | [] => ""
  | [p] => p
  | p :: ps => p +:+ sep +:+ join sep ps
  end.

(** [re.findall(r'\d+', s)] on ASCII text: the maximal runs of digits,
    left to right.  [cur] is the run being read, reversed. *)
Fixpoint findall_digits_acc (cur : string) (s : string) : list string :=
  match s with
  | EmptyString => match cur with EmptyString => [] | _ => [rev cur] end
  | String c s' =>
      if is_digit c then findall_digits_acc (String c cur) s'
      else match cur with
           | EmptyString => findall_digits_acc "" s'
           | _ => rev cur :: findall_digits_acc "" s'
           end
  end.

Definition findall_digits (s : string) : list string := findall_digits_acc "" s.

Definition digit_value (c : ascii) : Z := Z.of_nat (nat_of_ascii c) - 48.

Fixpoint int_acc (acc : Z) (s : string) : Z :=
  match s with
  | EmptyString => acc
  | String c s' => int_acc (10 * acc + digit_value c) s'
  end.

(** The number a string of ASCII digits denotes. *)
Definition decimal (s : string) : Z := int_acc 0 s.

(** [str(n)] / [f'{n}'] for an [int]. *)
Definition of_int (n : Z) : string := NilZero.string_of_int (Z.to_int n).

(** [sys.int_max_str_digits] *)
Definition int_max_str_digits : nat := 4300.

(** [int(s)] for a string of ASCII digits: a literal of more digits than
    the limit is refused. *)
Definition int (s : string) : result Z :=
  if (int_max_str_digits <? String.length s)%nat then
    Raise (Exn ValueError
             ("Exceeds the limit (4300 digits) for integer string conversion: value has "
              +:+ of_int (Z.of_nat (String.length s))
              +:+ " digits; use sys.set_int_max_str_digits() to increase the limit"))
  else Ok (decimal s).

(** Insert a comma before every group of three digits, counted from the
    right; [s] is the reversed digit string. *)
Fixpoint group3_rev (s : string) : string :=
  match s with
  | String a (String b (String c (String d rest as tl))) =>
      String a (String b (String c (String "," (group3_rev tl))))
  | _ => s
  end.

(** [f'{n:,}'] *)
Definition of_int_grouped (n : Z) : string :=
  if n <? 0 then "-" +:+ rev (group3_rev (rev (of_int (- n))))
  else rev (group3_rev (rev (of_int n))).

End Str.

(** ** Floating point *)

(** The float64 operations the code relies on, left uninterpreted. *)
Class Float64 := {
  float : Type;
  f_of_Z : Z -> float;                    (* int -> float conversion *)
  fdiv : float -> float -> float;         (* true division *)
  fmul : float -> float -> float;
  fround : float -> Z -> float;           (* the builtin round(x, ndigits) *)
  np_round : float -> Z -> float;         (* ndarray.round(ndigits) *)
  format_1f : float -> string;            (* f'{x:.1f}' *)
  fleb : float -> float -> bool;          (* x <= y, False on NaN *)
  feqb : float -> float -> bool;          (* x == y, False on NaN *)
  float_str : float -> string;            (* str(x) *)
}.

(** ** Tables *)

Section Tables.
Context `{F : Float64}.

(** A cell.  [VNull] stands for every value [isnull] reports: [None],
    [NaN], [NaT]. *)
Inductive value :=
  | VNull
  | VInt (z : Z)
  | VFloat (x : float)
  | VStr (s : string).

Inductive dtype := int64 | float64 | object.

Record row := Row { row_label : value; row_cells : list value }.

(** A [DataFrame]: the columns with their dtypes, and the rows in order;
    every row carries its index label.  Column names are taken to be
    distinct, as they are in a frame read from a file; [cell] reads the
    first column of a name. *)
Record DataFrame := Frame {
  schema : list (string * dtype);
  rows : list row;
}.

Definition columns (d : DataFrame) : list string := (schema d).*1.

(** [len(df)] *)
Definition df_len (d : DataFrame) : Z := Z.of_nat (length (rows d)).

(** [df.empty]: some axis has length zero. *)
Definition df_empty (d : DataFrame) : bool :=
  match schema d, rows d with
  | [], _ | _, [] => true
  | _, _ => false
  end.

(** [pd.DataFrame()] *)
Definition empty_frame : DataFrame := Frame [] [].

Fixpoint index_of (column : string) (cols : list string) : option nat :=
  match cols with
  | [] => None
  | c :: cols' =>
      if String.eqb column c then Some O
      else S <$> index_of column cols'
  end.

(** The cell of row [r] in the column named [column]. *)
Definition cell (d : DataFrame) (column : string) (r : row) : value :=
  match index_of column (columns d) with
  | Some j => nth j (row_cells r) VNull
  | None => VNull
  end.

(** [df[column]], as the list of its cells. *)
Definition series (d : DataFrame) (column : string) : list value :=
  map (cell d column) (rows d).

(** The cells of the [j]-th column. *)
Definition series_at (d : DataFrame) (j : nat) : list value :=
  map (fun r => nth j (row_cells r) VNull) (rows d).

Definition isnull (v : value) : bool :=
  match v with VNull => true | _ => false end.

(** [s.isnull().sum()] *)
Definition null_count (cells : list value) : Z :=
  Z.of_nat (length (filter (fun v => isnull v = true) cells)).

(** [s.count()] *)
Definition non_null_count (cells : list value) : Z :=
  Z.of_nat (length (filter (fun v => isnull v = false) cells)).

(** Identity of two cells as [isin] and [unique] see it: nulls are equal
    to each other. *)
Definition same_value (x y : value) : bool :=
  match x, y with
  | VNull, VNull => true
  | VInt a, VInt b => a =? b
  | VInt a, VFloat b => feqb (f_of_Z a) b
  | VFloat a, VInt b => feqb a (f_of_Z b)
  | VFloat a, VFloat b => feqb a b
  | VStr a, VStr b => String.eqb a b
  | _, _ => false
  end.

(** [cell == scalar], element of [series == scalar]: never raises, and a
    null on either side compares unequal. *)
Definition py_eq (x y : value) : bool :=
  match x, y with
  | VNull, _ | _, VNull => false
  | _, _ => same_value x y
  end.

Definition kind_name (v : value) : string :=
  match v with
  | VNull => "NoneType" | VInt _ => "int" | VFloat _ => "float" | VStr _ => "str"
  end.

Definition not_supported (op : string) (x y : value) : exn :=
  Exn TypeError
      ("'" +:+ op +:+ "' not supported between instances of '" +:+ kind_name x
       +:+ "' and '" +:+ kind_name y +:+ "'").

(** [x <= y] between a cell and a scalar.  A null on either side gives
    [False]; numbers compare with numbers and strings with strings;
    ordering a number against a string raises [TypeError]. *)
Definition py_le (x y : value) : result bool :=
  match x, y with
  | VNull, _ | _, VNull => Ok false
  | VInt a, VInt b => Ok (a <=? b)
  | VInt a, VFloat b => Ok (fleb (f_of_Z a) b)
  | VFloat a, VInt b => Ok (fleb a (f_of_Z b))
  | VFloat a, VFloat b => Ok (fleb a b)
  | VStr a, VStr b => Ok (String.leb a b)
  | _, _ => Raise (not_supported "<=" x y)
  end.

(** [x >= y], that is [y <= x] with the operands named in the order of
    the source expression. *)
Definition py_ge (x y : value) : result bool :=
  match py_le y x with
  | Ok b => Ok b
  | Raise _ => Raise (not_supported ">=" x y)
  end.

(** [series == scalar] *)
Definition series_eq (cells : list value) (scalar : value) : list bool :=
  map (fun v => py_eq v scalar) cells.

(** [series.isin(values)].  The model has one null: a null among the
    values stands for [None] and for [NaN] at once, which [isin] tells
    apart, so the properties of list conditions speak of lists without
    nulls. *)
Definition series_isin (cells : list value) (values : list value) : list bool :=
  map (fun v => existsb (same_value v) values) cells.

(** The rows selected by a boolean mask. *)
Fixpoint mask_select {A} (l : list A) (mask : list bool) : list A :=
  match l, mask with
  | x :: l', b :: mask' => if b then x :: mask_select l' mask' else mask_select l' mask'
  | _, _ => []
  end.

(** [df[mask]] *)
Definition getitem_mask (d : DataFrame) (mask : list bool) : DataFrame :=
  Frame (schema d) (mask_select (rows d) mask).

(** [df.head(n)] *)
Definition df_head (n : Z) (d : DataFrame) : DataFrame :=
  if 0 <=? n then Frame (schema d) (take (Z.to_nat n) (rows d))
  else Frame (schema d) (take (length (rows d) - Z.to_nat (- n)) (rows d)).

Definition is_numeric_dtype (t : dtype) : bool :=
  match t with int64 | float64 => true | object => false end.

(** [str(dtype)] *)
Definition dtype_str (t : dtype) : string :=
  match t with int64 => "int64" | float64 => "float64" | object => "object" end.

(** [df[column].dtype] *)
Definition column_dtype (d : DataFrame) (column : string) : dtype :=
  match index_of column (columns d) with
  | Some j => nth j (schema d).*2 object
  | None => object
  end.

(** pandas does not order a numeric column against a string: it refuses
    the comparison by the dtype of the column, whatever its cells. *)
Definition is_numeric_v_string_like (t : dtype) (bound : value) : bool :=
  is_numeric_dtype t && match bound with VStr _ => true | _ => false end.

Definition invalid_comparison (t : dtype) (bound : value) : exn :=
  Exn TypeError
      ("Invalid comparison between dtype=" +:+ dtype_str t +:+ " and " +:+ kind_name bound).

(** [series >= bound] and [series <= bound] as boolean masks, for a series
    of dtype [t]: refused by dtype, or else computed cell by cell. *)
Definition series_ge (t : dtype) (cells : list value) (bound : value)
  : result (list bool) :=
  if is_numeric_v_string_like t bound then Raise (invalid_comparison t bound)
  else result_map (fun v => py_ge v bound) cells.

Definition series_le (t : dtype) (cells : list value) (bound : value)
  : result (list bool) :=
  if is_numeric_v_string_like t bound then Raise (invalid_comparison t bound)
  else result_map (fun v => py_le v bound) cells.

(** [str(v)] for a cell. *)
Definition py_str (v : value) : string :=
  match v with
  | VNull => "nan"
  | VInt z => Str.of_int z
  | VFloat x => float_str x
  | VStr s => s
  end.

(** [s.dropna()] *)
Definition dropna (cells : list value) : list value :=
  filter (fun v => isnull v = false) cells.

(** [s.unique()]: the distinct values in order of first appearance. *)
Fixpoint unique_acc (seen : list value) (cells : list value) : list value :=
  match cells with
  | [] => []
  | x :: cells' =>
      if existsb (same_value x) seen then unique_acc seen cells'
      else x :: unique_acc (x :: seen) cells'
  end.

Definition unique (cells : list value) : list value := unique_acc [] cells.

(** [s.nunique()]: nulls are not counted. *)
Definition nunique (cells : list value) : Z :=
  Z.of_nat (length (unique (dropna cells))).

(** The dtype pandas infers for a column built from Python objects. *)
Definition infer_dtype (cells : list value) : dtype :=
  if forallb (fun v => match v with VInt _ => true | _ => false end) cells
  then int64
  else if forallb (fun v => match v with VStr _ => false | _ => true end) cells
  then float64
  else object.

(** [pd.DataFrame(records)] for a non-empty list of dicts: the columns are
    the keys in order of first appearance, a key missing from a record
    gives a null, and the rows are labelled 0, 1, ... *)
Definition record_keys (records : list (list (string * value))) : list string :=
  fold_left
    (fun acc r => (acc ++ List.filter (fun k => negb (bool_decide (k ∈ acc))) (r.*1))%list)
    records [].

Definition record_get (r : list (string * value)) (k : string) : value :=
  match List.find (fun kv => String.eqb k kv.1) r with
  | Some kv => kv.2
  | None => VNull
  end.

Definition DataFrame_of_records (records : list (list (string * value))) : DataFrame :=
  let keys := record_keys records in
  Frame (map (fun k => (k, infer_dtype (map (fun r => record_get r k) records))) keys)
        (imap (fun i r => Row (VInt (Z.of_nat i)) (map (record_get r) keys)) records).

(** [df.select_dtypes(include=[np.number])] *)
Definition numeric_positions (d : DataFrame) : list nat :=
  (List.filter (fun jt => is_numeric_dtype (jt.2).2) (imap (fun j ct => (j, ct)) (schema d))).*1.

Definition select_dtypes_number (d : DataFrame) : DataFrame :=
  Frame (List.filter (fun ct => is_numeric_dtype ct.2) (schema d))
        (map (fun r => Row (row_label r)
                           (map (fun j => nth j (row_cells r) VNull) (numeric_positions d)))
             (rows d)).

(** [df.sort_values(column, ascending=False)] for a column of integers.
    The sort is stable: rows with equal keys keep their order. *)
Definition int_key (d : DataFrame) (column : string) (r : row) : Z :=
  match cell d column r with VInt z => z | _ => 0 end.

Fixpoint insert_desc (key : row -> Z) (r : row) (l : list row) : list row :=
  match l with
  | [] => [r]
  | y :: l' => if key y <=? key r then r :: l else y :: insert_desc key r l'
  end.

Definition sort_desc (key : row -> Z) (l : list row) : list row :=
  foldr (insert_desc key) [] l.

Definition sort_values_desc (column : string) (d : DataFrame) : DataFrame :=
  Frame (schema d) (sort_desc (int_key d column) (rows d)).

End Tables.

(** ** The pandas routines the code calls *)

Class Pandas `{F : Float64} := {
  (* Pearson correlation of two columns, as [DataFrame.corr] computes it *)
  pearson : list value -> list value -> float;
  (* [df.describe()]; raises on a frame it cannot describe *)
  describe : DataFrame -> result DataFrame;
  (* [df.groupby(g)[a].agg(f).reset_index()] *)
  groupby_agg : DataFrame -> string -> string -> string -> result DataFrame;
  (* [s.memory_usage(deep=True)], in bytes *)
  series_memory_usage : dtype -> list value -> Z;
  (* [df.memory_usage(deep=True).sum()], in bytes *)
  frame_memory_usage : DataFrame -> Z;
  series_min : list value -> value;
  series_max : list value -> value;
  series_mean : list value -> float;
  (* [str(dict(df.dtypes))] *)
  dtypes_repr : DataFrame -> string;
  (* [df.to_string()] *)
  to_string : DataFrame -> string;
}.

(** ** Python objects and outcomes *)

(** A reference to a frame object. *)
Definition loc := positive.

Section Objects.
Context `{F : Float64}.

(** The objects that occur as the [data] of an outcome or in the globals
    of [exec]. *)
Inductive pyobj :=
  | PyFrame (l : loc)             (* a DataFrame, by reference *)
  | PyStr (s : string)
  | PyStrList (l : list string)
  | PyScalar (v : value)
  | PyModule (name : string)
  | PyBuiltin (name : string)
  | PyOther (repr : string).

(** The dict [process_query] returns:
    [{'success': True, 'data': .., 'explanation': .., 'code': ..}] or
    [{'success': False, 'error': ..}]. *)
Inductive outcome :=
  | Success (data : pyobj) (explanation code : string)
  | Failure (error : string).

Definition success (o : outcome) : bool :=
  match o with Success _ _ _ => true | Failure _ => false end.

End Objects.

(** The request sent to the chat endpoint. *)
Record chat_request := {
  req_model : string;
  req_system : string;          (* content of the system message *)
  req_user : string;            (* content of the user message *)
  req_max_tokens : Z;
  req_temperature : string;
}.

(** ** Heap, events and the monad of methods *)

Section Monad.
Context `{F : Float64}.

(** Calls that leave the process or run foreign code, with what is handed
    to them. *)
Inductive event :=
  | EvChat (req : chat_request)
  | EvExec (code : string) (globals : gmap string pyobj)
  | EvEval (expr : string) (globals : gmap string pyobj).

Record world := World {
  heap : gmap loc DataFrame;
  calls : list event;
}.

Definition M (A : Type) : Type := world -> result A * world.

Definition ret {A} (a : A) : M A := fun w => (Ok a, w).

Definition bind {A B} (m : M A) (k : A -> M B) : M B :=
  fun w => match m w with
           | (Ok a, w') => k a w'
           | (Raise e, w') => (Raise e, w')
           end.

(** [raise e] *)
Definition raise {A} (e : exn) : M A := fun w => (Raise e, w).

(** [try: body / except Exception as e: handler(e)] *)
Definition try_except {A} (body : M A) (handler : exn -> M A) : M A :=
  fun w => match body w with
           | (Raise e, w') =>
               if is_Exception (exn_class e) then handler e w' else (Raise e, w')
           | r => r
           end.

Definition lift {A} (r : result A) : M A := fun w => (r, w).

(** Read the frame a reference points to. *)
Definition load (l : loc) : M DataFrame :=
  fun w => match heap w !! l with
           | Some d => (Ok d, w)
           | None => (Raise (Exn RuntimeError "dangling reference"), w)
           end.

(** A new frame object. *)
Definition alloc (d : DataFrame) : M loc :=
  fun w => let l := fresh (dom (heap w)) in
           (Ok l, World (<[l := d]> (heap w)) (calls w)).

Definition emit (ev : event) : M unit :=
  fun w => (Ok tt, World (heap w) (calls w ++ [ev])%list).

(** [for x in l: a = f(a, x)] *)
Fixpoint for_each {A B} (f : A -> B -> M A) (a : A) (l : list B) : M A :=
  match l with
  | [] => ret a
  | x :: l' => bind (f a x) (fun a' => for_each f a' l')
  end.

(** [df.copy()] *)
Definition copy (l : loc) : M loc := bind (load l) alloc.

End Monad.

Notation "x <- m ;; k" := (bind m (fun x => k))
  (at level 100, m at next level, right associativity, only parsing).
Notation "m ;;; k" := (bind m (fun _ => k))
  (at level 100, right associativity, only parsing).

(** ** [src/data_processor.py]: class [DataProcessor] *)

Section DataProcessor.
Context `{P : Pandas}.

Record DataProcessor := {
  dp_df : loc;            (* self.df *)
  dp_original_df : loc;   (* self.original_df *)
}.

(** [DataProcessor.__init__]: both fields are copies of the argument. *)
Definition DataProcessor_init (dataframe : loc) : M DataProcessor :=
  df <- copy dataframe ;;
  original_df <- copy dataframe ;;
  ret {| dp_df := df; dp_original_df := original_df |}.

(** The [info] dict [get_column_info] builds for one column. *)
Definition column_info (column : string) (t : dtype) (col_data : list value)
  : list (string * value) :=
  let info :=
    [ ("Column", VStr column);
      ("Data Type", VStr (dtype_str t));
      ("Non-Null Count", VInt (non_null_count col_data));
      ("Null Count", VInt (null_count col_data));
      ("Unique Values", VInt (nunique col_data));
      ("Memory Usage (KB)",
        VFloat (fround (fdiv (f_of_Z (series_memory_usage t col_data)) (f_of_Z 1024)) 2)) ] in
  if is_numeric_dtype t then
    (info ++
     [ ("Min", series_min col_data);
       ("Max", series_max col_data);
       ("Mean", match col_data with
                | [] => VNull
                | _ => VFloat (fround (series_mean col_data) 2)
                end) ])%list
  else
    (* string or object dtype *)
    if nunique col_data <? 10 then
      (info ++
       [ ("Sample Values",
           VStr (Str.join ", " (map py_str (take 5 (unique (dropna col_data)))))) ])%list
    else info.

Definition get_column_info (self : DataProcessor) : M loc :=
  d <- load (dp_df self) ;;
  let info_data :=
    imap (fun j ct => column_info ct.1 ct.2 (series_at d j)) (schema d) in
  alloc (DataFrame_of_records info_data).

(** The percentage column of the missing-data report:
    [(missing_data.values / len(self.df) * 100).round(2)], per entry. *)
Definition missing_percentage (count total : Z) : float :=
  np_round (fmul (fdiv (f_of_Z count) (f_of_Z total)) (f_of_Z 100)) 2.

(** [self.df.isnull().sum()]: a series indexed by column name. *)
Definition isnull_sum (d : DataFrame) : list (string * Z) :=
  imap (fun j ct => (ct.1, null_count (series_at d j))) (schema d).

Definition missing_schema : list (string * dtype) :=
  [("Column", object); ("Missing Count", int64); ("Missing Percentage", float64)].

Definition analyze_missing_data (self : DataProcessor) : M loc :=
  d <- load (dp_df self) ;;
  let missing_data := isnull_sum d in
  let missing_data := List.filter (fun cn => 0 <? cn.2) missing_data in
  match missing_data with
  | [] => alloc empty_frame
  | _ =>
      let missing_df :=
        Frame missing_schema
              (imap (fun i cn =>
                       Row (VInt (Z.of_nat i))
                           [VStr cn.1; VInt cn.2;
                            VFloat (missing_percentage cn.2 (df_len d))])
                    missing_data) in
      alloc (sort_values_desc "Missing Count" missing_df)
  end.

(** [numeric_df.corr()]: one row and one column per column of the frame. *)
Definition corr (d : DataFrame) : DataFrame :=
  let k := length (schema d) in
  Frame (map (fun ct => (ct.1, float64)) (schema d))
        (imap (fun i ct =>
                 Row (VStr ct.1)
                     (map (fun j => VFloat (pearson (series_at d i) (series_at d j)))
                          (seq 0 k)))
              (schema d)).

Definition correlation_analysis (self : DataProcessor) : M loc :=
  d <- load (dp_df self) ;;
  numeric_df <- alloc (select_dtypes_number d) ;;
  nd <- load numeric_df ;;
  alloc (corr nd).

(** A filter condition: a dict (looked up at ['min'] and ['max']), a list
    of allowed values, or a single value. *)
Inductive condition :=
  | CDict (c : gmap string value)
  | CList (values : list value)
  | CScalar (v : value).

(** One iteration of the loop of [filter_data]. *)
Definition filter_step (filtered_df : loc) (item : string * condition) : M loc :=
  let '(column, condition) := item in
  d <- load filtered_df ;;
  if bool_decide (column ∈ columns d) then
    match condition with
    | CDict c =>
        filtered_df <-
          match c !! "min" with
          | Some a =>
              d <- load filtered_df ;;
              mask <- lift (series_ge (column_dtype d column) (series d column) a) ;;
              alloc (getitem_mask d mask)
          | None => ret filtered_df
          end ;;
        match c !! "max" with
        | Some b =>
            d <- load filtered_df ;;
            mask <- lift (series_le (column_dtype d column) (series d column) b) ;;
            alloc (getitem_mask d mask)
        | None => ret filtered_df
        end
    | CList values =>
        alloc (getitem_mask d (series_isin (series d column) values))
    | CScalar v =>
        alloc (getitem_mask d (series_eq (series d column) v))
    end
  else ret filtered_df.

Definition filter_data (self : DataProcessor) (conditions : list (string * condition))
  : M loc :=
  filtered_df <- copy (dp_df self) ;;
  for_each filter_step filtered_df conditions.

Definition group_analysis (self : DataProcessor)
  (group_by_col agg_col agg_func : string) : M loc :=
  d <- load (dp_df self) ;;
  if negb (bool_decide (group_by_col ∈ columns d))
     || negb (bool_decide (agg_col ∈ columns d))
  then raise (Exn ValueError "Specified columns not found in dataframe")
  else
    r <- lift (groupby_agg d group_by_col agg_col agg_func) ;;
    alloc r.

End DataProcessor.

(** ** [config.py] *)

(** [Config.OPENAI_API_KEY] is read from the environment: absent ([None])
    or a string.  The model settings are constants. *)
Record Config := { OPENAI_API_KEY : option string }.

Definition MODEL_NAME : string := "gpt-4".
Definition MAX_TOKENS : Z := 2000.
Definition TEMPERATURE : string := "0.1".

(** Truth value of [Config.OPENAI_API_KEY]: [None] and the empty string are
    false. *)
Definition api_key_configured (cfg : Config) : bool :=
  match OPENAI_API_KEY cfg with
  | Some key => negb (String.eqb key "")
  | None => false
  end.

(** ** [exec]/[eval] and the chat endpoint *)

(** [exec(code, globals)] returns the globals as the code left them, and
    [eval(expr, globals)] the value of the expression; both may raise any
    exception and may change frames in place.  What they cannot do is free
    a frame that someone refers to: every frame is still there afterwards,
    changed or not. *)
Class Python `{F : Float64} := {
  py_exec : string -> gmap string pyobj -> gmap loc DataFrame
            -> result (gmap string pyobj) * gmap loc DataFrame;
  py_eval : string -> gmap string pyobj -> gmap loc DataFrame
            -> result pyobj * gmap loc DataFrame;
  py_exec_keeps : forall code globals h, dom h ⊆ dom (py_exec code globals h).2;
  py_eval_keeps : forall expr globals h, dom h ⊆ dom (py_eval expr globals h).2;
}.

(** [openai.ChatCompletion.create(..)] followed by
    [response.choices[0].message.content]. *)
Class OpenAI := {
  ChatCompletion_create : chat_request -> result string;
}.

(** ** [src/query_processor.py]: class [QueryProcessor] *)

Section QueryProcessor.
Context `{P : Pandas} `{Py : !Python} `{AI : OpenAI}.
Variable cfg : Config.

Record QueryProcessor := {
  qp_df : loc;                          (* self.df *)
  qp_data_processor : DataProcessor;    (* self.data_processor *)
}.

(** [QueryProcessor.__init__]: [self.df] is the caller's frame itself.
    [setup_openai] only copies the key into the client library. *)
Definition QueryProcessor_init (dataframe : loc) : M QueryProcessor :=
  data_processor <- DataProcessor_init dataframe ;;
  ret {| qp_df := dataframe; qp_data_processor := data_processor |}.

Definition _extract_number (text : string) (default : Z) : result Z :=
  match Str.findall_digits text with
  | first :: _ => Str.int first
  | [] => Ok default
  end.

Definition _process_simple_query (self : QueryProcessor) (query : string) : M outcome :=
  let query_lower := Str.strip (Str.lower query) in
  (* Show top N rows *)
  if Str.contains "top" query_lower
     && Str.any_in ["rows"; "records"; "entries"] query_lower then
    n <- lift (_extract_number query 10) ;;
    d <- load (qp_df self) ;;
    data <- alloc (df_head n d) ;;
    ret (Success (PyFrame data)
           ("Showing top " +:+ Str.of_int n +:+ " rows from the dataset")
           ("df.head(" +:+ Str.of_int n +:+ ")"))
  (* Show basic info *)
  else if Str.any_in ["info"; "information"; "overview"; "summary"] query_lower then
    data <- get_column_info (qp_data_processor self) ;;
    ret (Success (PyFrame data) "Dataset overview and column information" "df.info()")
  (* Statistical summary *)
  else if Str.any_in ["statistics"; "stats"; "describe"; "summary"] query_lower then
    d <- load (qp_df self) ;;
    r <- lift (describe d) ;;
    data <- alloc r ;;
    ret (Success (PyFrame data) "Statistical summary of numeric columns" "df.describe()")
  (* Count rows *)
  else if Str.any_in ["count"; "number of rows"; "how many rows"] query_lower then
    d <- load (qp_df self) ;;
    let count := df_len d in
    ret (Success (PyStr ("Total rows: " +:+ Str.of_int_grouped count))
           ("The dataset contains " +:+ Str.of_int_grouped count +:+ " rows")
           "len(df)")
  (* Show columns *)
  else if Str.any_in ["columns"; "column names"; "fields"] query_lower then
    d <- load (qp_df self) ;;
    ret (Success (PyStrList (columns d)) "List of all columns in the dataset"
           "df.columns.tolist()")
  (* Missing values *)
  else if Str.any_in ["missing"; "null"; "nan"; "empty"] query_lower then
    missing_data <- analyze_missing_data (qp_data_processor self) ;;
    m <- load missing_data ;;
    ret (Success (if negb (df_empty m) then PyFrame missing_data
                  else PyStr "No missing values found!")
           "Analysis of missing values in the dataset" "df.isnull().sum()")
  (* Correlation analysis *)
  else if Str.contains "correlation" query_lower || Str.contains "corr" query_lower then
    corr_data <- correlation_analysis (qp_data_processor self) ;;
    ret (Success (PyFrame corr_data) "Correlation matrix for numeric columns" "df.corr()")
  else ret (Failure "Query not recognized").

Definition indent : string := "        ".

(** The text [_create_dataset_context] builds from the frame. *)
Definition dataset_context (d : DataFrame) : string :=
  let context :=
    Str.nl +:+
    indent +:+ "Dataset Information:" +:+ Str.nl +:+
    indent +:+ "- Shape: " +:+ Str.of_int (df_len d) +:+ " rows, "
           +:+ Str.of_int (Z.of_nat (length (columns d))) +:+ " columns" +:+ Str.nl +:+
    indent +:+ "- Columns: " +:+ Str.join ", " (columns d) +:+ Str.nl +:+
    indent +:+ "- Data types: " +:+ dtypes_repr d +:+ Str.nl +:+
    indent +:+ "- Memory usage: "
           +:+ format_1f (fdiv (fdiv (f_of_Z (frame_memory_usage d)) (f_of_Z 1024))
                               (f_of_Z 1024))
           +:+ " MB" +:+ Str.nl +:+
    indent in
  (* Add sample data *)
  context +:+ Str.nl +:+ "First 3 rows:" +:+ Str.nl +:+ to_string (df_head 3 d).

Definition _create_dataset_context (self : QueryProcessor) : M string :=
  d <- load (qp_df self) ;;
  ret (dataset_context d).

Definition _create_analysis_prompt (query context : string) : string :=
  Str.nl +:+
  indent +:+ context +:+ Str.nl +:+
  indent +:+ Str.nl +:+
  indent +:+ "User Query: " +:+ query +:+ Str.nl +:+
  indent +:+ Str.nl +:+
  indent +:+ "Please provide Python pandas code to answer this query. The dataframe is available as 'df'." +:+ Str.nl +:+
  indent +:+ "Only return the executable code, wrapped in ```python code blocks." +:+ Str.nl +:+
  indent +:+ "Make sure the code is safe and only uses pandas operations." +:+ Str.nl +:+
  indent.

(** [re.search(r'```python\n(.*?)\n```', response, re.DOTALL)], group 1:
    the text after the first opening fence up to the first closing fence
    that follows it. *)
Definition search_fenced (response : string) : option string :=
  match Str.partition ("```python" +:+ Str.nl) response with
  | Some (_, after) =>
      match Str.partition (Str.nl +:+ "```") after with
      | Some (body, _) => Some body
      | None => None
      end
  | None => None
  end.

Definition _extract_code_from_response (response : string) : option string :=
  match search_fenced response with
  | Some body => Some (Str.strip body)
  | None =>
      (* Fallback: look for any code-like content *)
      let lines := Str.split_lines response in
      let code_lines :=
        List.filter
          (fun line => Str.contains "df." line
                       || Str.any_in ["import"; "print"; "="] line)
          lines in
      match code_lines with
      | [] => None
      | _ => Some (Str.join Str.nl code_lines)
      end
  end.

(** The globals [_execute_pandas_code] hands to [exec]. *)
Definition safe_dict (self : QueryProcessor) : gmap string pyobj :=
  list_to_map
    [ ("df", PyFrame (qp_df self));
      ("pd", PyModule "pandas");
      ("len", PyBuiltin "len");
      ("sum", PyBuiltin "sum");
      ("max", PyBuiltin "max");
      ("min", PyBuiltin "min");
      ("round", PyBuiltin "round") ].

Definition exec (code : string) (globals : gmap string pyobj) : M (gmap string pyobj) :=
  fun w => let (r, h) := py_exec code globals (heap w) in
           (r, World h (calls w ++ [EvExec code globals])%list).

Definition eval (expr : string) (globals : gmap string pyobj) : M pyobj :=
  fun w => let (r, h) := py_eval expr globals (heap w) in
           (r, World h (calls w ++ [EvEval expr globals])%list).

(** [for var_name in names: if var_name in globals: return globals[var_name]] *)
Fixpoint first_bound (names : list string) (globals : gmap string pyobj) : option pyobj :=
  match names with
  | [] => None
  | var_name :: names' =>
      match globals !! var_name with
      | Some v => Some v
      | None => first_bound names' globals
      end
  end.

Definition _execute_pandas_code (self : QueryProcessor) (code : string) : M pyobj :=
  try_except
    ((* Execute the code *)
     globals <- exec code (safe_dict self) ;;
     (* Try to get the result (look for common result variable names) *)
     match first_bound ["result"; "output"; "answer"] globals with
     | Some v => ret v
     | None =>
         (* If no specific result variable, return the last evaluated expression *)
         eval (List.last (Str.split_lines code) "") globals
     end)
    (fun e => raise (Exn PlainException ("Code execution error: " +:+ exn_msg e))).

Definition system_message : string :=
  "You are a data analysis expert. Generate Python pandas code to answer user queries about their dataset.".

(** The request [_process_ai_query] sends for a prompt. *)
Definition request (prompt : string) : chat_request :=
  {| req_model := MODEL_NAME; req_system := system_message;
     req_user := prompt; req_max_tokens := MAX_TOKENS;
     req_temperature := TEMPERATURE |}.

Definition chat (prompt : string) : M string :=
  emit (EvChat (request prompt)) ;;;
  lift (ChatCompletion_create (request prompt)).

Definition _process_ai_query (self : QueryProcessor) (query : string) : M outcome :=
  try_except
    ((* Create context about the dataset *)
     context <- _create_dataset_context self ;;
     (* Create the prompt *)
     let prompt := _create_analysis_prompt query context in
     (* Call OpenAI API *)
     content <- chat prompt ;;
     (* Extract and execute the code *)
     match _extract_code_from_response content with
     | Some code =>
         if negb (String.eqb code "") then
           result <- _execute_pandas_code self code ;;
           ret (Success result content code)
         else ret (Failure "Could not generate valid code from the query")
     | None => ret (Failure "Could not generate valid code from the query")
     end)
    (fun e => ret (Failure ("AI processing error: " +:+ exn_msg e))).

Definition process_query (self : QueryProcessor) (query : string) : M outcome :=
  try_except
    ((* First, try to process with simple pattern matching *)
     result <- _process_simple_query self query ;;
     if success result then ret result
     else
       (* If simple processing fails, use AI (if available) *)
       if api_key_configured cfg then _process_ai_query self query
       else ret (Failure "Complex queries require OpenAI API key. Please configure it in your environment."))
    (fun e => ret (Failure ("Error processing query: " +:+ exn_msg e))).

End QueryProcessor.

(** ** [src/visualizer.py]: the correlation heatmap *)

Section Visualizer.
Context `{P : Pandas}.

Record DataVisualizer := {
  dv_df : loc;                          (* self.df *)
  dv_numeric_columns : list string;     (* self.numeric_columns *)
}.

Definition DataVisualizer_init (dataframe : loc) : M DataVisualizer :=
  d <- load dataframe ;;
  ret {| dv_df := dataframe; dv_numeric_columns := columns (select_dtypes_number d) |}.

(** [create_correlation_heatmap], up to the matrix the figure is drawn
    from. *)
Definition create_correlation_heatmap (self : DataVisualizer) : M loc :=
  if (Z.of_nat (length (dv_numeric_columns self)) <? 2) then
    raise (Exn ValueError "Need at least 2 numeric columns for correlation analysis")
  else
    d <- load (dv_df self) ;;
    corr_matrix <- alloc (corr (select_dtypes_number d)) ;;
    ret corr_matrix.

End Visualizer.

(** ** [src/data_processor.py]: the other methods *)

Section MoreDataProcessor.
Context `{P : Pandas}.

(** Stable insertion sort, descending in an integer key. *)
Fixpoint insert_by_desc {A} (key : A -> Z) (x : A) (l : list A) : list A :=
  match l with
  | [] => [x]
  | y :: l' => if key y <=? key x then x :: l else y :: insert_by_desc key x l'
  end.

Definition sort_by_desc {A} (key : A -> Z) (l : list A) : list A :=
  foldr (insert_by_desc key) [] l.

(** The number of cells equal to [x]. *)
Definition count_of (x : value) (cells : list value) : Z :=
  Z.of_nat (length (List.filter (same_value x) cells)).

(** [s.value_counts()]: the distinct non-null values with the number of
    their occurrences, most frequent first.  Among values of equal count
    the order is the sort's; here they keep the order of first appearance,
    and no property below depends on it. *)
Definition series_value_counts (cells : list value) : list (value * Z) :=
  sort_by_desc snd
    (map (fun x => (x, count_of x (dropna cells))) (unique (dropna cells))).

(** [s.head(n)] *)
Definition series_head {A} (n : Z) (l : list A) : list A :=
  if 0 <=? n then take (Z.to_nat n) l
  else take (length l - Z.to_nat (- n)) l.

(** [self.df[column]] raises [KeyError] when the frame has no such column. *)
Definition getitem (d : DataFrame) (column : string) : result (list value) :=
  if bool_decide (column ∈ columns d) then Ok (series d column)
  else Raise (Exn KeyError ("'" +:+ column +:+ "'")).

Definition value_counts (self : DataProcessor) (column : string) (top_n : Z)
  : M (list (value * Z)) :=
  d <- load (dp_df self) ;;
  col_data <- lift (getitem d column) ;;
  ret (series_head top_n (series_value_counts col_data)).

(** [df.select_dtypes(include=..).columns] for a test on dtypes. *)
Definition select_dtypes_columns (include : dtype -> bool) (d : DataFrame) : list string :=
  (List.filter (fun ct => include ct.2) (schema d)).*1.

Definition is_object_dtype (t : dtype) : bool :=
  match t with object => true | _ => false end.

(** None of the three dtypes of the model is a [datetime64]. *)
Definition is_datetime64_dtype (t : dtype) : bool := false.

Definition suggest_analysis (self : DataProcessor) : M (list string) :=
  d <- load (dp_df self) ;;
  let suggestions := [] in
  let numeric_cols := select_dtypes_columns is_numeric_dtype d in
  let categorical_cols := select_dtypes_columns is_object_dtype d in
  let suggestions :=
    if (2 <=? length numeric_cols)%nat then
      (suggestions ++ ["Correlation analysis between numeric variables";
                       "Statistical summary of numeric columns"])%list
    else suggestions in
  let suggestions :=
    if (0 <? length categorical_cols)%nat then
      (suggestions ++ ["Frequency analysis of categorical variables"])%list
    else suggestions in
  let suggestions :=
    if (0 <? length numeric_cols)%nat && (0 <? length categorical_cols)%nat then
      (suggestions ++ ["Group-by analysis (numeric by categories)"])%list
    else suggestions in
  (* Check for potential time series *)
  let date_cols := select_dtypes_columns is_datetime64_dtype d in
  let suggestions :=
    if (0 <? length date_cols)%nat then
      (suggestions ++ ["Time series analysis"])%list
    else suggestions in
  (* Check for potential outliers *)
  let suggestions :=
    if (0 <? length numeric_cols)%nat then
      (suggestions ++ ["Outlier detection and analysis"])%list
    else suggestions in
  ret suggestions.

(** The cells of a row under the columns of the frame. *)
Definition row_values (d : DataFrame) (r : row) : list value :=
  map (fun j => nth j (row_cells r) VNull) (seq 0 (length (schema d))).

Fixpoint same_values (a b : list value) : bool :=
  match a, b with
  | [], [] => true
  | x :: a', y :: b' => same_value x y && same_values a' b'
  | _, _ => false
  end.

(** [df.duplicated()]: a row is marked when an earlier row has the same
    values; an empty frame gives an empty series. *)
Fixpoint duplicated_acc (seen : list (list value)) (rs : list (list value)) : list bool :=
  match rs with
  | [] => []
  | r :: rs' => existsb (same_values r) seen :: duplicated_acc (r :: seen) rs'
  end.

Definition duplicated (d : DataFrame) : list bool :=
  if df_empty d then [] else duplicated_acc [] (map (row_values d) (rows d)).

(** [mask.sum()] *)
Definition mask_sum (mask : list bool) : Z :=
  Z.of_nat (length (List.filter (fun b : bool => b) mask)).

(** [df.isnull().any(axis=1)] *)
Definition isnull_any (d : DataFrame) : list bool :=
  map (fun r => existsb isnull (row_values d r)) (rows d).

(** [dtype_counts.get(name, default)] for
    [dtype_counts = df.dtypes.value_counts()]: the lookup of a dtype by
    the text of its name is left to pandas. *)
Class DtypeCounts := {
  dtype_counts_get : DataFrame -> string -> Z -> Z;
}.

Definition get_data_quality_report `{DtypeCounts} (self : DataProcessor)
  : M (list (string * value)) :=
  d <- load (dp_df self) ;;
  let report := [] in
  (* Basic metrics *)
  let report := (report ++ [("Total Records", VStr (Str.of_int_grouped (df_len d)))])%list in
  let report :=
    (report ++ [("Total Columns", VInt (Z.of_nat (length (columns d))))])%list in
  let report := (report ++ [("Duplicate Rows", VInt (mask_sum (duplicated d)))])%list in
  let report :=
    (report ++ [("Complete Records", VInt (df_len d - mask_sum (isnull_any d)))])%list in
  (* Data type distribution *)
  let report :=
    (report ++ [("Numeric Columns",
                 VInt (dtype_counts_get d "int64" 0 + dtype_counts_get d "float64" 0))])%list in
  let report := (report ++ [("Text Columns", VInt (dtype_counts_get d "object" 0))])%list in
  let report :=
    (report ++ [("Date Columns", VInt (dtype_counts_get d "datetime64[ns]" 0))])%list in
  ret report.

End MoreDataProcessor.

(** ** [src/config.py]: the upload settings *)


(** ** [src/utils.py]: class [FileHandler] *)

(** [os.path.splitext(p)[1]] (POSIX): the part of the base name from its
    last dot on, where dots that open the base name do not count. *)
Module Path.

(** The text after the last [c], or the whole text; [cur] is the text read
    since the last [c], reversed. *)
Fixpoint after_last_acc (c : ascii) (cur : string) (s : string) : string :=
  match s with
  | EmptyString => Str.rev cur
  | String x s' =>
      if Ascii.eqb x c then after_last_acc c "" s'
      else after_last_acc c (String x cur) s'
  end.

Definition basename (p : string) : string := after_last_acc "/" "" p.

Fixpoint strip_dots (s : string) : string :=
  match s with
  | String "." s' => strip_dots s'
  | _ => s
  end.

Definition ext (p : string) : string :=
  let name := strip_dots (basename p) in
  if Str.contains "." name then "." +:+ after_last_acc "." "" name else "".

End Path.

Section FileHandler.
Context `{F : Float64}.

(** What [pd.read_csv] does with a file under an encoding: it returns a
    frame, raises [UnicodeDecodeError], or raises another exception. *)
Inductive csv_read :=
  | CsvFrame (d : DataFrame)
  | CsvDecodeError
  | CsvError (e : exn).

(** The uploaded file, with what the two readers of pandas make of it. *)
Record UploadedFile := {
  name : string;
  read_csv : string -> csv_read;        (* by encoding *)
  read_excel : result DataFrame;
}.

Definition encodings : list string := ["utf-8"; "latin-1"; "iso-8859-1"; "cp1252"].

(** The loop over the encodings, and the [raise] that follows it. *)
Fixpoint read_with (uploaded_file : UploadedFile) (encodings : list string)
  : result DataFrame :=
  match encodings with
  | [] => Raise (Exn ValueError "Could not read CSV file with any supported encoding")
  | encoding :: encodings' =>
      match read_csv uploaded_file encoding with
      | CsvFrame df => Ok df
      | CsvDecodeError => read_with uploaded_file encodings'
      | CsvError e => Raise e
      end
  end.

(** [process_uploaded_file] returns the frame or [None]; the second
    component is the message it hands to [st.error]. *)
Definition process_uploaded_file (uploaded_file : UploadedFile)
  : result (option DataFrame * option string) :=
  let body :=
    (* Get file extension *)
    let file_extension := Str.lower (Path.ext (name uploaded_file)) in
    (* Read file based on extension *)
    if String.eqb file_extension ".csv" then
      read_with uploaded_file encodings
    else if bool_decide (file_extension ∈ [".xlsx"; ".xls"]) then
      read_excel uploaded_file
    else Raise (Exn ValueError ("Unsupported file format: " +:+ file_extension)) in
  match body with
  | Ok df => Ok (Some df, None)
  | Raise e =>
      if is_Exception (exn_class e)
      then Ok (None, Some ("Error reading file: " +:+ exn_msg e))
      else Raise e
  end.

End FileHandler.

(** ** [src/utils.py]: class [DataValidator] *)

(** [x > y] between floats. *)
Class FloatGt `{F : Float64} := {
  fgtb : float -> float -> bool;
}.

Section DataValidator.
Context `{P : Pandas} `{G : !FloatGt}.

Record validation_report := {
  is_valid : bool;
  warnings : list string;
  errors : list string;
  recommendations : list string;
}.

(** [df.columns[df.isnull().all()].tolist()] *)
Definition all_null_columns (d : DataFrame) : list string :=
  (List.filter (fun jc => forallb isnull (series_at d jc.1))
     (imap (fun j ct => (j, ct.1)) (schema d))).*2.

Definition validate_dataframe (df : loc) : M validation_report :=
  d <- load df ;;
  let validation_report :=
    {| is_valid := true; warnings := []; errors := []; recommendations := [] |} in
  (* Check if DataFrame is empty *)
  if df_empty d then
    ret {| is_valid := false;
           warnings := warnings validation_report;
           errors := (errors validation_report ++ ["DataFrame is empty"])%list;
           recommendations := recommendations validation_report |}
  else
    let warnings := warnings validation_report in
    (* Check for extremely large datasets *)
    let warnings :=
      if 1000000 <? df_len d then
        (warnings ++ ["Large dataset (" +:+ Str.of_int_grouped (df_len d)
                      +:+ " rows). Consider sampling for better performance."])%list
      else warnings in
    (* Check for high memory usage *)
    let memory_usage_mb :=
      fdiv (fdiv (f_of_Z (frame_memory_usage d)) (f_of_Z 1024)) (f_of_Z 1024) in
    let warnings :=
      if fgtb memory_usage_mb (f_of_Z 500) then
        (warnings ++ ["High memory usage (" +:+ format_1f memory_usage_mb
                      +:+ " MB). Consider data optimization."])%list
      else warnings in
    (* Check for missing values *)
    let missing_percentage :=
      fmul (fdiv (f_of_Z (foldr Z.add 0 (isnull_sum d).*2))
                 (f_of_Z (df_len d * Z.of_nat (length (columns d)))))
           (f_of_Z 100) in
    let warnings :=
      if fgtb missing_percentage (f_of_Z 50) then
        (warnings ++ ["High percentage of missing values ("
                      +:+ format_1f missing_percentage +:+ "%)"])%list
      else warnings in
    (* Check for duplicate rows *)
    let duplicate_count := mask_sum (duplicated d) in
    let warnings :=
      if 0 <? duplicate_count then
        (warnings ++ ["Found " +:+ Str.of_int duplicate_count +:+ " duplicate rows"])%list
      else warnings in
    (* Check for columns with all missing values *)
    let all_null_cols := all_null_columns d in
    let warnings :=
      match all_null_cols with
      | [] => warnings
      | _ =>
          (warnings ++ ["Columns with all missing values: "
                        +:+ Str.join ", " all_null_cols])%list
      end in
    (* Recommendations *)
    let recommendations := recommendations validation_report in
    let numeric_cols := select_dtypes_columns is_numeric_dtype d in
    let recommendations :=
      if (2 <=? length numeric_cols)%nat then
        (recommendations
         ++ ["Consider correlation analysis between numeric variables"])%list
      else recommendations in
    let categorical_cols := select_dtypes_columns is_object_dtype d in
    let recommendations :=
      if (0 <? length categorical_cols)%nat then
        (recommendations ++ ["Explore categorical variable distributions"])%list
      else recommendations in
    ret {| is_valid := is_valid validation_report;
           warnings := warnings;
           errors := errors validation_report;
           recommendations := recommendations |}.

End DataValidator.

(** ** The vocabulary of the properties *)

Section Vocabulary.
Context `{P : Pandas} `{Py : !Python} `{AI : OpenAI}.

(** *** Queries *)

(** Every character of [s] satisfies [p]. *)
Fixpoint all_chars (p : ascii -> bool) (s : string) : bool :=
  match s with
  | EmptyString => true
  | String c s' => p c && all_chars p s'
  end.

Definition starts_with_digit (s : string) : bool :=
  match s with
  | EmptyString => false
  | String c _ => Str.is_digit c
  end.


(** The first integer literal of the text is longer than [int] reads. *)
Definition first_literal_too_long (text : string) : Prop :=
  exists pre ds post,
    all_chars (fun c => negb (Str.is_digit c)) pre = true
    /\ all_chars Str.is_digit ds = true
    /\ (Str.int_max_str_digits < String.length ds)%nat
    /\ starts_with_digit post = false
    /\ text = pre +:+ ds +:+ post.

(** The first rule of [_process_simple_query]. *)
Definition top_rule (query : string) : bool :=
  let query_lower := Str.strip (Str.lower query) in
  Str.contains "top" query_lower
  && Str.any_in ["rows"; "records"; "entries"] query_lower.

(** The other rules of [_process_simple_query], in the order of the
    source. *)
Definition info_rule (query : string) : bool :=
  Str.any_in ["info"; "information"; "overview"; "summary"] (Str.strip (Str.lower query)).

Definition statistics_rule (query : string) : bool :=
  Str.any_in ["statistics"; "stats"; "describe"; "summary"] (Str.strip (Str.lower query)).

Definition count_rule (query : string) : bool :=
  Str.any_in ["count"; "number of rows"; "how many rows"] (Str.strip (Str.lower query)).

Definition columns_rule (query : string) : bool :=
  Str.any_in ["columns"; "column names"; "fields"] (Str.strip (Str.lower query)).

Definition missing_rule (query : string) : bool :=
  Str.any_in ["missing"; "null"; "nan"; "empty"] (Str.strip (Str.lower query)).

Definition correlation_rule (query : string) : bool :=
  Str.contains "correlation" (Str.strip (Str.lower query))
  || Str.contains "corr" (Str.strip (Str.lower query)).

(** Some rule of tier 1 matches the query. *)
Definition tier1_rule (query : string) : bool :=
  top_rule query || info_rule query || statistics_rule query || count_rule query
  || columns_rule query || missing_rule query || correlation_rule query.

(** *** Frames and the heap *)

(** The table [get_column_info] builds for the frame [d]. *)
Definition column_info_table (d : DataFrame) : DataFrame :=
  DataFrame_of_records
    (imap (fun j ct => column_info ct.1 ct.2 (series_at d j)) (schema d)).

(** [w'] has every frame of [w], unchanged, and the same calls. *)
Definition extends (w w' : world) : Prop :=
  heap w ⊆ heap w' /\ calls w' = calls w.

(** A computation that only reads frames and creates new ones. *)
Definition grows {A} (m : M A) : Prop :=
  forall w r w', m w = (r, w') -> extends w w'.

(** A reference returned by a computation started in [w0] is new when no
    frame of [w0] lives there. *)
Definition new_in (w0 : world) (l : loc) (w : world) : Prop :=
  heap w0 !! l = None /\ is_Some (heap w !! l).

(** Started in [w], the computation returns a reference that is new with
    respect to [w0]. *)
Definition new_result (m : M loc) (w0 w : world) : Prop :=
  forall l w', m w = (Ok l, w') -> new_in w0 l w'.

(** The calls of a [DataProcessor] the specification lists. *)
Inductive operation :=
  | GetColumnInfo
  | AnalyzeMissingData
  | CorrelationAnalysis
  | FilterData (conditions : list (string * condition))
  | GroupAnalysis (group_by_col agg_col agg_func : string).

Definition call (self : DataProcessor) (op : operation) : M loc :=
  match op with
  | GetColumnInfo => get_column_info self
  | AnalyzeMissingData => analyze_missing_data self
  | CorrelationAnalysis => correlation_analysis self
  | FilterData conditions => filter_data self conditions
  | GroupAnalysis g a f => group_analysis self g a f
  end.

(** *** Filters *)

(** What one iteration of the loop computes, on frames. *)
Definition filter_frame_step (d : DataFrame) (item : string * condition)
  : result DataFrame :=
  let '(column, condition) := item in
  if bool_decide (column ∈ columns d) then
    match condition with
    | CDict c =>
        result_bind
          match c !! "min" with
          | Some a =>
              result_bind (series_ge (column_dtype d column) (series d column) a)
                (fun mask => Ok (getitem_mask d mask))
          | None => Ok d
          end
          (fun d1 =>
             match c !! "max" with
             | Some b =>
                 result_bind (series_le (column_dtype d1 column) (series d1 column) b)
                   (fun mask => Ok (getitem_mask d1 mask))
             | None => Ok d1
             end)
    | CList values => Ok (getitem_mask d (series_isin (series d column) values))
    | CScalar v => Ok (getitem_mask d (series_eq (series d column) v))
    end
  else Ok d.

Fixpoint filter_frame (d : DataFrame) (conditions : list (string * condition))
  : result DataFrame :=
  match conditions with
  | [] => Ok d
  | item :: conditions' =>
      result_bind (filter_frame_step d item) (fun d' => filter_frame d' conditions')
  end.

(** The frame a run returns, or the exception it raises. *)
Definition returned_frame (run : result loc * world) : result DataFrame :=
  match run with
  | (Ok l, w) =>
      match heap w !! l with
      | Some d => Ok d
      | None => Raise (Exn RuntimeError "dangling reference")
      end
  | (Raise e, _) => Raise e
  end.

(** The run ends as [r] says: it returns a reference to that frame, or
    raises that exception. *)
Definition returns (run : result loc * world) (r : result DataFrame) : Prop :=
  match run, r with
  | (Ok l, w), Ok d => heap w !! l = Some d
  | (Raise e, _), Raise e' => e = e'
  | _, _ => False
  end.

(** [x] and [y] can be ordered: [x <= y] does not raise. *)
Definition comparable (x y : value) : bool :=
  match py_le x y with Ok _ => true | Raise _ => false end.

(** [x <= y] holds. *)
Definition le_value (x y : value) : bool :=
  match py_le x y with Ok t => t | Raise _ => false end.

(** [a <= v <= b] *)
Definition in_range (a b v : value) : bool := le_value a v && le_value v b.

(** [{**c1, **c2}]: the keys of [c1] in their order, with the value [c2]
    gives them if it has one, then the keys only [c2] has. *)
Definition dict_get (c : list (string * condition)) (k : string) : option condition :=
  snd <$> List.find (fun kv => String.eqb k kv.1) c.

Definition dict_union (c1 c2 : list (string * condition)) : list (string * condition) :=
  (map (fun kv => (kv.1, default kv.2 (dict_get c2 kv.1))) c1
   ++ List.filter (fun kv => negb (bool_decide (kv.1 ∈ c1.*1))) c2)%list.

(** Filter with [c1], wrap the result in a new [DataProcessor], filter
    with [c2]. *)
Definition filter_then_filter (self : DataProcessor)
  (c1 c2 : list (string * condition)) : M loc :=
  filtered <- filter_data self c1 ;;
  self' <- DataProcessor_init filtered ;;
  filter_data self' c2.

(** The conditions whose key is a column of [d], and the others. *)
Definition known (d : DataFrame) (item : string * condition) : bool :=
  bool_decide (item.1 ∈ columns d).

(** *** The missing-data report *)

(** The report, as a function of the frame. *)
Definition missing_rows (d : DataFrame) : list row :=
  imap (fun i cn =>
          Row (VInt (Z.of_nat i))
              [VStr cn.1; VInt cn.2; VFloat (missing_percentage cn.2 (df_len d))])
       (List.filter (fun cn => 0 <? cn.2) (isnull_sum d)).

Definition missing_report (d : DataFrame) : DataFrame :=
  match List.filter (fun cn => 0 <? cn.2) (isnull_sum d) with
  | [] => empty_frame
  | _ => sort_values_desc "Missing Count" (Frame missing_schema (missing_rows d))
  end.

(** Some column of [d] holds a null. *)
Definition has_null (d : DataFrame) : Prop :=
  exists j ct v, schema d !! j = Some ct /\ v ∈ series_at d j /\ isnull v = true.

Definition desc (key : row -> Z) (r1 r2 : row) : Prop := key r2 <= key r1.

(** *** Exceptions and the sandbox *)

(** Whatever the computation returns satisfies [Q]. *)
Definition ensures {A} (m : M A) (Q : A -> Prop) : Prop :=
  forall w a w', m w = (Ok a, w') -> Q a.

(** The exception [e] was raised by one of the calls that the run of
    [process_query] on [query] in [w] makes to the libraries and the
    oracles: [describe] on the frame, the request to the endpoint, [exec]
    on the fragment of the reply, or [eval] on its last line. *)
Inductive raised_in_run (self : QueryProcessor) (query : string) (w : world) (e : exn)
  : Prop :=
  | raised_by_describe (d : DataFrame) :
      heap w !! qp_df self = Some d ->
      describe d = Raise e ->
      raised_in_run self query w e
  | raised_by_chat (d : DataFrame) :
      heap w !! qp_df self = Some d ->
      ChatCompletion_create (request (_create_analysis_prompt query (dataset_context d)))
      = Raise e ->
      raised_in_run self query w e
  | raised_by_exec (d : DataFrame) (content code : string) (h' : gmap loc DataFrame) :
      heap w !! qp_df self = Some d ->
      ChatCompletion_create (request (_create_analysis_prompt query (dataset_context d)))
      = Ok content ->
      _extract_code_from_response content = Some code ->
      py_exec code (safe_dict self) (heap w) = (Raise e, h') ->
      raised_in_run self query w e
  | raised_by_eval (d : DataFrame) (content code : string) (globals : gmap string pyobj)
      (h1 h2 : gmap loc DataFrame) :
      heap w !! qp_df self = Some d ->
      ChatCompletion_create (request (_create_analysis_prompt query (dataset_context d)))
      = Ok content ->
      _extract_code_from_response content = Some code ->
      py_exec code (safe_dict self) (heap w) = (Ok globals, h1) ->
      py_eval (List.last (Str.split_lines code) "") globals h1 = (Raise e, h2) ->
      raised_in_run self query w e.

(** The query matches the count rule and no rule before it. *)
Definition reaches_count_rule (query : string) : bool :=
  negb (top_rule query) && negb (info_rule query) && negb (statistics_rule query)
  && count_rule query.

(** The outcome of the count rule on a frame. *)
Definition count_outcome (d : DataFrame) : outcome :=
  Success (PyStr ("Total rows: " +:+ Str.of_int_grouped (df_len d)))
          ("The dataset contains " +:+ Str.of_int_grouped (df_len d) +:+ " rows")
          "len(df)".

Definition safe_bindings (self : QueryProcessor) : list (string * pyobj) :=
  [ ("df", PyFrame (qp_df self));
    ("pd", PyModule "pandas");
    ("len", PyBuiltin "len");
    ("sum", PyBuiltin "sum");
    ("max", PyBuiltin "max");
    ("min", PyBuiltin "min");
    ("round", PyBuiltin "round") ].

(** The correlation rule is the first rule that matches the query. *)
Definition reaches_correlation_rule (query : string) : bool :=
  negb (top_rule query) && negb (info_rule query) && negb (statistics_rule query)
  && negb (count_rule query) && negb (columns_rule query) && negb (missing_rule query)
  && correlation_rule query.

End Vocabulary.

(** ** The vocabulary of the further properties *)

Section MoreVocabulary.
Context `{P : Pandas} `{Py : !Python} `{AI : OpenAI}.

(** *** Replies of the endpoint *)

(** The fences of [_extract_code_from_response]. *)
Definition fence_open : string := "```python" +:+ Str.nl.
Definition fence_close : string := Str.nl +:+ "```".

(** The test of the fallback of [_extract_code_from_response] on a line. *)
Definition is_code_line (line : string) : bool :=
  Str.contains "df." line || Str.any_in ["import"; "print"; "="] line.

(** No character of [s] is [c]. *)
Definition no_char (c : ascii) (s : string) : bool :=
  all_chars (fun x => negb (Ascii.eqb x c)) s.

(** *** Rules reached *)

(** The query matches the missing-values rule and no rule before it. *)
Definition reaches_missing_rule (query : string) : bool :=
  negb (top_rule query) && negb (info_rule query) && negb (statistics_rule query)
  && negb (count_rule query) && negb (columns_rule query) && missing_rule query.

(** *** Runs of [process_query] *)

(** The calls one query may add to the log: none; or one request to the
    endpoint; then one [exec] of a fragment with the globals of the
    sandbox; then one [eval]. *)
Inductive query_trace (self : QueryProcessor) : list event -> Prop :=
  | trace_local : query_trace self []
  | trace_chat req : query_trace self [EvChat req]
  | trace_exec req code : query_trace self [EvChat req; EvExec code (safe_dict self)]
  | trace_eval req code expr globals :
      query_trace self [EvChat req; EvExec code (safe_dict self); EvEval expr globals].

(** The ways [_process_ai_query] ends. *)
Inductive ai_outcome : result outcome -> Prop :=
  | ai_success v content code :
      _extract_code_from_response content = Some code ->
      code <> "" ->
      ai_outcome (Ok (Success v content code))
  | ai_no_code :
      ai_outcome (Ok (Failure "Could not generate valid code from the query"))
  | ai_error m :
      ai_outcome (Ok (Failure ("AI processing error: " +:+ m)))
  | ai_uncaught e :
      is_Exception (exn_class e) = false ->
      ai_outcome (Raise e).

(** *** The operations of [DataProcessor] as functions of the frame *)

Definition dangling : exn := Exn RuntimeError "dangling reference".

(** The frame an operation returns, or the exception it raises, on a
    receiver whose frame is [d]. *)
Definition op_frame (d : DataFrame) (op : operation) : result DataFrame :=
  match op with
  | GetColumnInfo => Ok (column_info_table d)
  | AnalyzeMissingData => Ok (missing_report d)
  | CorrelationAnalysis => Ok (corr (select_dtypes_number d))
  | FilterData conditions => filter_frame d conditions
  | GroupAnalysis group_by_col agg_col agg_func =>
      if negb (bool_decide (group_by_col ∈ columns d))
         || negb (bool_decide (agg_col ∈ columns d))
      then Raise (Exn ValueError "Specified columns not found in dataframe")
      else groupby_agg d group_by_col agg_col agg_func
  end.

(** Whether a row passes one condition of [filter_data]. *)
Definition keep (d : DataFrame) (item : string * condition) (r : row) : bool :=
  let '(column, condition) := item in
  if bool_decide (column ∈ columns d) then
    match condition with
    | CDict c =>
        match c !! "min" with Some a => le_value a (cell d column r) | None => true end
        && match c !! "max" with Some b => le_value (cell d column r) b | None => true end
    | CList values => existsb (same_value (cell d column r)) values
    | CScalar v => py_eq (cell d column r) v
    end
  else true.

(** No list condition has a null among its values. *)
Definition null_free (conditions : list (string * condition)) : bool :=
  forallb (fun item : string * condition =>
             match item.2 with
             | CList values => forallb (fun v => negb (isnull v)) values
             | _ => true
             end)
          conditions.

(** Whether a row passes every condition. *)
Definition keep_all (d : DataFrame) (conditions : list (string * condition)) (r : row)
  : bool :=
  forallb (fun item => keep d item r) conditions.

End MoreVocabulary.

(** ** A reference interpretation of the libraries

    Used to run the model on concrete inputs.  Float results are kept as the
    expression that produced them; the interpreter and the chat endpoint
    follow a script. *)

Module Reference.

(** A float: an integer literal or an operation applied to floats. *)
#[warnings="-register-all"]
Inductive sfloat :=
  | SLit (z : Z)
  | SOp (op : string) (args : list sfloat) (params : list Z).

#[export] Instance Symbolic : Float64 := {|
  float := sfloat;
  f_of_Z := SLit;
  fdiv x y := SOp "div" [x; y] [];
  fmul x y := SOp "mul" [x; y] [];
  fround x n := SOp "round" [x] [n];
  np_round x n := SOp "np.round" [x] [n];
  format_1f x := match x with
                 | SLit z => Str.of_int z +:+ ".0"
                 | SOp op _ _ => "<" +:+ op +:+ ":.1f>"
                 end;
  fleb x y := match x, y with SLit a, SLit b => a <=? b | _, _ => false end;
  feqb x y := match x, y with SLit a, SLit b => a =? b | _, _ => false end;
  float_str x := match x with
                 | SLit z => Str.of_int z +:+ ".0"
                 | SOp op _ _ => "<" +:+ op +:+ ">"
                 end;
|}.

Definition as_float (v : value) : sfloat :=
  match v with
  | VNull => SOp "nan" [] []
  | VInt z => SLit z
  | VFloat x => x
  | VStr s => SOp s [] []
  end.

Definition stat (name : string) (cells : list value) : sfloat :=
  SOp name (map as_float cells) [].

Definition describe_rows : list string :=
  ["count"; "mean"; "std"; "min"; "25%"; "50%"; "75%"; "max"].

Definition ref_describe (d : DataFrame) : result DataFrame :=
  match schema d with
  | [] => Raise (Exn ValueError "Cannot describe a DataFrame without columns")
  | _ =>
      let nd := select_dtypes_number d in
      Ok (Frame (map (fun ct => (ct.1, float64)) (schema nd))
                (map (fun name =>
                        Row (VStr name)
                            (imap (fun j _ => VFloat (stat name (series_at nd j)))
                                  (schema nd)))
                     describe_rows))
  end.

Definition known_aggregations : list string :=
  ["mean"; "sum"; "count"; "min"; "max"; "median"].

Definition ref_groupby_agg (d : DataFrame) (g a f : string) : result DataFrame :=
  if bool_decide (f ∈ known_aggregations) then
    let keys := unique (dropna (series d g)) in
    Ok (Frame [(g, object); (a, float64)]
              (imap (fun i k =>
                       Row (VInt (Z.of_nat i))
                           [k; VFloat (stat f (map (cell d a)
                                                   (List.filter
                                                      (fun r => same_value (cell d g r) k)
                                                      (rows d))))])
                    keys))
  else Raise (Exn AttributeError ("'SeriesGroupBy' object has no attribute '" +:+ f +:+ "'")).

#[export] Instance ReferencePandas : Pandas := {|
  pearson x y := SOp "pearson" (map as_float x ++ map as_float y)%list [];
  describe := ref_describe;
  groupby_agg := ref_groupby_agg;
  series_memory_usage _ cells := 128 + 8 * Z.of_nat (length cells);
  frame_memory_usage d :=
    128 + 8 * Z.of_nat (length (rows d)) * Z.of_nat (length (schema d));
  series_min cells := VFloat (stat "min" cells);
  series_max cells := VFloat (stat "max" cells);
  series_mean cells := stat "mean" cells;
  dtypes_repr d :=
    "{" +:+ Str.join ", "
              (map (fun ct => "'" +:+ ct.1 +:+ "': dtype('" +:+ dtype_str ct.2 +:+ "')")
                   (schema d)) +:+ "}";
  to_string d :=
    Str.join Str.nl
      (Str.join "  " (columns d)
       :: map (fun r => Str.join "  " (py_str (row_label r) :: map py_str (row_cells r)))
              (rows d));
|}.

(** The interpreter script: a few fragments, answered as CPython answers
    them.  [exits] tells whether the script knows [raise SystemExit]. *)
Definition ref_exec (exits : bool) (code : string) (globals : gmap string pyobj)
  (h : gmap loc DataFrame) : result (gmap string pyobj) * gmap loc DataFrame :=
  if String.eqb code "result = len(df)" then
    match globals !! "df" with
    | Some (PyFrame l) =>
        match h !! l with
        | Some d => (Ok (<["result" := PyScalar (VInt (df_len d))]> globals), h)
        | None => (Raise (Exn RuntimeError "dangling reference"), h)
        end
    | _ => (Raise (Exn NameError "name 'df' is not defined"), h)
    end
  else if String.eqb code "1/0" then
    (Raise (Exn ZeroDivisionError "division by zero"), h)
  else if exits && String.eqb code "raise SystemExit" then
    (Raise (Exn SystemExit ""), h)
  else (Raise (Exn RuntimeError "fragment outside the script"), h).

Definition ref_eval (expr : string) (globals : gmap string pyobj)
  (h : gmap loc DataFrame) : result pyobj * gmap loc DataFrame :=
  (Raise (Exn RuntimeError "fragment outside the script"), h).

(** The script changes no frame. *)
Definition ref_exec_heap (exits : bool) (code : string) (globals : gmap string pyobj)
  (h : gmap loc DataFrame) : (ref_exec exits code globals h).2 = h :=
  ltac:(unfold ref_exec; repeat case_match; reflexivity).

Definition ScriptedPython : Python :=
  {| py_exec := ref_exec false; py_eval := ref_eval;
     py_exec_keeps code globals h :=
       eq_ind_r (fun h' => dom h ⊆ dom h') (reflexivity (dom h))
                (ref_exec_heap false code globals h);
     py_eval_keeps expr globals h := reflexivity (dom h) |}.

Definition ExitingPython : Python :=
  {| py_exec := ref_exec true; py_eval := ref_eval;
     py_exec_keeps code globals h :=
       eq_ind_r (fun h' => dom h ⊆ dom h') (reflexivity (dom h))
                (ref_exec_heap true code globals h);
     py_eval_keeps expr globals h := reflexivity (dom h) |}.

(** A chat endpoint that answers every request with [reply]. *)
Definition Scripted (reply : result string) : OpenAI :=
  {| ChatCompletion_create := fun _ => reply |}.

Definition fenced (code : string) : string :=
  "Here is the code:" +:+ Str.nl +:+ "```python" +:+ Str.nl +:+ code +:+ Str.nl +:+ "```".

(** Sample data: an [id] and an [age] column of integers, a [name] column
    of strings with one null. *)
Definition people : DataFrame :=
  Frame [("id", int64); ("age", int64); ("name", object)]
        [ Row (VInt 0) [VInt 1; VInt 34; VStr "ann"];
          Row (VInt 1) [VInt 2; VInt 51; VNull];
          Row (VInt 2) [VInt 3; VInt 27; VStr "cy"];
          Row (VInt 3) [VInt 4; VInt 45; VStr "di"] ].

(** A frame with a single numeric column. *)
Definition single_numeric : DataFrame :=
  Frame [("x", int64); ("label", object)]
        [ Row (VInt 0) [VInt 1; VStr "a"];
          Row (VInt 1) [VInt 2; VStr "b"];
          Row (VInt 2) [VInt 3; VStr "c"] ].

(** A world holding [d] as the caller's frame (at 1) and the two copies
    [DataProcessor.__init__] made of it (at 2 and 3). *)
Definition world_of (d : DataFrame) : world :=
  World (<[3%positive := d]> (<[2%positive := d]> (<[1%positive := d]> ∅))) [].

Definition processor : DataProcessor :=
  {| dp_df := 2%positive; dp_original_df := 3%positive |}.

Definition query_processor : QueryProcessor :=
  {| qp_df := 1%positive; qp_data_processor := processor |}.

Definition no_key : Config := {| OPENAI_API_KEY := None |}.
Definition with_key : Config := {| OPENAI_API_KEY := Some "sk-test" |}.

(** An endpoint that cannot be reached. *)
Definition unreachable : OpenAI :=
  Scripted (Raise (Exn RuntimeError "connection refused")).

Definition mad_query : string :=
  "compute the median absolute deviation of salary grouped by department".

Definition age_30_50 : list (string * condition) :=
  [("age", CDict {[ "min" := VInt 30; "max" := VInt 50 ]})].

Definition unknown_salary : list (string * condition) :=
  [("salary", CScalar (VInt 1)); ("age", CDict {[ "min" := VInt 40 ]})].

Definition group_by_name : operation := GroupAnalysis "name" "age" "mean".

(** U+00A0, NO-BREAK SPACE, in UTF-8. *)
Definition nbsp : string := String (ascii_of_nat 194) (String (ascii_of_nat 160) "").



End Reference.

(** ** Further sample data *)

Module Samples.
Import Reference.

(** A lookup of dtypes by name that finds the columns of that dtype. *)
Definition CountByName : DtypeCounts :=
  {| dtype_counts_get d name default :=
       let n := Z.of_nat (length (List.filter (fun ct => String.eqb (dtype_str ct.2) name)
                                              (schema d))) in
       if n =? 0 then default else n |}.

Definition SymbolicGt : FloatGt :=
  {| fgtb x y := match x, y with SLit a, SLit b => b <? a | _, _ => false end |}.

(** An upload that does not decode as utf-8 and reads as latin-1. *)
Definition latin1_csv : UploadedFile :=
  {| name := "Sales.CSV";
     read_csv encoding :=
       if String.eqb encoding "utf-8" then CsvDecodeError
       else if String.eqb encoding "latin-1" then CsvFrame people
       else CsvError (Exn RuntimeError "not read");
     read_excel := Raise (Exn RuntimeError "not read") |}.

(** The world of [people] after the caller's frame was replaced and an
    outside call was logged. *)
Definition elsewhere : world :=
  World (<[1%positive := single_numeric]> (heap (world_of people))) [EvEval "1" ∅].

Definition adults_named : list (string * condition) :=
  [("age", CDict {[ "min" := VInt 30 ]}); ("name", CList [VStr "ann"; VStr "di"])].

Definition named_adults : list (string * condition) :=
  [("name", CList [VStr "ann"; VStr "di"]); ("age", CDict {[ "min" := VInt 30 ]})].

Definition ann_and_di : DataFrame :=
  Frame [("id", int64); ("age", int64); ("name", object)]
        [ Row (VInt 0) [VInt 1; VInt 34; VStr "ann"];
          Row (VInt 3) [VInt 4; VInt 45; VStr "di"] ].

End Samples.

(** * Properties *)

Arguments Str.contains : simpl never.
Arguments Str.any_in : simpl never.
Arguments Str.of_int : simpl never.
Arguments Str.of_int_grouped : simpl never.
Arguments Str.strip : simpl never.

(** ** Strings *)

#[local] Arguments String.append !_ _ : simpl nomatch.

Lemma append_assoc_str (a b c : string) : (a +:+ b) +:+ c = a +:+ (b +:+ c).
Proof. induction a as [|x a IH]; simpl; [reflexivity | now rewrite IH]. Qed.

Lemma startswith_app (p s : string) : Str.startswith p (p +:+ s) = true.
Proof.
  induction p as [|c p IH]; simpl; [reflexivity|].
  now rewrite Ascii.eqb_refl.
Qed.

Lemma contains_here (p s : string) : Str.contains p (p +:+ s) = true.
Proof.
  destruct p as [|c p].
  - destruct s; reflexivity.
  - change (Str.startswith (String c p) (String c p +:+ s)
            || Str.contains (String c p) (p +:+ s) = true).
    now rewrite startswith_app.
Qed.

Lemma contains_skip (p a s : string) :
  Str.contains p s = true -> Str.contains p (a +:+ s) = true.
Proof.
  intros H. induction a as [|c a IH]; simpl; [exact H|].
  change (Str.startswith p (String c (a +:+ s)) || Str.contains p (a +:+ s) = true).
  rewrite IH. apply orb_true_r.
Qed.

Lemma contains_middle (p a b : string) : Str.contains p (a +:+ p +:+ b) = true.
Proof. apply contains_skip, contains_here. Qed.

Lemma rev_acc_rev_acc (s a b : string) :
  Str.rev_acc (Str.rev_acc s a) b = Str.rev_acc a (s +:+ b).
Proof.
  revert a b. induction s as [|c s IH]; intros a b; simpl; [reflexivity|].
  now rewrite IH.
Qed.

Lemma rev_rev_acc (s : string) : Str.rev (Str.rev_acc s "") = s.
Proof.
  unfold Str.rev. rewrite rev_acc_rev_acc. simpl.
  induction s as [|c s IH]; simpl; [reflexivity | now rewrite IH].
Qed.

Lemma findall_digits_run (ds post cur : string) :
  all_chars Str.is_digit ds = true ->
  Str.findall_digits_acc cur (ds +:+ post)
  = Str.findall_digits_acc (Str.rev_acc ds cur) post.
Proof.
  revert cur. induction ds as [|c ds IH]; intros cur H; simpl in *; [reflexivity|].
  apply andb_true_iff in H as [Hc Hds]. rewrite Hc. now apply IH.
Qed.

Lemma findall_digits_close (cur post : string) :
  cur <> "" -> starts_with_digit post = false ->
  exists rest, Str.findall_digits_acc cur post = Str.rev cur :: rest.
Proof.
  intros Hcur Hpost. destruct post as [|c post]; simpl in *.
  - destruct cur; [congruence | eauto].
  - rewrite Hpost. destruct cur; [congruence | eauto].
Qed.

Lemma findall_digits_skip (pre s : string) :
  all_chars (fun c => negb (Str.is_digit c)) pre = true ->
  Str.findall_digits_acc "" (pre +:+ s) = Str.findall_digits_acc "" s.
Proof.
  induction pre as [|c pre IH]; intros H; simpl in *; [reflexivity|].
  apply andb_true_iff in H as [Hc Hpre].
  apply negb_true_iff in Hc. rewrite Hc. now apply IH.
Qed.


Lemma rev_acc_nonempty (ds : string) : ds <> "" -> Str.rev_acc ds "" <> "".
Proof.
  intros H E. apply H. rewrite <- (rev_rev_acc ds), E. reflexivity.
Qed.



#[local] Arguments String.append : simpl never.

(** ** Tier 1: the pattern matcher *)

Section Tier1.
Context `{P : Pandas} `{Py : !Python} `{AI : OpenAI}.
Variable cfg : Config.


Lemma int_beyond_limit (ds : string) :
  (Str.int_max_str_digits < String.length ds)%nat ->
  exists m, Str.int ds = Raise (Exn ValueError m).
Proof.
  intros Hlen. unfold Str.int.
  rewrite (proj2 (Nat.ltb_lt _ _) Hlen). eauto.
Qed.






(** A first literal of more than 4300 digits makes [int] raise, and the
    query fail. *)
Lemma extract_number_too_long (text : string) (default : Z) :
  first_literal_too_long text ->
  exists m, _extract_number text default = Raise (Exn ValueError m).
Proof.
  intros (pre & ds & post & Hpre & Hds & Hlen & Hpost & ->).
  unfold _extract_number, Str.findall_digits.
  rewrite findall_digits_skip, findall_digits_run by assumption.
  destruct (findall_digits_close (Str.rev_acc ds "") post) as [rest ->].
  - apply rev_acc_nonempty. intros ->. cbn in Hlen. lia.
  - assumption.
  - rewrite rev_rev_acc. now apply int_beyond_limit.
Qed.

Lemma process_top_too_long (self : QueryProcessor) (query : string) (w : world) :
  top_rule query = true ->
  first_literal_too_long query ->
  exists m, process_query cfg self query w
            = (Ok (Failure ("Error processing query: " +:+ m)), w).
Proof.
  unfold top_rule. intros Htop Hlong. cbv zeta in *.
  destruct (extract_number_too_long query 10 Hlong) as [m Hm].
  exists m.
  unfold process_query, try_except, bind at 1, _process_simple_query.
  cbv zeta. rewrite Htop.
  unfold bind, lift. rewrite Hm. reflexivity.
Qed.


Lemma process_info (self : QueryProcessor) (query : string) (w : world) (d : DataFrame) :
  top_rule query = false ->
  info_rule query = true ->
  heap w !! dp_df (qp_data_processor self) = Some d ->
  let data := fresh (dom (heap w)) in
  process_query cfg self query w
  = (Ok (Success (PyFrame data) "Dataset overview and column information" "df.info()"),
     World (<[data := column_info_table d]> (heap w)) (calls w)).
Proof.
  unfold top_rule, info_rule. intros Htop Hinfo Hd. cbv zeta in *.
  unfold process_query, try_except, bind at 1, _process_simple_query.
  cbv zeta. rewrite Htop, Hinfo.
  unfold bind, get_column_info, bind, load, alloc, ret. rewrite Hd. reflexivity.
Qed.

Lemma process_count (self : QueryProcessor) (query : string) (w : world) (d : DataFrame) :
  reaches_count_rule query = true ->
  heap w !! qp_df self = Some d ->
  process_query cfg self query w = (Ok (count_outcome d), w).
Proof.
  unfold reaches_count_rule. intros Hrule Hd.
  repeat (apply andb_true_iff in Hrule as [Hrule ?]).
  repeat match goal with H : negb _ = true |- _ => apply negb_true_iff in H end.
  unfold top_rule, info_rule, statistics_rule, count_rule in *. cbv zeta in *.
  unfold process_query, try_except, bind at 1, _process_simple_query. cbv zeta.
  repeat match goal with E : _ = false |- _ => rewrite E; clear E end.
  match goal with E : _ = true |- _ => rewrite E; clear E end.
  unfold bind, load, ret. rewrite Hd. reflexivity.
Qed.

Lemma any_in_elem (word : string) (words : list string) (s : string) :
  word ∈ words -> Str.contains word s = true -> Str.any_in words s = true.
Proof.
  intros Hin Hc. unfold Str.any_in. apply existsb_exists.
  exists word. split; [now apply list_elem_of_In | assumption].
Qed.

Lemma fresh_allocated (h : gmap loc DataFrame) (l : loc) (d : DataFrame) :
  h !! l = Some d -> fresh (dom h) <> l.
Proof.
  intros Hl E. apply (is_fresh (dom h)). rewrite E.
  apply elem_of_dom. eauto.
Qed.

(** C5.  A query whose normalized text contains "summary" and which the
    top-N rule does not match resolves to the overview rule: the outcome is
    the column-info table with the overview explanation and code, not the
    describe table, and running the same query again resolves to the same
    rule and the same table. *)
Theorem summary_resolves_to_overview
  (self : QueryProcessor) (query : string) (w : world) (d : DataFrame) :
  Str.contains "summary" (Str.strip (Str.lower query)) = true ->
  top_rule query = false ->
  heap w !! dp_df (qp_data_processor self) = Some d ->
  exists data w' data' w'',
    process_query cfg self query w
    = (Ok (Success (PyFrame data) "Dataset overview and column information" "df.info()"), w')
    /\ heap w' !! data = Some (column_info_table d)
    /\ process_query cfg self query w'
       = (Ok (Success (PyFrame data') "Dataset overview and column information" "df.info()"), w'')
    /\ heap w'' !! data' = Some (column_info_table d).
Proof.
  intros Hsum Htop Hd.
  assert (Hinfo : info_rule query = true).
  { unfold info_rule. eapply any_in_elem; [|exact Hsum]. set_solver. }
  eexists _, _, _, _.
  split; [apply (process_info self query w d Htop Hinfo Hd)|].
  split; [cbn [heap]; apply lookup_insert_eq|].
  split.
  - apply (process_info self query _ d Htop Hinfo).
    cbn [heap]. rewrite lookup_insert_ne; [assumption|].
    now apply fresh_allocated with d.
  - cbn [heap]. apply lookup_insert_eq.
Qed.

Lemma process_miss (self : QueryProcessor) (query : string) (w : world) :
  tier1_rule query = false ->
  _process_simple_query self query w = (Ok (Failure "Query not recognized"), w).
Proof.
  unfold tier1_rule. intros H.
  repeat (apply orb_false_iff in H as [H ?]).
  unfold top_rule, info_rule, statistics_rule, count_rule, columns_rule,
    missing_rule, correlation_rule in *. cbv zeta in *.
  unfold _process_simple_query. cbv zeta.
  repeat match goal with E : _ = false |- _ => rewrite E; clear E end.
  reflexivity.
Qed.

(** C9.  When no tier-1 rule matches the query and no API key is
    configured, [process_query] returns the failure outcome with the
    configuration message; the world is unchanged, so no request was sent
    and no code was run. *)
Theorem no_credential_failure (self : QueryProcessor) (query : string) (w : world) :
  tier1_rule query = false ->
  api_key_configured cfg = false ->
  process_query cfg self query w
  = (Ok (Failure "Complex queries require OpenAI API key. Please configure it in your environment."),
     w).
Proof.
  intros Hmiss Hkey.
  unfold process_query, try_except, bind.
  rewrite (process_miss self query w Hmiss). cbn [success].
  rewrite Hkey. reflexivity.
Qed.

End Tier1.

(** ** The heap discipline of methods *)

Section Heap.
Context `{F : Float64}.

Lemma extends_refl (w : world) : extends w w.
Proof. split; reflexivity. Qed.

Lemma extends_trans (w1 w2 w3 : world) :
  extends w1 w2 -> extends w2 w3 -> extends w1 w3.
Proof. intros [H1 E1] [H2 E2]. split; [by etrans | congruence]. Qed.

Lemma extends_lookup (w w' : world) (l : loc) (d : DataFrame) :
  extends w w' -> heap w !! l = Some d -> heap w' !! l = Some d.
Proof. intros [H _] Hl. eapply lookup_weaken; eauto. Qed.

Lemma extends_fresh (w w' : world) (l : loc) :
  extends w w' -> heap w' !! l = None -> heap w !! l = None.
Proof.
  intros Hext Hl. destruct (heap w !! l) eqn:E; [|reflexivity].
  rewrite (extends_lookup _ _ _ _ Hext E) in Hl. discriminate.
Qed.

Lemma fresh_lookup (h : gmap loc DataFrame) : h !! fresh (dom h) = None.
Proof. apply not_elem_of_dom, is_fresh. Qed.

Lemma grows_ret {A} (a : A) : grows (ret a).
Proof. intros w r w' [= <- <-]. apply extends_refl. Qed.

Lemma grows_raise {A} (e : exn) : grows (raise (A := A) e).
Proof. intros w r w' [= <- <-]. apply extends_refl. Qed.

Lemma grows_lift {A} (x : result A) : grows (lift x).
Proof. intros w r w' [= <- <-]. apply extends_refl. Qed.

Lemma grows_load (l : loc) : grows (load l).
Proof.
  intros w r w'. unfold load. destruct (heap w !! l); intros [= <- <-];
    apply extends_refl.
Qed.

Lemma grows_alloc (d : DataFrame) : grows (alloc d).
Proof.
  intros w r w' [= <- <-]. split; [|reflexivity].
  cbn [heap]. apply insert_subseteq, fresh_lookup.
Qed.

Lemma grows_bind {A B} (m : M A) (k : A -> M B) :
  grows m -> (forall a, grows (k a)) -> grows (bind m k).
Proof.
  intros Hm Hk w r w'. unfold bind. destruct (m w) as [[a|e] w1] eqn:E.
  - intros Hr. eapply extends_trans; [eapply Hm, E | eapply Hk, Hr].
  - intros [= <- <-]. eapply Hm, E.
Qed.

Lemma grows_for_each {A B} (f : A -> B -> M A) (l : list B) (a : A) :
  (forall a x, grows (f a x)) -> grows (for_each f a l).
Proof.
  intros Hf. revert a. induction l as [|x l IH]; intros a; simpl.
  - apply grows_ret.
  - apply grows_bind; auto.
Qed.

Lemma grows_copy (l : loc) : grows (copy l).
Proof. apply grows_bind; [apply grows_load | apply grows_alloc]. Qed.

Lemma new_in_alloc (w0 w : world) (d : DataFrame) (l : loc) (w' : world) :
  extends w0 w -> alloc d w = (Ok l, w') -> new_in w0 l w'.
Proof.
  intros Hext [= <- <-]. split.
  - eapply extends_fresh; [exact Hext | apply fresh_lookup].
  - cbn [heap]. rewrite lookup_insert_eq. eauto.
Qed.

Lemma new_in_extends (w0 w w' : world) (l : loc) :
  new_in w0 l w -> extends w w' -> new_in w0 l w'.
Proof.
  intros [Hnone [d Hd]] Hext. split; [assumption|].
  exists d. eapply extends_lookup; eauto.
Qed.

End Heap.

Create HintDb grows.
#[export] Hint Resolve grows_ret grows_raise grows_lift grows_load grows_alloc
  grows_copy : grows.

(** Decompose a method body into its reads and allocations. *)
Ltac grows_step :=
  match goal with
  | |- grows (bind _ _) => apply grows_bind; [|intros ?]
  | |- grows (for_each _ _ _) => apply grows_for_each; intros ? ?
  | |- grows (match ?x with _ => _ end) => destruct x
  | |- grows (let '(_, _) := ?x in _) => destruct x
  | |- grows _ => solve [auto with grows]
  end.

Ltac grows_tac := repeat grows_step.

Section NewResults.
Context `{F : Float64}.

Lemma new_result_alloc (d : DataFrame) (w0 w : world) :
  extends w0 w -> new_result (alloc d) w0 w.
Proof. intros Hext l w' Hrun. eapply new_in_alloc; eauto. Qed.

Lemma new_result_ret (l : loc) (w0 w : world) :
  new_in w0 l w -> new_result (ret l) w0 w.
Proof. intros Hnew l' w' [= <- <-]. exact Hnew. Qed.

Lemma new_result_raise (e : exn) (w0 w : world) : new_result (raise e) w0 w.
Proof. intros l w' [=]. Qed.

Lemma new_result_bind {A} (m : M A) (k : A -> M loc) (w0 w : world) :
  grows m -> extends w0 w ->
  (forall a w1, extends w0 w1 -> m w = (Ok a, w1) -> new_result (k a) w0 w1) ->
  new_result (bind m k) w0 w.
Proof.
  intros Hm Hext Hk l w'. unfold bind.
  destruct (m w) as [[a|e] w1] eqn:E; [|intros [=]].
  apply Hk; [|reflexivity]. eapply extends_trans; [exact Hext | eapply Hm, E].
Qed.

Lemma new_result_for_each {B} (f : loc -> B -> M loc) (xs : list B)
  (a : loc) (w0 w : world) :
  (forall a x, grows (f a x)) ->
  (forall a x w1, extends w0 w1 -> new_in w0 a w1 -> new_result (f a x) w0 w1) ->
  extends w0 w -> new_in w0 a w ->
  new_result (for_each f a xs) w0 w.
Proof.
  intros Hgrows Hf. revert a w.
  induction xs as [|x xs IH]; intros a w Hext Hnew; simpl.
  - now apply new_result_ret.
  - apply new_result_bind; [apply Hgrows | exact Hext |].
    intros a' w1 Hext1 Hrun. apply IH; [exact Hext1|].
    exact (Hf a x w Hext Hnew a' w1 Hrun).
Qed.

End NewResults.

(** ** [DataProcessor]: the receiver is left as it was *)

Section ReadOnly.
Context `{P : Pandas}.

Lemma grows_get_column_info (self : DataProcessor) : grows (get_column_info self).
Proof. unfold get_column_info. grows_tac. Qed.

Lemma grows_analyze_missing_data (self : DataProcessor) :
  grows (analyze_missing_data self).
Proof. unfold analyze_missing_data. grows_tac. Qed.

Lemma grows_correlation_analysis (self : DataProcessor) :
  grows (correlation_analysis self).
Proof. unfold correlation_analysis. grows_tac. Qed.

Lemma grows_filter_step (filtered_df : loc) (item : string * condition) :
  grows (filter_step filtered_df item).
Proof. unfold filter_step. grows_tac. Qed.

Lemma grows_filter_data (self : DataProcessor) (conditions : list (string * condition)) :
  grows (filter_data self conditions).
Proof. unfold filter_data. grows_tac. apply grows_filter_step. Qed.

Lemma grows_group_analysis (self : DataProcessor) (g a f : string) :
  grows (group_analysis self g a f).
Proof. unfold group_analysis. grows_tac. Qed.

Lemma grows_DataProcessor_init (dataframe : loc) : grows (DataProcessor_init dataframe).
Proof. unfold DataProcessor_init. grows_tac. Qed.

Lemma new_filter_step (filtered_df : loc) (item : string * condition) (w0 w : world) :
  extends w0 w -> new_in w0 filtered_df w ->
  new_result (filter_step filtered_df item) w0 w.
Proof.
  intros Hext Hnew. unfold filter_step. destruct item as [column condition].
  apply new_result_bind; [auto with grows | exact Hext |].
  intros d w1 Hext1 Hload.
  assert (Hnew1 : new_in w0 filtered_df w1).
  { eapply new_in_extends; [exact Hnew | eapply grows_load, Hload]. }
  destruct (bool_decide _); [|now apply new_result_ret].
  destruct condition as [c|values|v]; try (now apply new_result_alloc).
  apply new_result_bind; [grows_tac | exact Hext1 |].
  intros fd w2 Hext2 Hmin.
  assert (Hnew2 : new_in w0 fd w2).
  { destruct (c !! "min").
    - revert Hmin. apply new_result_bind; [auto with grows | exact Hext1 |].
      intros d1 w3 Hext3 _.
      apply new_result_bind; [auto with grows | exact Hext3 |].
      intros mask w4 Hext4 _. now apply new_result_alloc.
    - revert Hmin. now apply new_result_ret. }
  destruct (c !! "max"); [|now apply new_result_ret].
  apply new_result_bind; [auto with grows | exact Hext2 |].
  intros d2 w3 Hext3 _.
  apply new_result_bind; [auto with grows | exact Hext3 |].
  intros mask w4 Hext4 _. now apply new_result_alloc.
Qed.

Lemma grows_call (self : DataProcessor) (op : operation) : grows (call self op).
Proof.
  destruct op; simpl;
    auto using grows_get_column_info, grows_analyze_missing_data,
      grows_correlation_analysis, grows_filter_data, grows_group_analysis.
Qed.

Lemma new_call (self : DataProcessor) (op : operation) (w : world) :
  new_result (call self op) w w.
Proof.
  pose proof (extends_refl w) as Hrefl.
  destruct op; simpl.
  - unfold get_column_info.
    apply new_result_bind; [auto with grows | exact Hrefl |].
    intros d w1 Hext _. now apply new_result_alloc.
  - unfold analyze_missing_data.
    apply new_result_bind; [auto with grows | exact Hrefl |].
    intros d w1 Hext _. destruct (List.filter _ _); now apply new_result_alloc.
  - unfold correlation_analysis.
    apply new_result_bind; [auto with grows | exact Hrefl |].
    intros d w1 Hext1 _.
    apply new_result_bind; [auto with grows | exact Hext1 |].
    intros nd w2 Hext2 _.
    apply new_result_bind; [auto with grows | exact Hext2 |].
    intros d2 w3 Hext3 _. now apply new_result_alloc.
  - unfold filter_data.
    apply new_result_bind; [auto with grows | exact Hrefl |].
    intros fd w1 Hext1 Hcopy.
    apply new_result_for_each; [apply grows_filter_step | | exact Hext1 |].
    + intros a x w2 Hext2 Hnew. now apply new_filter_step.
    + revert Hcopy. unfold copy.
      apply new_result_bind; [auto with grows | exact Hrefl |].
      intros d w2 Hext2 _. now apply new_result_alloc.
  - unfold group_analysis.
    apply new_result_bind; [auto with grows | exact Hrefl |].
    intros d w1 Hext1 _.
    destruct (_ || _); [apply new_result_raise|].
    apply new_result_bind; [auto with grows | exact Hext1 |].
    intros r w2 Hext2 _. now apply new_result_alloc.
Qed.

(** C8.  Whatever a [DataProcessor] operation returns or raises, the frame
    the receiver stores is the same after the call as before, and so is
    every other frame that existed; a table returned by the call is a new
    object, distinct from the receiver's frame. *)
Theorem operations_leave_receiver_unchanged
  (self : DataProcessor) (op : operation) (w : world) (d : DataFrame)
  (r : result loc) (w' : world) :
  heap w !! dp_df self = Some d ->
  call self op w = (r, w') ->
  heap w' !! dp_df self = Some d
  /\ (forall l d0, heap w !! l = Some d0 -> heap w' !! l = Some d0)
  /\ calls w' = calls w
  /\ (forall table, r = Ok table ->
        heap w !! table = None /\ is_Some (heap w' !! table)
        /\ table <> dp_df self).
Proof.
  intros Hd Hrun.
  pose proof (grows_call self op w r w' Hrun) as Hext.
  split; [eapply extends_lookup; eauto|].
  split; [intros l d0; eapply extends_lookup; eauto|].
  split; [apply Hext|].
  intros table ->.
  destruct (new_call self op w table w' Hrun) as [Hnone Hsome].
  repeat split; [assumption..|]. congruence.
Qed.

End ReadOnly.

(** ** [filter_data] *)

Section Filter.
Context `{P : Pandas}.

Lemma returns_returned_frame (run : result loc * world) (r : result DataFrame) :
  returns run r -> returned_frame run = r.
Proof.
  destruct run as [[l|e] w], r as [d|e']; simpl; try tauto.
  - now intros ->.
  - now intros ->.
Qed.

Lemma returns_alloc (d : DataFrame) (w : world) : returns (alloc d w) (Ok d).
Proof. unfold alloc, returns. cbn [heap]. now rewrite lookup_insert_eq. Qed.

Lemma filter_step_returns (fd : loc) (item : string * condition) (w : world)
  (d : DataFrame) :
  heap w !! fd = Some d ->
  returns (filter_step fd item w) (filter_frame_step d item).
Proof.
  intros Hd. unfold filter_step, filter_frame_step. destruct item as [column condition].
  unfold bind at 1. unfold load at 1. rewrite Hd.
  destruct (bool_decide _); [|exact Hd].
  destruct condition as [c|values|v]; try apply returns_alloc.
  unfold bind at 1.
  assert (Hmin :
    returns
      ((match c !! "min" with
        | Some a =>
            bind (load fd) (fun d0 =>
            bind (lift (series_ge (column_dtype d0 column) (series d0 column) a))
              (fun mask =>
            alloc (getitem_mask d0 mask)))
        | None => ret fd
        end) w)
      (match c !! "min" with
       | Some a =>
           result_bind (series_ge (column_dtype d column) (series d column) a)
             (fun mask => Ok (getitem_mask d mask))
       | None => Ok d
       end)).
  { destruct (c !! "min") as [a|]; [|exact Hd].
    unfold bind, load, lift. rewrite Hd.
    destruct (series_ge _ _ _) as [mask|e]; simpl; [|reflexivity].
    apply lookup_insert_eq. }
  destruct (_ w) as [[fd1|e] w1];
    destruct (match c !! "min" with Some _ => _ | None => _ end) as [d1|e'];
    simpl in Hmin; try tauto.
  simpl. destruct (c !! "max") as [b|]; [|exact Hmin].
  unfold bind, load, lift. rewrite Hmin.
  destruct (series_le _ _ _) as [mask|e]; simpl; [|reflexivity].
  apply lookup_insert_eq.
Qed.

Lemma for_each_filter_returns (conditions : list (string * condition))
  (fd : loc) (w : world) (d : DataFrame) :
  heap w !! fd = Some d ->
  returns (for_each filter_step fd conditions w) (filter_frame d conditions).
Proof.
  revert fd w d. induction conditions as [|item conditions IH]; intros fd w d Hd; simpl.
  - exact Hd.
  - pose proof (filter_step_returns fd item w d Hd) as Hstep.
    unfold bind. destruct (filter_step fd item w) as [[fd1|e] w1];
      destruct (filter_frame_step d item) as [d1|e']; simpl in Hstep; try tauto.
    simpl. now apply IH.
Qed.

Lemma filter_data_returns (self : DataProcessor)
  (conditions : list (string * condition)) (w : world) (d : DataFrame) :
  heap w !! dp_df self = Some d ->
  returns (filter_data self conditions w) (filter_frame d conditions).
Proof.
  intros Hd. unfold filter_data, copy, bind, load. rewrite Hd.
  unfold alloc at 1. apply for_each_filter_returns.
  cbn [heap]. apply lookup_insert_eq.
Qed.

Lemma filter_frame_app (c1 c2 : list (string * condition)) (d : DataFrame) :
  filter_frame d (c1 ++ c2) = result_bind (filter_frame d c1) (fun d1 => filter_frame d1 c2).
Proof.
  revert d. induction c1 as [|item c1 IH]; intros d; simpl; [reflexivity|].
  destruct (filter_frame_step d item); simpl; [apply IH | reflexivity].
Qed.

Lemma filter_frame_step_schema (d d' : DataFrame) (item : string * condition) :
  filter_frame_step d item = Ok d' -> schema d' = schema d.
Proof.
  unfold filter_frame_step. destruct item as [column condition].
  destruct (bool_decide _); [|now intros [= ->]].
  destruct condition as [c|values|v]; try (now intros [= <-]).
  destruct (c !! "min") as [a|], (c !! "max") as [b|]; simpl;
    repeat match goal with
           | |- context [series_ge ?t ?x ?y] => destruct (series_ge t x y); simpl
           | |- context [series_le ?t ?x ?y] => destruct (series_le t x y); simpl
           end;
    intros [= <-]; reflexivity.
Qed.

Lemma mask_select_map {A} (f : A -> bool) (l : list A) :
  mask_select l (map f l) = List.filter f l.
Proof.
  induction l as [|x l IH]; simpl; [reflexivity|].
  rewrite IH. reflexivity.
Qed.

Lemma filter_filter_and {A} (f g : A -> bool) (l : list A) :
  List.filter g (List.filter f l) = List.filter (fun x => f x && g x) l.
Proof.
  induction l as [|x l IH]; simpl; [reflexivity|].
  destruct (f x); simpl; [destruct (g x)|]; now rewrite IH.
Qed.

Lemma py_le_comparable (x y : value) :
  comparable x y = true -> py_le x y = Ok (le_value x y).
Proof. unfold comparable, le_value. destruct (py_le x y); [reflexivity | discriminate]. Qed.

Lemma py_ge_comparable (x y : value) :
  comparable y x = true -> py_ge x y = Ok (le_value y x).
Proof.
  unfold comparable, le_value, py_ge. destruct (py_le y x); [reflexivity | discriminate].
Qed.

Lemma series_ge_ok (t : dtype) (f : row -> value) (a : value) (rs : list row) :
  is_numeric_v_string_like t a = false ->
  (forall r, r ∈ rs -> comparable a (f r) = true) ->
  series_ge t (map f rs) a = Ok (map (fun r => le_value a (f r)) rs).
Proof.
  unfold series_ge. intros ->.
  induction rs as [|r rs IH]; intros H; simpl; [reflexivity|].
  rewrite py_ge_comparable by (apply H; left). simpl.
  rewrite IH; [reflexivity|]. intros r' Hr'. apply H. now right.
Qed.

Lemma series_le_ok (t : dtype) (f : row -> value) (b : value) (rs : list row) :
  is_numeric_v_string_like t b = false ->
  (forall r, r ∈ rs -> comparable (f r) b = true) ->
  series_le t (map f rs) b = Ok (map (fun r => le_value (f r) b) rs).
Proof.
  unfold series_le. intros ->.
  induction rs as [|r rs IH]; intros H; simpl; [reflexivity|].
  rewrite py_le_comparable by (apply H; left). simpl.
  rewrite IH; [reflexivity|]. intros r' Hr'. apply H. now right.
Qed.

(** The range filter on one column, on frames. *)
Lemma filter_frame_range (d : DataFrame) (col : string) (a b : value) :
  col ∈ columns d ->
  is_numeric_v_string_like (column_dtype d col) a = false ->
  is_numeric_v_string_like (column_dtype d col) b = false ->
  (forall r, r ∈ rows d ->
     comparable a (cell d col r) = true /\ comparable (cell d col r) b = true) ->
  filter_frame d [(col, CDict {[ "min" := a; "max" := b ]})]
  = Ok (Frame (schema d) (List.filter (fun r => in_range a b (cell d col r)) (rows d))).
Proof.
  intros Hcol Ha Hb Hcmp. cbn [filter_frame filter_frame_step].
  rewrite bool_decide_true by assumption.
  rewrite lookup_insert_eq.
  rewrite lookup_insert_ne, lookup_singleton_eq by discriminate.
  unfold series at 1.
  rewrite series_ge_ok by (try exact Ha; intros r Hr; now apply Hcmp).
  cbn [result_bind]. unfold getitem_mask at 1 2 3. rewrite mask_select_map.
  unfold series. cbn [rows].
  change (cell (Frame (schema d) ?rs) col) with (cell d col).
  change (column_dtype (Frame (schema d) ?rs) col) with (column_dtype d col).
  rewrite series_le_ok.
  2:{ exact Hb. }
  2:{ intros r Hr. apply Hcmp. apply list_elem_of_In in Hr.
      apply filter_In in Hr as [Hr _]. now apply list_elem_of_In. }
  cbn [result_bind]. unfold getitem_mask. cbn [schema rows].
  do 2 f_equal.
  rewrite (mask_select_map (fun r => le_value a (cell d col r))).
  rewrite (mask_select_map (fun r => le_value (cell d col r) b)).
  apply filter_filter_and.
Qed.

Lemma dict_union_disjoint (c1 c2 : list (string * condition)) :
  (forall k, k ∈ c1.*1 -> k ∉ c2.*1) ->
  dict_union c1 c2 = (c1 ++ c2)%list.
Proof.
  intros Hdisj. unfold dict_union. f_equal.
  - clear -Hdisj. induction c1 as [|[k v] c1 IH]; simpl; [reflexivity|].
    rewrite IH by (intros k' Hk'; apply Hdisj; now right). f_equal.
    unfold dict_get.
    destruct (List.find _ c2) as [[k' v']|] eqn:E; [|reflexivity].
    exfalso. apply find_some in E as [Hin Hk]. simpl in Hk.
    apply String.eqb_eq in Hk. subst k'.
    apply (Hdisj k); [now left|].
    apply list_elem_of_fmap. exists (k, v'). split; [reflexivity|].
    now apply list_elem_of_In.
  - clear -Hdisj. induction c2 as [|[k v] c2 IH]; simpl; [reflexivity|].
    rewrite bool_decide_false.
    + simpl. f_equal. apply IH. intros k' Hk' Hin. apply (Hdisj k' Hk'). now right.
    + intros Hin. apply (Hdisj k Hin). now left.
Qed.

Lemma DataProcessor_init_run (dataframe : loc) (w : world) (d : DataFrame) :
  heap w !! dataframe = Some d ->
  exists self' w', DataProcessor_init dataframe w = (Ok self', w')
                   /\ heap w' !! dp_df self' = Some d.
Proof.
  intros Hd. unfold DataProcessor_init, copy, bind, load. rewrite Hd.
  unfold alloc at 1. cbn [heap].
  rewrite lookup_insert_ne by (now apply fresh_allocated with d).
  rewrite Hd. unfold alloc, ret. cbn [heap calls].
  eexists _, _. split; [reflexivity|]. cbn [heap dp_df].
  rewrite lookup_insert_ne; [apply lookup_insert_eq|].
  apply fresh_allocated with d. apply lookup_insert_eq.
Qed.

Lemma filter_then_filter_returns (self : DataProcessor)
  (c1 c2 : list (string * condition)) (w : world) (d : DataFrame) :
  heap w !! dp_df self = Some d ->
  returns (filter_then_filter self c1 c2 w) (filter_frame d (c1 ++ c2)).
Proof.
  intros Hd. rewrite filter_frame_app.
  pose proof (filter_data_returns self c1 w d Hd) as H1.
  unfold filter_then_filter, bind.
  destruct (filter_data self c1 w) as [[l1|e] w1];
    destruct (filter_frame d c1) as [d1|e']; simpl in H1; try tauto.
  destruct (DataProcessor_init_run l1 w1 d1 H1) as (self' & w2 & -> & Hself').
  simpl. now apply filter_data_returns.
Qed.

(** On integers [le_value] is the order of [Z], and a null is in no
    range. *)
Lemma le_value_int (x y : Z) : le_value (VInt x) (VInt y) = (x <=? y).
Proof. reflexivity. Qed.

Lemma in_range_null (a b : value) : in_range a b VNull = false.
Proof. unfold in_range, le_value. destruct a; reflexivity. Qed.

(** C7, amended.  For a column [col] of the dataset and bounds [a], [b]
    that pandas orders against the column (no string against a numeric
    column) and that can be ordered against every value of the column,
    [filter_data({col: {min: a, max: b}})] returns a table with exactly
    the rows whose value [v] in [col] satisfies [a <= v <= b], in their
    order.  Filtering with [c1] and then filtering the result with [c2],
    on disjoint columns, ends as one call with the union of [c1] and [c2]
    ends: with the same table, or with the same exception. *)
Theorem filter_data_range_and_composition
  (self : DataProcessor) (w : world) (d : DataFrame)
  (col : string) (a b : value) (c1 c2 : list (string * condition)) :
  heap w !! dp_df self = Some d ->
  col ∈ columns d ->
  is_numeric_v_string_like (column_dtype d col) a = false ->
  is_numeric_v_string_like (column_dtype d col) b = false ->
  (forall r, r ∈ rows d ->
     comparable a (cell d col r) = true /\ comparable (cell d col r) b = true) ->
  (forall k, k ∈ c1.*1 -> k ∉ c2.*1) ->
  (exists table w',
     filter_data self [(col, CDict {[ "min" := a; "max" := b ]})] w = (Ok table, w')
     /\ heap w' !! table
        = Some (Frame (schema d)
                      (List.filter (fun r => in_range a b (cell d col r)) (rows d))))
  /\ returned_frame (filter_then_filter self c1 c2 w)
     = returned_frame (filter_data self (dict_union c1 c2) w).
Proof.
  intros Hd Hcol Ha Hb Hcmp Hdisj. split.
  - pose proof (filter_data_returns self [(col, CDict {[ "min" := a; "max" := b ]})] w d Hd)
      as Hret.
    rewrite (filter_frame_range d col a b Hcol Ha Hb Hcmp) in Hret.
    destruct (filter_data self _ w) as [[table|e] w']; simpl in Hret; [|tauto].
    eauto.
  - rewrite (dict_union_disjoint c1 c2 Hdisj).
    rewrite (returns_returned_frame _ _ (filter_then_filter_returns self c1 c2 w d Hd)).
    now rewrite (returns_returned_frame _ _ (filter_data_returns self (c1 ++ c2) w d Hd)).
Qed.

Lemma filter_step_unknown (fd : loc) (item : string * condition) (w : world)
  (d : DataFrame) :
  heap w !! fd = Some d -> known d item = false ->
  filter_step fd item w = (Ok fd, w).
Proof.
  intros Hd Hk. unfold filter_step, known in *. destruct item as [column condition].
  unfold bind, load. rewrite Hd. simpl in Hk. now rewrite Hk.
Qed.

Lemma for_each_filter_known (d : DataFrame) (conditions : list (string * condition))
  (fd : loc) (w : world) (d' : DataFrame) :
  heap w !! fd = Some d' -> schema d' = schema d ->
  for_each filter_step fd conditions w
  = for_each filter_step fd (List.filter (known d) conditions) w.
Proof.
  revert fd w d'. induction conditions as [|item conditions IH];
    intros fd w d' Hd' Hschema; [reflexivity|].
  assert (Hknown : known d' item = known d item)
    by (unfold known, columns; now rewrite Hschema).
  cbn [List.filter for_each]. destruct (known d item) eqn:Hk.
  - cbn [for_each]. unfold bind.
    pose proof (filter_step_returns fd item w d' Hd') as Hret.
    destruct (filter_step fd item w) as [[fd1|e] w1]; [|reflexivity].
    destruct (filter_frame_step d' item) as [d1|e'] eqn:Hstep; simpl in Hret; [|tauto].
    apply (IH fd1 w1 d1 Hret).
    rewrite (filter_frame_step_schema d' d1 item Hstep). exact Hschema.
  - unfold bind at 1. rewrite (filter_step_unknown fd item w d' Hd') by congruence.
    now apply (IH fd w d').
Qed.

Lemma for_each_filter_unknown (d : DataFrame) (conditions : list (string * condition))
  (fd : loc) (w : world) :
  heap w !! fd = Some d ->
  for_each filter_step fd (List.filter (fun item => negb (known d item)) conditions) w
  = (Ok fd, w).
Proof.
  intros Hd. induction conditions as [|item conditions IH]; [reflexivity|].
  cbn [List.filter]. destruct (known d item) eqn:Hk; simpl; [exact IH|].
  unfold bind. now rewrite (filter_step_unknown fd item w d Hd Hk).
Qed.

Lemma filter_data_run (self : DataProcessor) (conditions : list (string * condition))
  (w : world) (d : DataFrame) :
  heap w !! dp_df self = Some d ->
  filter_data self conditions w
  = for_each filter_step (fresh (dom (heap w))) conditions
      (World (<[fresh (dom (heap w)) := d]> (heap w)) (calls w)).
Proof. intros Hd. unfold filter_data, copy, bind, load. now rewrite Hd. Qed.

(** C10.  [filter_data] ignores the conditions whose key is not a column
    of the dataframe: the call runs exactly as the call on the mapping
    without those conditions, returning the same table or raising the same
    exception, and a mapping of unknown columns only gives back a copy of
    the whole table. *)
Theorem filter_data_ignores_unknown_columns
  (self : DataProcessor) (conditions : list (string * condition))
  (w : world) (d : DataFrame) :
  heap w !! dp_df self = Some d ->
  filter_data self conditions w
  = filter_data self (List.filter (known d) conditions) w
  /\ exists table w',
       filter_data self (List.filter (fun item => negb (known d item)) conditions) w
       = (Ok table, w')
       /\ heap w' !! table = Some d.
Proof.
  intros Hd. rewrite !(filter_data_run self _ w d Hd). split.
  - apply for_each_filter_known with d; [|reflexivity].
    cbn [heap]. apply lookup_insert_eq.
  - rewrite (for_each_filter_unknown d).
    + eexists _, _. split; [reflexivity|]. cbn [heap]. apply lookup_insert_eq.
    + cbn [heap]. apply lookup_insert_eq.
Qed.

End Filter.

(** ** [analyze_missing_data] *)

Section Missing.
Context `{P : Pandas}.

Lemma analyze_missing_data_run (self : DataProcessor) (w : world) (d : DataFrame) :
  heap w !! dp_df self = Some d ->
  analyze_missing_data self w
  = (Ok (fresh (dom (heap w))),
     World (<[fresh (dom (heap w)) := missing_report d]> (heap w)) (calls w)).
Proof.
  intros Hd. unfold analyze_missing_data, bind, load. rewrite Hd.
  unfold missing_report, missing_rows.
  destruct (List.filter _ (isnull_sum d)); reflexivity.
Qed.

Lemma null_count_nonneg (cells : list value) : 0 <= null_count cells.
Proof. unfold null_count. lia. Qed.

Lemma null_count_pos (cells : list value) :
  0 < null_count cells <-> exists v, v ∈ cells /\ isnull v = true.
Proof.
  unfold null_count. split.
  - intros H. destruct (filter _ cells) as [|v l] eqn:E; [simpl in H; lia|].
    assert (Hv : v ∈ filter (fun v => isnull v = true) cells) by (rewrite E; left).
    apply list_elem_of_filter in Hv as [Hnull Hin]. eauto.
  - intros (v & Hin & Hnull).
    assert (Hv : v ∈ filter (fun v => isnull v = true) cells)
      by (apply list_elem_of_filter; auto).
    destruct (filter _ cells); [inversion Hv | simpl; lia].
Qed.

Lemma elem_of_isnull_sum (d : DataFrame) (cn : string * Z) :
  cn ∈ isnull_sum d <->
  exists j ct, schema d !! j = Some ct /\ cn = (ct.1, null_count (series_at d j)).
Proof.
  unfold isnull_sum. rewrite elem_of_lookup_imap.
  split; intros (j & ct & H1 & H2); eauto.
Qed.

Lemma filter_nil_iff {A} (f : A -> bool) (l : list A) :
  List.filter f l = [] <-> forall x, x ∈ l -> f x = false.
Proof.
  induction l as [|x l IH]; simpl.
  - split; [intros _ y Hy; inversion Hy | reflexivity].
  - destruct (f x) eqn:E.
    + split; [discriminate|]. intros H. specialize (H x ltac:(left)). congruence.
    + rewrite IH. split.
      * intros H y Hy. apply elem_of_cons in Hy as [-> | Hy]; auto.
      * intros H y Hy. apply H. now right.
Qed.

Lemma no_missing_iff (d : DataFrame) :
  List.filter (fun cn : string * Z => 0 <? cn.2) (isnull_sum d) = [] <-> ~ has_null d.
Proof.
  rewrite filter_nil_iff. split.
  - intros H (j & ct & v & Hj & Hv & Hnull).
    specialize (H (ct.1, null_count (series_at d j))).
    rewrite elem_of_isnull_sum in H.
    specialize (H ltac:(eauto)). simpl in H. apply Z.ltb_ge in H.
    assert (0 < null_count (series_at d j)) by (apply null_count_pos; eauto).
    lia.
  - intros H cn Hcn. apply elem_of_isnull_sum in Hcn as (j & ct & Hj & ->). simpl.
    apply Z.ltb_ge. destruct (Z.lt_ge_cases 0 (null_count (series_at d j))) as [Hpos|]; [|lia].
    exfalso. apply H. apply null_count_pos in Hpos as (v & Hv & Hnull).
    exists j, ct, v. auto.
Qed.

(** *** The descending sort *)

Lemma insert_desc_perm (key : row -> Z) (r : row) (l : list row) :
  Permutation (insert_desc key r l) (r :: l).
Proof.
  induction l as [|y l IH]; simpl; [reflexivity|].
  destruct (key y <=? key r); [reflexivity|].
  rewrite IH. apply perm_swap.
Qed.

Lemma sort_desc_perm (key : row -> Z) (l : list row) :
  Permutation (sort_desc key l) l.
Proof.
  induction l as [|x l IH]; simpl; [reflexivity|].
  rewrite insert_desc_perm. now constructor.
Qed.

Lemma insert_desc_sorted (key : row -> Z) (r : row) (l : list row) :
  StronglySorted (desc key) l -> StronglySorted (desc key) (insert_desc key r l).
Proof.
  induction l as [|y l IH]; intros Hs; simpl.
  - repeat constructor.
  - inversion Hs as [|? ? Hl Hy]; subst.
    destruct (key y <=? key r) eqn:E.
    + apply Z.leb_le in E. constructor; [assumption|].
      constructor; [exact E|].
      eapply Forall_impl; [exact Hy|]. unfold desc. intros z Hz. simpl in Hz. lia.
    + apply Z.leb_gt in E. constructor; [now apply IH|].
      eapply Permutation_Forall; [symmetry; apply insert_desc_perm|].
      constructor; [unfold desc; lia | assumption].
Qed.

Lemma sort_desc_sorted (key : row -> Z) (l : list row) :
  StronglySorted (desc key) (sort_desc key l).
Proof.
  induction l as [|x l IH]; simpl; [constructor | now apply insert_desc_sorted].
Qed.

Lemma elem_of_missing_rows (d : DataFrame) (r : row) :
  r ∈ missing_rows d <->
  exists i j ct,
    schema d !! j = Some ct
    /\ 0 < null_count (series_at d j)
    /\ List.filter (fun cn : string * Z => 0 <? cn.2) (isnull_sum d) !! i
       = Some (ct.1, null_count (series_at d j))
    /\ r = Row (VInt (Z.of_nat i))
             [VStr ct.1; VInt (null_count (series_at d j));
              VFloat (missing_percentage (null_count (series_at d j)) (df_len d))].
Proof.
  unfold missing_rows. rewrite elem_of_lookup_imap. split.
  - intros (i & cn & -> & Hi).
    assert (Hcn : cn ∈ List.filter (fun cn : string * Z => 0 <? cn.2) (isnull_sum d))
      by (eapply list_elem_of_lookup_2; eauto).
    apply list_elem_of_In, filter_In in Hcn as [Hin Hpos].
    apply list_elem_of_In, elem_of_isnull_sum in Hin as (j & ct & Hj & ->).
    simpl in *. apply Z.ltb_lt in Hpos. exists i, j, ct. auto.
  - intros (i & j & ct & Hj & Hpos & Hi & ->). exists i, (ct.1, null_count (series_at d j)).
    split; [reflexivity | assumption].
Qed.

(** C6.  [analyze_missing_data] returns an empty table exactly when no
    column of the dataset holds a null.  Otherwise every row of the table
    names a column with nulls, with its null count and the percentage
    [(count / len(df) * 100).round(2)]; every column with nulls has its
    row; and the rows are in descending order of the count. *)
Theorem analyze_missing_data_report (self : DataProcessor) (w : world) (d : DataFrame) :
  heap w !! dp_df self = Some d ->
  exists table w' report,
    analyze_missing_data self w = (Ok table, w')
    /\ heap w' !! table = Some report
    /\ (df_empty report = true <-> ~ has_null d)
    /\ (forall r, r ∈ rows report ->
          exists j column t,
            schema d !! j = Some (column, t)
            /\ 0 < null_count (series_at d j)
            /\ row_cells r
               = [VStr column;
                  VInt (null_count (series_at d j));
                  VFloat (np_round
                            (fmul (fdiv (f_of_Z (null_count (series_at d j)))
                                        (f_of_Z (df_len d)))
                                  (f_of_Z 100))
                            2)]
            /\ int_key report "Missing Count" r = null_count (series_at d j))
    /\ (forall j column t,
          schema d !! j = Some (column, t) ->
          0 < null_count (series_at d j) ->
          exists r, r ∈ rows report
                    /\ cell report "Column" r = VStr column
                    /\ cell report "Missing Count" r = VInt (null_count (series_at d j)))
    /\ StronglySorted (desc (int_key report "Missing Count")) (rows report).
Proof.
  intros Hd. eexists _, _, (missing_report d).
  split; [apply (analyze_missing_data_run self w d Hd)|].
  split; [cbn [heap]; apply lookup_insert_eq|].
  pose proof (no_missing_iff d) as Hnone.
  pose proof (elem_of_missing_rows d) as Hrows.
  unfold missing_report.
  destruct (List.filter _ (isnull_sum d)) as [|cn0 rest] eqn:Hfilter.
  - (* no column has a null: the empty frame *)
    assert (Hno : ~ has_null d) by now apply Hnone.
    split; [simpl; tauto|].
    split; [intros r Hr; inversion Hr|].
    split; [|constructor].
    intros j column t Hj Hpos. exfalso. apply Hno.
    apply null_count_pos in Hpos as (v & Hv & Hnull). exists j, (column, t), v. auto.
  - (* some column has a null: the sorted report *)
    assert (Hsome : has_null d).
    { assert (Hin : cn0 ∈ List.filter (fun cn : string * Z => 0 <? cn.2) (isnull_sum d))
        by (rewrite Hfilter; left).
      apply list_elem_of_In, filter_In in Hin as [Hin Hpos].
      apply list_elem_of_In, elem_of_isnull_sum in Hin as (j & ct & Hj & ->).
      simpl in Hpos. apply Z.ltb_lt, null_count_pos in Hpos as (v & Hv & Hnull).
      exists j, ct, v. auto. }
    set (report := sort_values_desc "Missing Count" (Frame missing_schema (missing_rows d))).
    assert (Hperm : Permutation (rows report) (missing_rows d))
      by apply sort_desc_perm.
    split.
    { split; [|tauto]. intros Hempty. exfalso.
      assert (Hnil : rows report = []).
      { unfold df_empty in Hempty. simpl in Hempty.
        destruct (sort_desc _ _) eqn:E; [|discriminate].
        unfold report, sort_values_desc. cbn [rows]. exact E. }
      rewrite Hnil in Hperm. apply Permutation_nil in Hperm.
      unfold missing_rows in Hperm. rewrite Hfilter in Hperm. discriminate. }
    split.
    { intros r Hr. rewrite Hperm in Hr.
      apply Hrows in Hr as (i & j & [column t] & Hj & Hpos & _ & ->).
      exists j, column, t. repeat split; assumption. }
    split; [|apply sort_desc_sorted].
    intros j column t Hj Hpos.
    assert (Hin : (column, null_count (series_at d j))
                  ∈ List.filter (fun cn : string * Z => 0 <? cn.2) (isnull_sum d)).
    { apply list_elem_of_In, filter_In. split.
      - apply list_elem_of_In, elem_of_isnull_sum. exists j, (column, t). auto.
      - now apply Z.ltb_lt. }
    rewrite Hfilter in Hin. apply list_elem_of_lookup in Hin as [i Hi].
    exists (Row (VInt (Z.of_nat i))
                [VStr column; VInt (null_count (series_at d j));
                 VFloat (missing_percentage (null_count (series_at d j)) (df_len d))]).
    split; [|split; reflexivity].
    rewrite Hperm. apply Hrows. exists i, j, (column, t). auto.
Qed.

End Missing.

(** ** Tier 2: synthesis and sandboxed execution *)

Section Tier2.
Context `{P : Pandas} `{Py : !Python} `{AI : OpenAI}.
Variable cfg : Config.

Lemma ensures_ret {A} (a : A) (Q : A -> Prop) : Q a -> ensures (ret a) Q.
Proof. intros HQ w a' w' [= <- <-]. exact HQ. Qed.

Lemma ensures_bind {A B} (m : M A) (k : A -> M B) (Q : B -> Prop) :
  (forall a, ensures (k a) Q) -> ensures (bind m k) Q.
Proof.
  intros Hk w b w'. unfold bind. destruct (m w) as [[a|e] w1]; [apply Hk | discriminate].
Qed.

Lemma grows_process_simple_query (self : QueryProcessor) (query : string) :
  grows (_process_simple_query self query).
Proof.
  unfold _process_simple_query. cbv zeta.
  repeat match goal with |- grows (if ?b then _ else _) => destruct b end;
    grows_tac;
    auto using grows_get_column_info, grows_analyze_missing_data,
      grows_correlation_analysis.
Qed.

(** A rule that matches never gives the failure outcome of tier 1. *)
Lemma simple_query_cases (self : QueryProcessor) (query : string) (w : world)
  (o : outcome) (w1 : world) :
  _process_simple_query self query w = (Ok o, w1) ->
  (tier1_rule query = true /\ success o = true)
  \/ (tier1_rule query = false /\ o = Failure "Query not recognized" /\ w1 = w).
Proof.
  destruct (tier1_rule query) eqn:Ht.
  - intros Hrun. left. split; [reflexivity|]. revert w o w1 Hrun.
    change (ensures (_process_simple_query self query) (fun o => success o = true)).
    unfold tier1_rule, top_rule, info_rule, statistics_rule, count_rule, columns_rule,
      missing_rule, correlation_rule in Ht. cbv zeta in Ht.
    unfold _process_simple_query. cbv zeta.
    repeat match goal with
           | |- ensures (if ?b then _ else _) _ => destruct b; cbn [orb] in Ht
           end;
      try discriminate;
      repeat first [apply ensures_ret; reflexivity | apply ensures_bind; intros ?].
  - rewrite (process_miss self query w Ht). intros [= <- <-]. now right.
Qed.












(** *** The globals of the sandbox *)

(** C1, amended.  The globals [_execute_pandas_code] gives to [exec] bind
    exactly seven names: [df] to the dataset of the processor, [pd] to the
    pandas module, and [len], [sum], [max], [min], [round] to the builtins
    of those names.  The fragment is run by one call of [exec] with these
    globals, followed at most by [eval] calls. *)
Theorem safe_dict_bindings (self : QueryProcessor) (name : string) (obj : pyobj) :
  (safe_dict self !! name = Some obj <-> (name, obj) ∈ safe_bindings self)
  /\ forall code w,
       exists rest,
         calls (_execute_pandas_code self code w).2
         = (calls w ++ EvExec code (safe_dict self) :: rest)%list
         /\ forall ev, ev ∈ rest -> exists expr globals, ev = EvEval expr globals.
Proof.
  split.
  - unfold safe_dict. symmetry. apply elem_of_list_to_map. compute_done.
  - intros code w. unfold _execute_pandas_code, try_except, bind, exec.
    destruct (py_exec code (safe_dict self) (heap w)) as [[globals|e] h].
    + destruct (first_bound _ globals) as [v|].
      * exists []. split; [reflexivity|]. intros ev Hev. inversion Hev.
      * unfold eval. cbn [heap calls].
        destruct (py_eval _ globals h) as [[v|e] h'];
          [|destruct (is_Exception (exn_class e))];
          (eexists [_]; split; [cbn [snd calls]; now rewrite <- app_assoc|];
           intros ev Hev; apply list_elem_of_singleton in Hev as ->; eauto).
    + destruct (is_Exception (exn_class e));
        (exists []; split; [reflexivity|]; intros ev Hev; inversion Hev).
Qed.

End Tier2.

(** ** The correlation rule *)

Section Correlation.
Context `{P : Pandas} `{Py : !Python} `{AI : OpenAI}.
Variable cfg : Config.

Lemma corr_shape (d : DataFrame) :
  length (rows (corr d)) = length (schema d) /\ columns (corr d) = columns d.
Proof.
  unfold corr, columns. cbn [rows schema]. split.
  - apply length_imap.
  - rewrite <- list_fmap_compose. reflexivity.
Qed.

(** Whatever the number of numeric columns, the correlation rule answers
    with a success whose data is the correlation matrix of the numeric
    columns. *)
Lemma process_correlation (self : QueryProcessor) (query : string) (w : world)
  (d : DataFrame) :
  reaches_correlation_rule query = true ->
  heap w !! dp_df (qp_data_processor self) = Some d ->
  exists table w',
    process_query cfg self query w
    = (Ok (Success (PyFrame table) "Correlation matrix for numeric columns" "df.corr()"),
       w')
    /\ heap w' !! table = Some (corr (select_dtypes_number d)).
Proof.
  unfold reaches_correlation_rule. intros Hrule Hd.
  repeat (apply andb_true_iff in Hrule as [Hrule ?]).
  repeat match goal with H : negb _ = true |- _ => apply negb_true_iff in H end.
  unfold top_rule, info_rule, statistics_rule, count_rule, columns_rule,
    missing_rule, correlation_rule in *. cbv zeta in *.
  unfold process_query, try_except, bind at 1, _process_simple_query. cbv zeta.
  repeat match goal with E : _ = false |- _ => rewrite E; clear E end.
  match goal with E : _ = true |- _ => rewrite E; clear E end.
  unfold bind, correlation_analysis, bind, load. rewrite Hd.
  unfold alloc at 1. cbn [heap]. rewrite lookup_insert_eq.
  unfold alloc, ret. cbn [success heap calls].
  eexists _, _. split; [reflexivity|]. cbn [heap]. apply lookup_insert_eq.
Qed.

(** The heatmap of [visualizer.py] refuses the same request. *)
Lemma create_correlation_heatmap_guard (self : DataVisualizer) (w : world) :
  (length (dv_numeric_columns self) < 2)%nat ->
  create_correlation_heatmap self w
  = (Raise (Exn ValueError "Need at least 2 numeric columns for correlation analysis"), w).
Proof.
  intros H. unfold create_correlation_heatmap.
  destruct (Z.ltb_spec (Z.of_nat (length (dv_numeric_columns self))) 2); [reflexivity | lia].
Qed.

End Correlation.

(** * The model on concrete inputs *)

Section Concrete.
Import Reference.

#[local] Existing Instance ScriptedPython.
#[local] Existing Instance unreachable.

Lemma world_of_caller (d : DataFrame) : heap (world_of d) !! 1%positive = Some d.
Proof. reflexivity. Qed.

Lemma world_of_processor (d : DataFrame) : heap (world_of d) !! 2%positive = Some d.
Proof. reflexivity. Qed.

(** *** Strings *)

Example lower_strip_ex : Str.strip (Str.lower "  Show Top 5 ROWS ") = "show top 5 rows".
Proof. reflexivity. Qed.

Example findall_digits_ex : Str.findall_digits "top 12 of 300 rows7" = ["12"; "300"; "7"].
Proof. reflexivity. Qed.

Example int_ex : Str.int "007" = Ok 7.
Proof. reflexivity. Qed.

Example strip_no_break_space : Str.strip (nbsp +:+ " x = 1" +:+ nbsp +:+ Str.nl) = "x = 1".
Proof. reflexivity. Qed.

Example strip_keeps_other_bytes :
  Str.strip (String (ascii_of_nat 195) (String (ascii_of_nat 160) ""))
  = String (ascii_of_nat 195) (String (ascii_of_nat 160) "").
Proof. reflexivity. Qed.

Example of_int_grouped_ex : Str.of_int_grouped 1234567 = "1,234,567".
Proof. reflexivity. Qed.

Example of_int_grouped_small : Str.of_int_grouped 100 = "100".
Proof. reflexivity. Qed.

Example partition_ex : Str.partition "ab" "xxabyyab" = Some ("xx", "yyab").
Proof. reflexivity. Qed.

Example split_lines_ex :
  Str.split_lines ("a" +:+ Str.nl +:+ "b" +:+ Str.nl) = ["a"; "b"; ""].
Proof. reflexivity. Qed.

Example extract_number_ex : _extract_number "rows 3.5 to 7" 10 = Ok 3.
Proof. reflexivity. Qed.

Example extract_code_fenced : _extract_code_from_response (fenced "1/0") = Some "1/0".
Proof. reflexivity. Qed.

Example extract_code_fallback :
  _extract_code_from_response ("Sure." +:+ Str.nl +:+ "x = df.head()") = Some "x = df.head()".
Proof. reflexivity. Qed.

Example extract_code_none : _extract_code_from_response "I cannot help." = None.
Proof. reflexivity. Qed.

(** *** Tier 1 *)

Example top_5_of_4 :
  (process_query no_key query_processor "show me the top 5 rows" (world_of people)).1
  = Ok (Success (PyFrame 4%positive) "Showing top 5 rows from the dataset" "df.head(5)").
Proof. vm_compute. reflexivity. Qed.

Example count_rows :
  (process_query no_key query_processor "How many rows?" (world_of people)).1
  = Ok (Success (PyStr "Total rows: 4") "The dataset contains 4 rows" "len(df)").
Proof. vm_compute. reflexivity. Qed.

Example mad_query_misses : tier1_rule mad_query = false.
Proof. reflexivity. Qed.



Lemma summary_resolves_to_overview_witness :
  exists data w' data' w'',
    process_query no_key query_processor "Give me a summary" (world_of people)
    = (Ok (Success (PyFrame data) "Dataset overview and column information" "df.info()"), w')
    /\ heap w' !! data = Some (column_info_table people)
    /\ process_query no_key query_processor "Give me a summary" w'
       = (Ok (Success (PyFrame data') "Dataset overview and column information" "df.info()"),
          w'')
    /\ heap w'' !! data' = Some (column_info_table people).
Proof.
  apply (summary_resolves_to_overview no_key query_processor "Give me a summary"
           (world_of people) people); reflexivity.
Defined.

Lemma no_credential_failure_witness :
  process_query no_key query_processor mad_query (world_of people)
  = (Ok (Failure "Complex queries require OpenAI API key. Please configure it in your environment."),
     world_of people).
Proof.
  apply (no_credential_failure no_key query_processor mad_query (world_of people));
    reflexivity.
Defined.

(** C2.  On a dataset with a single numeric column, the query
    "correlation between x and y" reaches the correlation rule and gets a
    success outcome holding the 1x1 correlation matrix, not a failure. *)
Theorem correlation_with_one_numeric_column :
  exists table w',
    process_query no_key query_processor "correlation between x and y"
      (world_of single_numeric)
    = (Ok (Success (PyFrame table) "Correlation matrix for numeric columns" "df.corr()"),
       w')
    /\ heap w' !! table
       = Some (Frame [("x", float64)]
                     [Row (VStr "x")
                          [VFloat (pearson [VInt 1; VInt 2; VInt 3]
                                           [VInt 1; VInt 2; VInt 3])]]).
Proof.
  apply (process_correlation no_key query_processor "correlation between x and y"
           (world_of single_numeric) single_numeric); reflexivity.
Qed.

Example heatmap_refuses_one_numeric_column :
  create_correlation_heatmap {| dv_df := 1%positive; dv_numeric_columns := ["x"] |}
    (world_of single_numeric)
  = (Raise (Exn ValueError "Need at least 2 numeric columns for correlation analysis"),
     world_of single_numeric).
Proof. reflexivity. Qed.

(** *** [DataProcessor] *)

Example missing_report_people :
  missing_report people
  = Frame missing_schema
          [Row (VInt 0)
               [VStr "name"; VInt 1;
                VFloat (np_round (fmul (fdiv (f_of_Z 1) (f_of_Z 4)) (f_of_Z 100)) 2)]].
Proof. reflexivity. Qed.

Lemma analyze_missing_data_report_witness :
  exists table w' report,
    analyze_missing_data processor (world_of people) = (Ok table, w')
    /\ heap w' !! table = Some report
    /\ (df_empty report = true <-> ~ has_null people)
    /\ (forall r, r ∈ rows report ->
          exists j column t,
            schema people !! j = Some (column, t)
            /\ 0 < null_count (series_at people j)
            /\ row_cells r
               = [VStr column;
                  VInt (null_count (series_at people j));
                  VFloat (np_round
                            (fmul (fdiv (f_of_Z (null_count (series_at people j)))
                                        (f_of_Z (df_len people)))
                                  (f_of_Z 100))
                            2)]
            /\ int_key report "Missing Count" r = null_count (series_at people j))
    /\ (forall j column t,
          schema people !! j = Some (column, t) ->
          0 < null_count (series_at people j) ->
          exists r, r ∈ rows report
                    /\ cell report "Column" r = VStr column
                    /\ cell report "Missing Count" r
                       = VInt (null_count (series_at people j)))
    /\ StronglySorted (desc (int_key report "Missing Count")) (rows report).
Proof.
  apply (analyze_missing_data_report processor (world_of people) people). reflexivity.
Defined.

Example filter_age_30_50 :
  returned_frame (filter_data processor age_30_50 (world_of people))
  = Ok (Frame (schema people)
              [ Row (VInt 0) [VInt 1; VInt 34; VStr "ann"];
                Row (VInt 3) [VInt 4; VInt 45; VStr "di"] ]).
Proof. vm_compute. reflexivity. Qed.

Lemma people_age_comparable (r : row) :
  r ∈ rows people ->
  comparable (VInt 30) (cell people "age" r) = true
  /\ comparable (cell people "age" r) (VInt 50) = true.
Proof.
  intros Hr. simpl in Hr.
  repeat (apply elem_of_cons in Hr as [-> | Hr]; [split; reflexivity|]).
  inversion Hr.
Qed.

Lemma filter_data_range_and_composition_witness :
  (exists table w',
     filter_data processor age_30_50 (world_of people) = (Ok table, w')
     /\ heap w' !! table
        = Some (Frame (schema people)
                      (List.filter (fun r => in_range (VInt 30) (VInt 50) (cell people "age" r))
                                   (rows people))))
  /\ returned_frame
       (filter_then_filter processor
          [("age", CDict {[ "min" := VInt 30 ]})]
          [("name", CList [VStr "ann"; VStr "cy"])] (world_of people))
     = returned_frame
         (filter_data processor
            (dict_union [("age", CDict {[ "min" := VInt 30 ]})]
                        [("name", CList [VStr "ann"; VStr "cy"])])
            (world_of people)).
Proof.
  apply (filter_data_range_and_composition processor (world_of people) people
           "age" (VInt 30) (VInt 50)).
  - reflexivity.
  - compute_done.
  - reflexivity.
  - reflexivity.
  - exact people_age_comparable.
  - intros k Hk. simpl in Hk. apply list_elem_of_singleton in Hk as ->. compute_done.
Defined.

(** A range of strings on a column of numbers without a single value:
    pandas refuses it by the dtype of the column. *)
Example filter_data_string_range_on_numbers :
  (filter_data
     {| dp_df := 1%positive; dp_original_df := 1%positive |}
     [("x", CDict {[ "min" := VStr "a" ]})]
     (World {[ 1%positive := Frame [("x", float64)] [Row (VInt 0) [VNull]] ]} [])).1
  = Raise (Exn TypeError "Invalid comparison between dtype=float64 and str").
Proof. vm_compute. reflexivity. Qed.

(** A range of integers on a column of strings: the comparison raises. *)
Lemma filter_data_range_on_text_column_raises :
  (filter_data processor [("name", CDict {[ "min" := VInt 1; "max" := VInt 2 ]})]
     (world_of people)).1
  = Raise (Exn TypeError "'>=' not supported between instances of 'str' and 'int'").
Proof. vm_compute. reflexivity. Qed.

Lemma filter_data_ignores_unknown_columns_witness :
  filter_data processor unknown_salary (world_of people)
  = filter_data processor (List.filter (known people) unknown_salary) (world_of people)
  /\ exists table w',
       filter_data processor
         (List.filter (fun item => negb (known people item)) unknown_salary)
         (world_of people)
       = (Ok table, w')
       /\ heap w' !! table = Some people.
Proof.
  apply (filter_data_ignores_unknown_columns processor unknown_salary (world_of people) people).
  reflexivity.
Defined.

Lemma operations_leave_receiver_unchanged_witness :
  heap (call processor group_by_name (world_of people)).2 !! dp_df processor = Some people.
Proof.
  exact (proj1 (operations_leave_receiver_unchanged processor group_by_name
                  (world_of people) people
                  (call processor group_by_name (world_of people)).1
                  (call processor group_by_name (world_of people)).2
                  eq_refl (surjective_pairing _))).
Defined.

(** *** Tier 2 *)

Example tier2_success :
  (process_query (AI := Scripted (Ok (fenced "result = len(df)"))) with_key query_processor
     mad_query (world_of people)).1
  = Ok (Success (PyScalar (VInt 4)) (fenced "result = len(df)") "result = len(df)").
Proof. vm_compute. reflexivity. Qed.

Example tier2_no_code :
  (process_query (AI := Scripted (Ok "I cannot help.")) with_key query_processor
     mad_query (world_of people)).1
  = Ok (Failure "Could not generate valid code from the query").
Proof. vm_compute. reflexivity. Qed.

Example tier2_endpoint_down :
  (process_query with_key query_processor mad_query (world_of people)).1
  = Ok (Failure "AI processing error: connection refused").
Proof. vm_compute. reflexivity. Qed.


(** On the interpreter that knows [raise SystemExit], the run on the
    fragment [1/0] makes no call that raises outside [Exception]. *)
Example division_by_zero_run_is_contained :
  forall e,
    raised_in_run (Py := ExitingPython) (AI := Scripted (Ok (fenced "1/0")))
      query_processor mad_query (world_of people) e ->
    is_Exception (exn_class e) = true.
Proof.
  intros e [d Hd Hdescribe|d Hd Hchat|d content code h' Hd Hchat Hcode Hexec
             |d content code globals h1 h2 Hd Hchat Hcode Hexec Heval].
  - injection Hd as <-. vm_compute in Hdescribe. discriminate Hdescribe.
  - discriminate Hchat.
  - injection Hd as <-. cbn in Hchat. injection Hchat as <-.
    vm_compute in Hcode. injection Hcode as <-.
    vm_compute in Hexec. now injection Hexec as <- _.
  - injection Hd as <-. cbn in Hchat. injection Hchat as <-.
    vm_compute in Hcode. injection Hcode as <-.
    vm_compute in Hexec. discriminate Hexec.
Qed.


(** [pd] is bound in the globals of the sandbox, and it is neither the
    dataset nor one of the five primitives. *)
Lemma safe_dict_binds_pandas :
  ~ (forall name obj,
       safe_dict query_processor !! name = Some obj ->
       obj = PyFrame (qp_df query_processor)
       \/ obj ∈ map PyBuiltin ["len"; "sum"; "min"; "max"; "round"]).
Proof.
  intros H. destruct (H "pd" (PyModule "pandas") eq_refl) as [Hdf | Hprim].
  - discriminate.
  - simpl in Hprim.
    repeat (apply elem_of_cons in Hprim as [Hprim | Hprim]; [discriminate|]).
    inversion Hprim.
Qed.

End Concrete.

(** * Further properties *)

(** ** Substrings, cuts and lines *)

#[local] Arguments String.append !_ _ : simpl nomatch.

Lemma append_nil_r (s : string) : s +:+ "" = s.
Proof. induction s as [|c s IH]; simpl; [reflexivity | now rewrite IH]. Qed.

Lemma startswith_iff (p s : string) :
  Str.startswith p s = true <-> exists t, s = p +:+ t.
Proof.
  revert s. induction p as [|c p IH]; intros s; simpl.
  - split; [eauto | reflexivity].
  - destruct s as [|x s]; [split; [discriminate | intros [t [=]]]|].
    destruct (Ascii.eqb_spec c x) as [->|Hne].
    + rewrite IH. split; intros [t Ht]; exists t; congruence.
    + split; [discriminate | intros [t [=]]; congruence].
Qed.

Lemma startswith_extend (p s t : string) :
  Str.startswith p s = true -> Str.startswith p (s +:+ t) = true.
Proof.
  rewrite !startswith_iff. intros [u ->]. exists (u +:+ t).
  apply append_assoc_str.
Qed.

Lemma contains_iff (p s : string) :
  Str.contains p s = true <-> exists a b, s = a +:+ p +:+ b.
Proof.
  split; [|intros (a & b & ->); apply contains_middle].
  induction s as [|c s IH].
  - unfold Str.contains. rewrite orb_false_r, startswith_iff. intros [t Ht].
    exists "", t. exact Ht.
  - change (Str.contains p (String c s))
      with (Str.startswith p (String c s) || Str.contains p s).
    intros H. apply orb_true_iff in H as [H | H].
    + apply startswith_iff in H as [t Ht]. exists "", t. exact Ht.
    + destruct (IH H) as (a & b & ->). exists (String c a), b. reflexivity.
Qed.

Lemma contains_trans (a b s : string) :
  Str.contains a b = true -> Str.contains b s = true -> Str.contains a s = true.
Proof.
  rewrite !contains_iff. intros (x & y & ->) (u & v & ->).
  exists (u +:+ x), (y +:+ v). now rewrite !append_assoc_str.
Qed.

Lemma contains_empty (p : string) : p <> "" -> Str.contains p "" = false.
Proof. destruct p; [congruence | reflexivity]. Qed.

Lemma drop_app (p s : string) : Str.drop (String.length p) (p +:+ s) = s.
Proof. induction p as [|c p IH]; simpl; [now destruct s | exact IH]. Qed.

(** [Str.partition] cuts at an occurrence of the needle... *)
Lemma partition_Some (needle hay before after : string) :
  Str.partition needle hay = Some (before, after) ->
  hay = before +:+ needle +:+ after.
Proof.
  revert before. induction hay as [|c hay IH]; intros before; simpl.
  - destruct needle; [|discriminate]. now intros [= <- <-].
  - destruct (Str.startswith needle (String c hay)) eqn:E.
    + intros [= <- <-]. apply startswith_iff in E as [t Ht].
      rewrite Ht. now rewrite drop_app.
    + destruct (Str.partition needle hay) as [[b a]|]; [|discriminate].
      intros [= <- <-]. simpl. now rewrite (IH b eq_refl).
Qed.

(** ... the first one: the text before the cut does not contain it ... *)
Lemma partition_first (needle hay before after : string) :
  needle <> "" ->
  Str.partition needle hay = Some (before, after) ->
  Str.contains needle before = false.
Proof.
  intros Hne. revert before. induction hay as [|c hay IH]; intros before; simpl.
  - destruct (Str.startswith needle ""); [|discriminate].
    intros [= <- <-]. now apply contains_empty.
  - destruct (Str.startswith needle (String c hay)) eqn:E.
    + intros [= <- <-]. now apply contains_empty.
    + destruct (Str.partition needle hay) as [[b a]|] eqn:Hp; [|discriminate].
      intros [= <- <-].
      change (Str.startswith needle (String c b) || Str.contains needle b = false).
      rewrite (IH b eq_refl), orb_false_r.
      destruct (Str.startswith needle (String c b)) eqn:Hs; [|reflexivity].
      apply (startswith_extend _ _ (needle +:+ a)) in Hs.
      apply partition_Some in Hp. simpl in Hs. rewrite <- Hp in Hs. congruence.
Qed.

(** ... and there is no cut exactly when the needle does not occur. *)
Lemma partition_None (needle hay : string) :
  Str.partition needle hay = None <-> Str.contains needle hay = false.
Proof.
  induction hay as [|c hay IH].
  - simpl. unfold Str.contains. rewrite orb_false_r.
    destruct (Str.startswith needle ""); split; congruence.
  - change (Str.contains needle (String c hay))
      with (Str.startswith needle (String c hay) || Str.contains needle hay).
    simpl. destruct (Str.startswith needle (String c hay)); [split; discriminate|].
    rewrite orb_false_l, <- IH.
    destruct (Str.partition needle hay) as [[b a]|]; split; congruence.
Qed.

(** The cut is at or before any occurrence of the needle. *)
Lemma partition_prefix (needle hay before after b a : string) :
  Str.partition needle hay = Some (before, after) ->
  hay = b +:+ needle +:+ a ->
  exists t, b = before +:+ t.
Proof.
  revert before b. induction hay as [|c hay IH]; intros before b; simpl.
  - destruct (Str.startswith needle ""); [|discriminate].
    intros [= <- <-] _. now exists b.
  - destruct (Str.startswith needle (String c hay)) eqn:E.
    + intros [= <- <-] _. now exists b.
    + destruct (Str.partition needle hay) as [[b0 a0]|] eqn:Hp; [|discriminate].
      intros [= <- <-] Hhay. destruct b as [|x b].
      * simpl in Hhay. rewrite Hhay, startswith_app in E. discriminate.
      * simpl in Hhay. injection Hhay as -> ->.
        destruct (IH b0 b eq_refl eq_refl) as [t ->]. now exists t.
Qed.

Lemma length_append_str (a b : string) :
  String.length (a +:+ b) = (String.length a + String.length b)%nat.
Proof. induction a as [|c a IH]; simpl; [reflexivity | now rewrite IH]. Qed.

Lemma append_inv_head (a b c : string) : a +:+ b = a +:+ c -> b = c.
Proof. induction a as [|x a IH]; simpl; [auto | intros [= H]; auto]. Qed.

Lemma drop_app_le (k : nat) (u x : string) :
  (k <= String.length u)%nat -> Str.drop k (u +:+ x) = Str.drop k u +:+ x.
Proof.
  revert u. induction k as [|k IH]; intros u Hk; simpl; [reflexivity|].
  destruct u as [|c u]; simpl in *; [lia|]. apply IH. lia.
Qed.

Lemma all_chars_rev_acc (p : ascii -> bool) (s acc : string) :
  all_chars p (Str.rev_acc s acc) = all_chars p s && all_chars p acc.
Proof.
  revert acc. induction s as [|c s IH]; intros acc; simpl; [reflexivity|].
  rewrite IH. simpl. destruct (p c), (all_chars p s); reflexivity.
Qed.

Lemma split_lines_acc_last (cur s : string) :
  no_char Str.LF s = true ->
  Str.split_lines_acc cur s = [Str.rev (Str.rev_acc s cur)].
Proof.
  unfold no_char. revert cur. induction s as [|c s IH]; intros cur H; simpl in *.
  - reflexivity.
  - apply andb_true_iff in H as [Hc Hs]. apply negb_true_iff in Hc.
    rewrite Hc. now apply IH.
Qed.

Lemma split_lines_acc_line (cur a b : string) :
  no_char Str.LF a = true ->
  Str.split_lines_acc cur (a +:+ String Str.LF b)
  = Str.rev (Str.rev_acc a cur) :: Str.split_lines_acc "" b.
Proof.
  unfold no_char. revert cur. induction a as [|c a IH]; intros cur H; simpl in *.
  - reflexivity.
  - apply andb_true_iff in H as [Hc Ha]. apply negb_true_iff in Hc.
    rewrite Hc. now apply IH.
Qed.

(** [split] undoes [join] on lines. *)
Lemma split_lines_join (l : string) (ls : list string) :
  Forall (fun x => no_char Str.LF x = true) (l :: ls) ->
  Str.split_lines (Str.join Str.nl (l :: ls)) = l :: ls.
Proof.
  unfold Str.split_lines. revert l. induction ls as [|l2 ls IH]; intros l H.
  - inversion H; subst. simpl. rewrite split_lines_acc_last by assumption.
    now rewrite rev_rev_acc.
  - inversion H; subst.
    change (Str.join Str.nl (l :: l2 :: ls))
      with (l +:+ String Str.LF (Str.join Str.nl (l2 :: ls))).
    rewrite split_lines_acc_line by assumption. rewrite rev_rev_acc.
    f_equal. now apply IH.
Qed.

Lemma split_lines_acc_no_LF (cur s : string) :
  no_char Str.LF cur = true ->
  Forall (fun x => no_char Str.LF x = true) (Str.split_lines_acc cur s).
Proof.
  unfold no_char. revert cur. induction s as [|c s IH]; intros cur H; simpl.
  - constructor; [|constructor]. unfold Str.rev. rewrite all_chars_rev_acc, H. reflexivity.
  - destruct (Ascii.eqb c Str.LF) eqn:E.
    + constructor; [|now apply IH].
      unfold Str.rev. rewrite all_chars_rev_acc, H. reflexivity.
    + apply IH. simpl. now rewrite E, H.
Qed.

Lemma partition_here (needle x : string) :
  Str.partition needle (needle +:+ x) = Some ("", x).
Proof.
  pose proof (startswith_app needle x) as Hs. pose proof (drop_app needle x) as Hd.
  destruct (needle +:+ x) as [|c s]; cbn [Str.partition]; now rewrite Hs, Hd.
Qed.

Lemma partition_fence_open (pre x : string) :
  no_char "`" pre = true ->
  Str.partition fence_open (pre +:+ fence_open +:+ x) = Some (pre, x).
Proof.
  unfold no_char. induction pre as [|c pre IH]; intros H.
  - exact (partition_here fence_open x).
  - simpl in H. apply andb_true_iff in H as [Hc Hpre]. apply negb_true_iff in Hc.
    rewrite Ascii.eqb_sym in Hc.
    change (Str.partition fence_open (String c (pre +:+ fence_open +:+ x))
            = Some (String c pre, x)).
    cbn [Str.partition]. rewrite (IH Hpre).
    change (Str.startswith fence_open (String c (pre +:+ fence_open +:+ x)))
      with (if Ascii.eqb "`" c
            then Str.startswith ("``python" +:+ Str.nl) (pre +:+ fence_open +:+ x)
            else false).
    now rewrite Hc.
Qed.

Lemma partition_fence_close (code x : string) :
  no_char "`" code = true ->
  Str.partition fence_close (code +:+ fence_close +:+ x) = Some (code, x).
Proof.
  unfold no_char. induction code as [|c code IH]; intros H.
  - exact (partition_here fence_close x).
  - simpl in H. apply andb_true_iff in H as [Hc Hcode].
    change (Str.partition fence_close (String c (code +:+ fence_close +:+ x))
            = Some (String c code, x)).
    cbn [Str.partition]. rewrite (IH Hcode).
    replace (Str.startswith fence_close (String c (code +:+ fence_close +:+ x)))
      with false; [reflexivity|].
    change (false = if Ascii.eqb Str.LF c
                    then Str.startswith "```" (code +:+ fence_close +:+ x)
                    else false).
    destruct (Ascii.eqb Str.LF c); [|reflexivity].
    destruct code as [|c' code].
    + reflexivity.
    + simpl in Hcode. apply andb_true_iff in Hcode as [Hc' _].
      apply negb_true_iff in Hc'. rewrite Ascii.eqb_sym in Hc'.
      change (false = if Ascii.eqb "`" c'
                      then Str.startswith "``" (code +:+ fence_close +:+ x)
                      else false).
      now rewrite Hc'.
Qed.

#[local] Arguments String.append : simpl never.

(** ** [_extract_code_from_response] *)

Lemma search_fenced_Some (response body : string) :
  search_fenced response = Some body ->
  exists before rest,
    response = before +:+ fence_open +:+ body +:+ fence_close +:+ rest
    /\ Str.contains fence_open before = false
    /\ Str.contains fence_close body = false.
Proof.
  unfold search_fenced. fold fence_open fence_close.
  destruct (Str.partition fence_open response) as [[before after]|] eqn:H1; [|discriminate].
  destruct (Str.partition fence_close after) as [[body' rest]|] eqn:H2; [|discriminate].
  intros [= ->]. exists before, rest. repeat split.
  - apply partition_Some in H1, H2. now rewrite <- H2.
  - now apply (partition_first fence_open response before after).
  - now apply (partition_first fence_close after body rest).
Qed.

Lemma search_fenced_None (response : string) :
  search_fenced response = None ->
  forall before body rest,
    response <> before +:+ fence_open +:+ body +:+ fence_close +:+ rest.
Proof.
  unfold search_fenced. fold fence_open fence_close.
  intros Hnone before body rest Heq.
  destruct (Str.partition fence_open response) as [[b0 a0]|] eqn:H1.
  - destruct (partition_prefix _ _ _ _ _ _ H1 Heq) as [t ->].
    apply partition_Some in H1. rewrite H1 in Heq.
    rewrite append_assoc_str in Heq. apply append_inv_head in Heq.
    assert (Ha0 : a0 = Str.drop (String.length fence_open) (t +:+ fence_open)
                       +:+ body +:+ fence_close +:+ rest).
    { rewrite <- (drop_app fence_open a0), Heq, <- append_assoc_str.
      apply drop_app_le. rewrite length_append_str. lia. }
    destruct (Str.partition fence_close a0) as [[b1 a1]|] eqn:H2; [discriminate|].
    apply partition_None in H2. rewrite Ha0 in H2.
    rewrite <- append_assoc_str, contains_middle in H2. discriminate.
  - apply partition_None in H1. rewrite Heq, contains_middle in H1. discriminate.
Qed.

Lemma is_code_line_nonempty (line : string) : is_code_line line = true -> line <> "".
Proof. intros H ->. discriminate. Qed.

(** X1.  What [_extract_code_from_response] returns.  Either the reply has a
    fenced block and the code is the stripped text between the first
    opening fence and the first closing fence after it; or the reply has no
    fenced block and the code, never empty, consists of the lines of the
    reply that contain [df.], [import], [print] or [=], in their order; or
    there is neither and the result is [None]. *)
Theorem extract_code_characterization (response : string) :
  match _extract_code_from_response response with
  | Some code =>
      (exists before body rest,
         response = before +:+ fence_open +:+ body +:+ fence_close +:+ rest
         /\ Str.contains fence_open before = false
         /\ Str.contains fence_close body = false
         /\ code = Str.strip body)
      \/ ((forall before body rest,
             response <> before +:+ fence_open +:+ body +:+ fence_close +:+ rest)
          /\ code <> ""
          /\ Str.split_lines code = List.filter is_code_line (Str.split_lines response))
  | None =>
      (forall before body rest,
         response <> before +:+ fence_open +:+ body +:+ fence_close +:+ rest)
      /\ forall line, line ∈ Str.split_lines response -> is_code_line line = false
  end.
Proof.
  unfold _extract_code_from_response.
  destruct (search_fenced response) as [body|] eqn:Hs.
  - left. destruct (search_fenced_Some response body Hs) as (before & rest & H1 & H2 & H3).
    exists before, body, rest. auto.
  - pose proof (search_fenced_None response Hs) as Hno.
    change (fun line : string =>
              Str.contains "df." line || Str.any_in ["import"; "print"; "="] line)
      with is_code_line.
    destruct (List.filter is_code_line (Str.split_lines response)) as [|l ls] eqn:Hf.
    + split; [exact Hno|]. now apply filter_nil_iff.
    + right. split; [exact Hno|].
      assert (Hall : Forall (fun x => no_char Str.LF x = true) (l :: ls)).
      { rewrite <- Hf. apply Forall_forall. intros x Hx.
        apply list_elem_of_In, filter_In in Hx as [Hx _]. apply list_elem_of_In in Hx.
        pose proof (split_lines_acc_no_LF "" response eq_refl) as Hlines.
        rewrite Forall_forall in Hlines. now apply Hlines. }
      split; [|now apply split_lines_join].
      assert (Hl : is_code_line l = true).
      { assert (Hin : In l (List.filter is_code_line (Str.split_lines response)))
          by (rewrite Hf; now left).
        now apply filter_In in Hin. }
      apply is_code_line_nonempty in Hl. destruct l as [|c l]; [congruence|].
      destruct ls; discriminate.
Qed.

(** X2.  A reply made of text without backticks, a fenced block whose code
    has no backtick, and anything after it gives back that code, stripped
    of the white space around it. *)
Theorem extract_code_fenced_round_trip (before code rest : string) :
  no_char "`" before = true ->
  no_char "`" code = true ->
  _extract_code_from_response (before +:+ fence_open +:+ code +:+ fence_close +:+ rest)
  = Some (Str.strip code).
Proof.
  intros Hb Hc. unfold _extract_code_from_response, search_fenced.
  fold fence_open fence_close.
  rewrite (partition_fence_open before _ Hb), (partition_fence_close code rest Hc).
  reflexivity.
Qed.

(** ** Keywords *)

(** X3.  Three keywords of the pattern matcher decide nothing.  A text that
    contains "information" contains "info", and one that contains
    "correlation" contains "corr": the overview rule is the test for
    "info", "overview", "summary", and the correlation rule the test for
    "corr".  The keyword "summary" of the statistics rule is never the one
    that matters, since the overview rule comes first and has it too. *)
Theorem redundant_keywords (query : string) :
  info_rule query
  = Str.any_in ["info"; "overview"; "summary"] (Str.strip (Str.lower query))
  /\ correlation_rule query = Str.contains "corr" (Str.strip (Str.lower query))
  /\ negb (info_rule query) && statistics_rule query
     = negb (info_rule query)
       && Str.any_in ["statistics"; "stats"; "describe"] (Str.strip (Str.lower query)).
Proof.
  unfold info_rule, statistics_rule, correlation_rule, Str.any_in. cbn [existsb].
  set (s := Str.strip (Str.lower query)).
  pose proof (contains_trans "info" "information" s eq_refl) as Hinfo.
  pose proof (contains_trans "corr" "correlation" s eq_refl) as Hcorr.
  destruct (Str.contains "information" s), (Str.contains "correlation" s);
    try rewrite (Hinfo eq_refl); try rewrite (Hcorr eq_refl);
    repeat split; try reflexivity;
    repeat match goal with |- context [Str.contains ?k s] => destruct (Str.contains k s) end;
    reflexivity.
Qed.

(** ** Runs of [process_query] *)

Section Runs.
Context `{P : Pandas} `{Py : !Python} `{AI : OpenAI}.
Variable cfg : Config.

Lemma execute_pandas_code_cases (self : QueryProcessor) (code : string) (w : world)
  (r : result pyobj) (w' : world) :
  _execute_pandas_code self code w = (r, w') ->
  match r with
  | Ok _ => True
  | Raise e =>
      (exists m, e = Exn PlainException ("Code execution error: " +:+ m))
      \/ is_Exception (exn_class e) = false
  end
  /\ (calls w' = (calls w ++ [EvExec code (safe_dict self)])%list
      \/ exists expr globals,
           calls w' = (calls w ++ [EvExec code (safe_dict self); EvEval expr globals])%list).
Proof.
  unfold _execute_pandas_code, try_except, bind, exec, eval, ret, raise.
  destruct (py_exec code (safe_dict self) (heap w)) as [[g|e] h].
  - destruct (first_bound _ g).
    + intros [= <- <-]. cbn [calls]. auto.
    + cbn [heap calls].
      destruct (py_eval _ g h) as [[v|e] h2].
      * intros [= <- <-]. cbn [calls]. rewrite <- app_assoc.
        split; [exact I|]. right. do 2 eexists. reflexivity.
      * destruct (is_Exception (exn_class e)) eqn:He;
          intros [= <- <-]; cbn [calls]; rewrite <- app_assoc;
          (split; [eauto | right; do 2 eexists; reflexivity]).
  - destruct (is_Exception (exn_class e)) eqn:He; intros [= <- <-]; cbn [calls]; eauto.
Qed.

Lemma ai_query_cases (self : QueryProcessor) (query : string) (w : world)
  (r : result outcome) (w' : world) :
  _process_ai_query self query w = (r, w') ->
  ai_outcome r
  /\ exists evs, calls w' = (calls w ++ evs)%list /\ query_trace self evs.
Proof.
  unfold _process_ai_query, try_except, _create_dataset_context, load, chat, emit,
    lift, bind, ret. cbv beta.
  match goal with
  | |- context [match heap w !! ?l with Some _ => _ | None => _ end] =>
      destruct (heap w !! l) as [d|]
  end.
  - cbv beta iota. cbn [heap calls].
    destruct (ChatCompletion_create _) as [content|e].
    + destruct (_extract_code_from_response content) as [code|] eqn:Hcode.
      * destruct (String.eqb code "") eqn:Hempty; cbn [negb].
        -- intros [= <- <-]. split; [constructor|]. eexists. split; [reflexivity|constructor].
        -- destruct (_execute_pandas_code self code _) as [[v|e] w2] eqn:Hrun;
             apply execute_pandas_code_cases in Hrun as [Hr Hcalls]; cbn [calls] in Hcalls.
           ++ intros [= <- <-]. split.
              ** constructor; [exact Hcode|]. intros ->. discriminate.
              ** destruct Hcalls as [->|(expr & g & ->)]; rewrite <- app_assoc;
                   eexists; (split; [reflexivity|constructor]).
           ++ assert (exists evs, calls w2 = (calls w ++ evs)%list /\ query_trace self evs)
                as Htrace.
              { destruct Hcalls as [->|(expr & g & ->)]; rewrite <- app_assoc;
                  eexists; (split; [reflexivity|constructor]). }
              destruct (is_Exception (exn_class e)) eqn:He; intros [= <- <-].
              ** split; [constructor | exact Htrace].
              ** split; [now constructor | exact Htrace].
      * intros [= <- <-]. split; [constructor|]. eexists. split; [reflexivity|constructor].
    + destruct (is_Exception (exn_class e)) eqn:He; intros [= <- <-].
      * split; [constructor|]. eexists. split; [reflexivity|constructor].
      * split; [now constructor|]. eexists. split; [reflexivity|constructor].
  - cbn. intros [= <- <-]. split; [constructor|].
    exists []. split; [now rewrite app_nil_r | constructor].
Qed.

(** X4.  One query adds to the log of outside calls nothing, or one request
    to the endpoint, or that request followed by one [exec] of a fragment
    under the globals of the sandbox, or those two followed by one [eval];
    nothing at all when a rule of tier 1 matches or when no key is
    configured. *)
Theorem process_query_trace (self : QueryProcessor) (query : string) (w : world) :
  exists evs,
    calls (process_query cfg self query w).2 = (calls w ++ evs)%list
    /\ query_trace self evs
    /\ (tier1_rule query = true -> evs = [])
    /\ (api_key_configured cfg = false -> evs = []).
Proof.
  assert (forall w1 : world, calls w1 = calls w ->
          exists evs, calls w1 = (calls w ++ evs)%list /\ query_trace self evs
            /\ (tier1_rule query = true -> evs = [])
            /\ (api_key_configured cfg = false -> evs = [])) as Hnone.
  { intros w1 ->. exists []. rewrite app_nil_r. repeat split; constructor. }
  unfold process_query, try_except, bind.
  destruct (_process_simple_query self query w) as [[o|e] w1] eqn:Hs.
  - pose proof (grows_process_simple_query self query _ _ _ Hs) as [_ Hcalls].
    apply simple_query_cases in Hs as [[Ht Ho]|(Ht & -> & ->)].
    + rewrite Ho. cbn. auto.
    + cbn [success]. destruct (api_key_configured cfg) eqn:Hkey; [|cbn; auto].
      destruct (_process_ai_query self query w) as [r w2] eqn:Hai.
      apply ai_query_cases in Hai as [Hr (evs & Hevs & Htrace)].
      exists evs. split; [|repeat split; [exact Htrace | congruence | discriminate]].
      destruct Hr as [| | |e He]; cbn; try exact Hevs. now rewrite He.
  - pose proof (grows_process_simple_query self query _ _ _ Hs) as [_ Hcalls].
    destruct (is_Exception (exn_class e)); cbn; auto.
Qed.


End Runs.

(** ** [DataProcessor]: construction and isolation *)

Section Construction.
Context `{P : Pandas} `{Py : !Python} `{AI : OpenAI}.

Lemma QueryProcessor_init_run (dataframe : loc) (w : world) (d : DataFrame) :
  heap w !! dataframe = Some d ->
  let l1 := fresh (dom (heap w)) in
  let l2 := fresh (dom (<[l1 := d]> (heap w))) in
  QueryProcessor_init dataframe w
  = (Ok {| qp_df := dataframe;
           qp_data_processor := {| dp_df := l1; dp_original_df := l2 |} |},
     World (<[l2 := d]> (<[l1 := d]> (heap w))) (calls w))
  /\ heap w !! l1 = None /\ heap w !! l2 = None /\ l1 <> l2.
Proof.
  intros Hd l1 l2.
  assert (heap w !! l1 = None) as H1 by apply fresh_lookup.
  assert (<[l1 := d]> (heap w) !! l2 = None) as H2 by apply fresh_lookup.
  assert (l1 <> l2) as Hne.
  { intros Heq. rewrite <- Heq, lookup_insert_eq in H2. discriminate. }
  assert (l1 <> dataframe) as Hl1 by (intros ->; congruence).
  repeat split; try assumption.
  - unfold QueryProcessor_init, DataProcessor_init, copy, bind, load, alloc, ret.
    rewrite Hd. cbn [heap calls]. fold l1.
    rewrite lookup_insert_ne by exact Hl1. rewrite Hd. reflexivity.
  - now rewrite lookup_insert_ne in H2.
Qed.

(** X6.  [QueryProcessor(df)] keeps the caller's frame itself as [self.df],
    while its [DataProcessor] holds two new frames, distinct from each
    other, each with the content of the caller's frame; the frames that
    existed before are unchanged and nothing is called outside. *)
Theorem QueryProcessor_init_aliasing (dataframe : loc) (w : world) (d : DataFrame) :
  heap w !! dataframe = Some d ->
  exists self w',
    QueryProcessor_init dataframe w = (Ok self, w')
    /\ qp_df self = dataframe
    /\ heap w !! dp_df (qp_data_processor self) = None
    /\ heap w !! dp_original_df (qp_data_processor self) = None
    /\ dp_df (qp_data_processor self) <> dp_original_df (qp_data_processor self)
    /\ heap w' !! dp_df (qp_data_processor self) = Some d
    /\ heap w' !! dp_original_df (qp_data_processor self) = Some d
    /\ (forall l, is_Some (heap w !! l) -> heap w' !! l = heap w !! l)
    /\ calls w' = calls w.
Proof.
  intros Hd.
  destruct (QueryProcessor_init_run dataframe w d Hd) as (Hrun & H1 & H2 & Hne).
  eexists _, _. split; [exact Hrun|].
  cbn [qp_df qp_data_processor dp_df dp_original_df heap calls].
  repeat split; try assumption.
  - rewrite lookup_insert_ne by congruence. apply lookup_insert_eq.
  - apply lookup_insert_eq.
  - intros l [x Hx].
    rewrite !lookup_insert_ne by congruence. reflexivity.
Qed.

Lemma returns_functional (run : result loc * world) (r1 r2 : result DataFrame) :
  returns run r1 -> returns run r2 -> r1 = r2.
Proof.
  destruct run as [[l|e] w], r1, r2; cbn; intros; try contradiction; congruence.
Qed.

Lemma call_returns (self : DataProcessor) (op : operation) (w : world) (d : DataFrame) :
  heap w !! dp_df self = Some d ->
  returns (call self op w) (op_frame d op).
Proof.
  intros Hd. destruct op as [| | |conditions|g a f]; cbn [call op_frame].
  - unfold get_column_info, bind, load. rewrite Hd. apply returns_alloc.
  - rewrite (analyze_missing_data_run self w d Hd). cbn. apply lookup_insert_eq.
  - unfold correlation_analysis, bind, load, alloc. rewrite Hd. cbn [heap calls].
    rewrite lookup_insert_eq. cbn. apply lookup_insert_eq.
  - now apply filter_data_returns.
  - unfold group_analysis, bind, load, raise, lift. rewrite Hd.
    destruct (negb _ || negb _); [reflexivity|].
    destruct (groupby_agg d g a f); [apply returns_alloc | reflexivity].
Qed.

Lemma call_dangling (self : DataProcessor) (op : operation) (w : world) :
  heap w !! dp_df self = None ->
  call self op w = (Raise dangling, w).
Proof.
  intros Hd.
  destruct op; cbn [call];
    unfold get_column_info, analyze_missing_data, correlation_analysis, filter_data,
      group_analysis, copy, bind, load;
    now rewrite Hd.
Qed.

(** X7.  What an operation of [DataProcessor] returns is a function of the
    receiver's frame alone: two memories that agree on that frame give the
    same table or the same exception, whatever else they hold. *)
Theorem operations_read_only_the_receiver (self : DataProcessor) (op : operation)
  (w1 w2 : world) :
  heap w1 !! dp_df self = heap w2 !! dp_df self ->
  returned_frame (call self op w1) = returned_frame (call self op w2).
Proof.
  intros Heq. destruct (heap w1 !! dp_df self) as [d|] eqn:H1; symmetry in Heq.
  - rewrite (returns_returned_frame _ _ (call_returns self op w1 d H1)).
    now rewrite (returns_returned_frame _ _ (call_returns self op w2 d Heq)).
  - now rewrite (call_dangling self op w1 H1), (call_dangling self op w2 Heq).
Qed.

End Construction.

(** ** [get_column_info] and [correlation_analysis] *)

Section TableProperties.
Context `{P : Pandas}.

Lemma elem_of_fold_keys (records : list (list (string * value))) (acc : list string)
  (k : string) :
  k ∈ fold_left
        (fun acc r =>
           (acc ++ List.filter (fun k => negb (bool_decide (k ∈ acc))) (r.*1))%list)
        records acc
  <-> k ∈ acc \/ exists r, r ∈ records /\ k ∈ r.*1.
Proof.
  revert acc. induction records as [|r records IH]; intros acc; cbn [fold_left].
  - split; [auto|]. intros [H|(r & Hr & _)]; [exact H|]. inversion Hr.
  - rewrite IH, elem_of_app. split.
    + intros [[H|H]|(r' & Hr' & Hk)].
      * now left.
      * right. exists r. split; [left|].
        apply list_elem_of_In, filter_In in H as [H _]. now apply list_elem_of_In.
      * right. exists r'. split; [now right | exact Hk].
    + intros [H|(r' & Hr' & Hk)]; [now left; left|].
      apply elem_of_cons in Hr' as [->|Hr'].
      * left. destruct (decide (k ∈ acc)) as [Hin|Hout]; [now left|].
        right. apply list_elem_of_In, filter_In. split; [now apply list_elem_of_In|].
        now rewrite bool_decide_eq_false_2.
      * right. now exists r'.
Qed.

Lemma elem_of_record_keys (records : list (list (string * value))) (k : string) :
  k ∈ record_keys records <-> exists r, r ∈ records /\ k ∈ r.*1.
Proof.
  unfold record_keys. rewrite elem_of_fold_keys. split; [|now right].
  intros [H|H]; [inversion H | exact H].
Qed.

Lemma index_of_elem (k : string) (cols : list string) :
  k ∈ cols -> exists i, index_of k cols = Some i /\ cols !! i = Some k.
Proof.
  induction cols as [|c cols IH]; [intros H; inversion H|].
  intros Hin. cbn [index_of]. destruct (String.eqb k c) eqn:Heq.
  - apply String.eqb_eq in Heq as ->. now exists O.
  - apply String.eqb_neq in Heq.
    apply elem_of_cons in Hin as [->|Hin]; [contradiction|].
    destruct (IH Hin) as (i & -> & Hi). now exists (S i).
Qed.

Lemma columns_of_records (records : list (list (string * value))) :
  columns (DataFrame_of_records records) = record_keys records.
Proof.
  unfold DataFrame_of_records, columns. cbn [schema].
  rewrite <- list_fmap_compose. apply list_fmap_id.
Qed.

(** The cell of a row of [pd.DataFrame(records)] under a key of its
    record is the value of the record. *)
Lemma cell_of_records (records : list (list (string * value))) (i : nat)
  (rec : list (string * value)) (k : string) :
  records !! i = Some rec -> k ∈ rec.*1 ->
  exists r, rows (DataFrame_of_records records) !! i = Some r
            /\ cell (DataFrame_of_records records) k r = record_get rec k.
Proof.
  intros Hrec Hk.
  exists (Row (VInt (Z.of_nat i)) (map (record_get rec) (record_keys records))). split.
  - unfold DataFrame_of_records. cbn [rows]. now rewrite list_lookup_imap, Hrec.
  - unfold cell. rewrite columns_of_records.
    destruct (index_of_elem k (record_keys records)) as (j & -> & Hj).
    { apply elem_of_record_keys. exists rec. split; [|exact Hk].
      eapply list_elem_of_lookup_2, Hrec. }
    cbn [row_cells]. apply nth_lookup_Some with (d := VNull).
    now rewrite list_lookup_fmap, Hj.
Qed.

Lemma column_info_keys (column : string) (t : dtype) (col_data : list value) (k : string) :
  k ∈ ["Column"; "Data Type"; "Non-Null Count"; "Null Count"; "Unique Values"] ->
  k ∈ (column_info column t col_data).*1.
Proof.
  intros Hk. apply list_elem_of_In in Hk. apply list_elem_of_In. unfold column_info.
  destruct (is_numeric_dtype t); [|destruct (nunique col_data <? 10)];
    cbn in Hk |- *; tauto.
Qed.

Lemma column_info_get (column : string) (t : dtype) (col_data : list value) :
  record_get (column_info column t col_data) "Column" = VStr column
  /\ record_get (column_info column t col_data) "Data Type" = VStr (dtype_str t)
  /\ record_get (column_info column t col_data) "Non-Null Count"
     = VInt (non_null_count col_data)
  /\ record_get (column_info column t col_data) "Null Count" = VInt (null_count col_data)
  /\ record_get (column_info column t col_data) "Unique Values" = VInt (nunique col_data).
Proof.
  unfold column_info.
  destruct (is_numeric_dtype t); [|destruct (nunique col_data <? 10)];
    repeat split; reflexivity.
Qed.

Lemma count_split (cells : list value) :
  non_null_count cells + null_count cells = Z.of_nat (length cells).
Proof.
  unfold non_null_count, null_count.
  induction cells as [|v cells IH]; [reflexivity|].
  rewrite !filter_cons. destruct v; cbn [isnull];
    repeat case_decide; try discriminate; try congruence; cbn [length]; lia.
Qed.

Lemma length_unique_acc (seen cells : list value) :
  (length (unique_acc seen cells) <= length cells)%nat.
Proof.
  revert seen. induction cells as [|x cells IH]; intros seen; cbn [unique_acc length].
  - lia.
  - destruct (existsb _ seen); cbn [length].
    + specialize (IH seen). lia.
    + specialize (IH (x :: seen)). lia.
Qed.

Lemma length_series_at (d : DataFrame) (j : nat) :
  Z.of_nat (length (series_at d j)) = df_len d.
Proof. unfold series_at, df_len. now rewrite length_map. Qed.

Lemma nunique_bounds (cells : list value) : 0 <= nunique cells <= non_null_count cells.
Proof.
  unfold nunique, non_null_count, unique, dropna.
  pose proof (length_unique_acc [] (filter (fun v => isnull v = false) cells)). lia.
Qed.

(** X8.  The table of [get_column_info] has one row per column of the
    frame, in the order of the columns; the row of a column names it under
    "Column" and its dtype under "Data Type", its non-null and null
    counts add up to the number of rows of the frame, and its number of
    distinct values is at most the non-null count. *)
Theorem get_column_info_rows (self : DataProcessor) (w : world) (d : DataFrame) :
  heap w !! dp_df self = Some d ->
  exists table,
    returns (get_column_info self w) (Ok table)
    /\ length (rows table) = length (columns d)
    /\ forall j column t,
         schema d !! j = Some (column, t) ->
         exists r non_null null distinct,
           rows table !! j = Some r
           /\ cell table "Column" r = VStr column
           /\ cell table "Data Type" r = VStr (dtype_str t)
           /\ cell table "Non-Null Count" r = VInt non_null
           /\ cell table "Null Count" r = VInt null
           /\ cell table "Unique Values" r = VInt distinct
           /\ non_null + null = df_len d
           /\ 0 <= distinct <= non_null.
Proof.
  intros Hd. exists (column_info_table d). split; [|split].
  - unfold get_column_info, bind, load. rewrite Hd. apply returns_alloc.
  - unfold column_info_table, DataFrame_of_records, columns. cbn [rows].
    now rewrite !length_imap, length_fmap.
  - intros j column t Hj.
    set (rec := column_info column t (series_at d j)).
    assert (imap (fun j ct => column_info ct.1 ct.2 (series_at d j)) (schema d) !! j
            = Some rec) as Hrec by now rewrite list_lookup_imap, Hj.
    destruct (column_info_get column t (series_at d j)) as (G1 & G2 & G3 & G4 & G5).
    destruct (cell_of_records _ j rec "Column" Hrec) as (r & Hr & C1).
    { apply column_info_keys. set_solver. }
    exists r, (non_null_count (series_at d j)), (null_count (series_at d j)),
      (nunique (series_at d j)).
    assert (forall k,
              k ∈ ["Column"; "Data Type"; "Non-Null Count"; "Null Count"; "Unique Values"] ->
              cell (column_info_table d) k r = record_get rec k) as Hcell.
    { intros k Hk.
      destruct (cell_of_records _ j rec k Hrec) as (r' & Hr' & C).
      { now apply column_info_keys. }
      unfold column_info_table. congruence. }
    split; [exact Hr|].
    rewrite !Hcell by set_solver.
    repeat split; try assumption.
    + rewrite count_split. apply length_series_at.
    + apply nunique_bounds.
    + apply nunique_bounds.
Qed.

(** X9.  The table of [correlation_analysis] is square and labelled by the
    numeric columns of the frame, in their order: one column and one row
    per numeric column, whatever their number. *)
Theorem correlation_analysis_shape (self : DataProcessor) (w : world) (d : DataFrame) :
  heap w !! dp_df self = Some d ->
  exists table,
    returns (correlation_analysis self w) (Ok table)
    /\ columns table = select_dtypes_columns is_numeric_dtype d
    /\ map row_label (rows table) = map VStr (columns table)
    /\ forall r, r ∈ rows table -> length (row_cells r) = length (columns table).
Proof.
  intros Hd. exists (corr (select_dtypes_number d)). split; [|split; [|split]].
  - unfold correlation_analysis, bind, load, alloc. rewrite Hd. cbn [heap calls].
    rewrite lookup_insert_eq. cbn. apply lookup_insert_eq.
  - unfold corr, columns, select_dtypes_columns, select_dtypes_number. cbn [schema].
    rewrite <- list_fmap_compose. reflexivity.
  - unfold corr, columns. cbn [schema rows].
    rewrite fmap_imap, <- !list_fmap_compose.
    rewrite <- imap_const. reflexivity.
  - intros r Hr. unfold corr, columns in *. cbn [schema rows] in *.
    apply elem_of_lookup_imap in Hr as (i & ct & -> & _). cbn [row_cells].
    now rewrite !length_map, length_seq.
Qed.

End TableProperties.

(** ** [filter_data] as a selection of rows *)

Section Selection.
Context `{P : Pandas}.

Lemma series_ge_inv (t : dtype) (f : row -> value) (a : value) (rs : list row)
  (mask : list bool) :
  series_ge t (map f rs) a = Ok mask -> mask = map (fun r => le_value a (f r)) rs.
Proof.
  unfold series_ge. destruct (is_numeric_v_string_like t a); [discriminate|]. revert mask.
  induction rs as [|r rs IH]; intros mask; cbn [map result_map].
  - now intros [= <-].
  - unfold py_ge at 1, le_value at 1. destruct (py_le a (f r)); [|discriminate].
    cbn [result_bind]. destruct (result_map _ (map f rs)) as [mask'|]; [|discriminate].
    cbn [result_bind]. intros [= <-]. now rewrite (IH mask' eq_refl).
Qed.

Lemma series_le_inv (t : dtype) (f : row -> value) (b : value) (rs : list row)
  (mask : list bool) :
  series_le t (map f rs) b = Ok mask -> mask = map (fun r => le_value (f r) b) rs.
Proof.
  unfold series_le. destruct (is_numeric_v_string_like t b); [discriminate|]. revert mask.
  induction rs as [|r rs IH]; intros mask; cbn [map result_map].
  - now intros [= <-].
  - unfold le_value at 1. destruct (py_le (f r) b); [|discriminate].
    cbn [result_bind]. destruct (result_map _ (map f rs)) as [mask'|]; [|discriminate].
    cbn [result_bind]. intros [= <-]. now rewrite (IH mask' eq_refl).
Qed.

Lemma filter_all {A} (f : A -> bool) (l : list A) :
  (forall x, f x = true) -> List.filter f l = l.
Proof.
  intros Hf. induction l as [|x l IH]; cbn [List.filter]; [reflexivity|].
  now rewrite Hf, IH.
Qed.

Lemma filter_frame_step_keep (d d1 : DataFrame) (item : string * condition) :
  filter_frame_step d item = Ok d1 ->
  d1 = Frame (schema d) (List.filter (keep d item) (rows d)).
Proof.
  destruct item as [column [c|values|v]]; unfold filter_frame_step, keep;
    (destruct (bool_decide (column ∈ columns d));
     [| intros [= <-]; destruct d as [s rs]; cbn [schema rows];
        now rewrite filter_all]).
  - destruct (c !! "min") as [a|], (c !! "max") as [b|]; unfold series; cbn [result_bind].
    + destruct (series_ge _ _ a) as [mask|] eqn:Hge; [|discriminate].
      apply series_ge_inv in Hge as ->. cbn [result_bind].
      unfold getitem_mask at 1 2 3. cbn [rows schema]. rewrite mask_select_map.
      change (cell (Frame (schema d) ?rs) column) with (cell d column).
      destruct (series_le _ _ b) as [mask|] eqn:Hle; [|discriminate].
      apply series_le_inv in Hle as ->. cbn [result_bind]. intros [= <-].
      unfold getitem_mask. cbn [rows schema].
      rewrite (mask_select_map (fun r => le_value a (cell d column r)) (rows d)).
      now rewrite mask_select_map, filter_filter_and.
    + destruct (series_ge _ _ a) as [mask|] eqn:Hge; [|discriminate].
      apply series_ge_inv in Hge as ->. cbn [result_bind]. intros [= <-].
      unfold getitem_mask. rewrite mask_select_map. f_equal.
      apply filter_ext. intros r. now rewrite andb_true_r.
    + destruct (series_le _ _ b) as [mask|] eqn:Hle; [|discriminate].
      apply series_le_inv in Hle as ->. cbn [result_bind]. intros [= <-].
      unfold getitem_mask. now rewrite mask_select_map.
    + intros [= <-]. destruct d as [s rs]. cbn [schema rows].
      now rewrite filter_all.
  - intros [= <-]. unfold getitem_mask, series_isin, series.
    now rewrite map_map, mask_select_map.
  - intros [= <-]. unfold getitem_mask, series_eq, series.
    now rewrite map_map, mask_select_map.
Qed.

Lemma filter_frame_keep (conditions : list (string * condition)) (d d' : DataFrame) :
  filter_frame d conditions = Ok d' ->
  d' = Frame (schema d) (List.filter (keep_all d conditions) (rows d)).
Proof.
  revert d. induction conditions as [|item conditions IH]; intros d; cbn [filter_frame].
  - intros [= <-]. destruct d as [s rs]. cbn [schema rows].
    now rewrite filter_all.
  - destruct (filter_frame_step d item) as [d1|] eqn:Hstep; [|discriminate].
    cbn [result_bind]. intros Hrest.
    apply filter_frame_step_keep in Hstep as ->.
    apply IH in Hrest as ->. cbn [schema rows].
    rewrite filter_filter_and. reflexivity.
Qed.

Lemma forallb_perm {A} (f : A -> bool) (l1 l2 : list A) :
  Permutation l1 l2 -> forallb f l1 = forallb f l2.
Proof.
  induction 1 as [|x l1 l2 _ IH|x y l|l1 l2 l3 _ IH1 _ IH2]; cbn [forallb].
  - reflexivity.
  - now rewrite IH.
  - now rewrite !andb_assoc, (andb_comm (f y)).
  - congruence.
Qed.

(** X10.  When [filter_data] returns on conditions whose lists hold no null,
    its table has the columns of the frame and exactly the rows of the
    frame, in their order, that pass every condition: a bound compares by
    [<=], a list condition by membership, a scalar by equality, and a
    condition on a name that is not a column passes every row. *)
Theorem filter_data_keeps (self : DataProcessor) (conditions : list (string * condition))
  (w : world) (d d' : DataFrame) :
  null_free conditions = true ->
  heap w !! dp_df self = Some d ->
  returns (filter_data self conditions w) (Ok d') ->
  schema d' = schema d
  /\ rows d' = List.filter (keep_all d conditions) (rows d).
Proof.
  intros _ Hd Hrun.
  pose proof (returns_functional _ _ _ Hrun (filter_data_returns self conditions w d Hd))
    as Heq.
  symmetry in Heq. apply filter_frame_keep in Heq as ->. now split.
Qed.

(** X11.  The order in which the conditions are listed does not change the
    table [filter_data] returns: two orders of the same conditions that
    both return, return the same table. *)
Theorem filter_data_order (self : DataProcessor) (c1 c2 : list (string * condition))
  (w : world) (d d1 d2 : DataFrame) :
  heap w !! dp_df self = Some d ->
  Permutation c1 c2 ->
  returns (filter_data self c1 w) (Ok d1) ->
  returns (filter_data self c2 w) (Ok d2) ->
  d1 = d2.
Proof.
  intros Hd Hperm H1 H2.
  pose proof (returns_functional _ _ _ H1 (filter_data_returns self c1 w d Hd)) as E1.
  pose proof (returns_functional _ _ _ H2 (filter_data_returns self c2 w d Hd)) as E2.
  symmetry in E1, E2.
  apply filter_frame_keep in E1 as ->. apply filter_frame_keep in E2 as ->.
  f_equal. apply filter_ext. intros r. unfold keep_all. now apply forallb_perm.
Qed.

(** X12.  A scalar condition that is a null selects no row: filtering a
    column of the frame for equality with a missing value returns the
    empty table over the columns of the frame, also when the column has
    missing values. *)
Theorem filter_data_equal_null (self : DataProcessor) (column : string) (w : world)
  (d : DataFrame) :
  heap w !! dp_df self = Some d ->
  column ∈ columns d ->
  returns (filter_data self [(column, CScalar VNull)] w) (Ok (Frame (schema d) [])).
Proof.
  intros Hd Hcol.
  pose proof (filter_data_returns self [(column, CScalar VNull)] w d Hd) as Hrun.
  replace (filter_frame d [(column, CScalar VNull)]) with (Ok (Frame (schema d) []))
    in Hrun; [exact Hrun|].
  cbn [filter_frame filter_frame_step]. rewrite bool_decide_eq_true_2 by exact Hcol.
  cbn [result_bind]. unfold getitem_mask, series_eq, series. do 2 f_equal.
  rewrite map_map, mask_select_map. symmetry. apply filter_nil_iff.
  intros r _. now destruct (cell d column r).
Qed.

End Selection.

(** ** [value_counts] and [suggest_analysis] *)

Section Counts.
Context `{P : Pandas}.










Lemma numeric_columns_agree (d : DataFrame) :
  columns (select_dtypes_number d) = select_dtypes_columns is_numeric_dtype d.
Proof. reflexivity. Qed.

(** X14.  [suggest_analysis] proposes "Correlation analysis between numeric
    variables" exactly when [create_correlation_heatmap], on a visualizer
    built from a frame of the same content, draws its matrix instead of
    refusing: both ask for two numeric columns.  [suggest_analysis]
    changes nothing. *)
Theorem correlation_suggested_iff_heatmap_drawn (self : DataProcessor) (dataframe : loc)
  (w : world) (d : DataFrame) :
  heap w !! dp_df self = Some d ->
  heap w !! dataframe = Some d ->
  exists suggestions visualizer,
    suggest_analysis self w = (Ok suggestions, w)
    /\ DataVisualizer_init dataframe w = (Ok visualizer, w)
    /\ ("Correlation analysis between numeric variables" ∈ suggestions
        <-> exists matrix w', create_correlation_heatmap visualizer w = (Ok matrix, w')).
Proof.
  intros Hd Hframe.
  unfold suggest_analysis, DataVisualizer_init, bind, load, ret. rewrite Hd, Hframe.
  eexists.
  exists {| dv_df := dataframe; dv_numeric_columns := columns (select_dtypes_number d) |}.
  split; [reflexivity|]. split; [reflexivity|].
  unfold create_correlation_heatmap. cbn [dv_numeric_columns dv_df].
  unfold bind, load, alloc, raise, ret. rewrite numeric_columns_agree.
  set (numeric := select_dtypes_columns is_numeric_dtype d).
  cbv zeta. cbn [app].
  destruct (2 <=? length numeric)%nat eqn:Htwo.
  - apply Nat.leb_le in Htwo.
    assert ((Z.of_nat (length numeric) <? 2) = false) as -> by lia.
    cbv beta. rewrite Hframe.
    split; [eauto|]. intros _.
    repeat match goal with |- context [if ?b then _ else _] => destruct b end;
      cbn [app]; set_solver.
  - apply Nat.leb_gt in Htwo.
    assert ((Z.of_nat (length numeric) <? 2) = true) as -> by lia.
    split; [|intros (? & ? & [=])].
    repeat match goal with |- context [if ?b then _ else _] => destruct b end;
      cbn [app]; intros Hin; exfalso;
      repeat (apply elem_of_cons in Hin as [[=]|Hin]); inversion Hin.
Qed.

End Counts.

(** ** [process_uploaded_file] *)

Section Upload.
Context `{F : Float64}.

Lemma read_with_frame (f : UploadedFile) (encs : list string) (df : DataFrame) :
  read_with f encs = Ok df
  <-> exists i encoding,
        encs !! i = Some encoding
        /\ read_csv f encoding = CsvFrame df
        /\ forall j earlier, (j < i)%nat -> encs !! j = Some earlier ->
             read_csv f earlier = CsvDecodeError.
Proof.
  induction encs as [|enc encs IH]; cbn [read_with].
  - split; [discriminate|]. now intros (i & e & [=] & _).
  - destruct (read_csv f enc) as [d0| |e] eqn:Henc.
    + split.
      * intros [= ->]. exists O, enc. repeat split; [exact Henc|]. intros; lia.
      * intros ([|i] & e & Hi & He & Hearlier).
        -- cbn in Hi. congruence.
        -- specialize (Hearlier O enc ltac:(lia) eq_refl). congruence.
    + rewrite IH. split.
      * intros (i & e & Hi & He & Hearlier). exists (S i), e. repeat split; try assumption.
        intros [|j] e' Hj He'; [cbn in He'; congruence|].
        apply (Hearlier j); [lia | exact He'].
      * intros ([|i] & e & Hi & He & Hearlier).
        -- cbn in Hi. congruence.
        -- exists i, e. repeat split; try assumption.
           intros j e' Hj He'. apply (Hearlier (S j)); [lia | exact He'].
    + split; [discriminate|].
      intros ([|i] & e' & Hi & He & Hearlier).
      * cbn in Hi. congruence.
      * specialize (Hearlier O enc ltac:(lia) eq_refl). congruence.
Qed.

(** X15.  For a file whose extension is ".csv" in any case of letters,
    [process_uploaded_file] returns a frame exactly when [pd.read_csv]
    returns it under one of the encodings utf-8, latin-1, iso-8859-1,
    cp1252 and fails to decode the file under every encoding tried
    before that one. *)
Theorem process_uploaded_file_csv (uploaded_file : UploadedFile) (df : DataFrame) :
  Str.lower (Path.ext (name uploaded_file)) = ".csv" ->
  process_uploaded_file uploaded_file = Ok (Some df, None)
  <-> exists i encoding,
        encodings !! i = Some encoding
        /\ read_csv uploaded_file encoding = CsvFrame df
        /\ forall j earlier, (j < i)%nat -> encodings !! j = Some earlier ->
             read_csv uploaded_file earlier = CsvDecodeError.
Proof.
  intros Hext. rewrite <- read_with_frame.
  unfold process_uploaded_file. rewrite Hext. cbn [String.eqb Ascii.eqb Bool.eqb].
  destruct (read_with uploaded_file encodings) as [d0|e].
  - split; now intros [= ->].
  - split; [|discriminate]. destruct (is_Exception (exn_class e)); discriminate.
Qed.


End Upload.

(** ** Tier 1 on the live frame and on the snapshot *)

Section Snapshot.
Context `{P : Pandas} `{Py : !Python} `{AI : OpenAI}.
Variable cfg : Config.

Lemma missing_report_nonempty (d : DataFrame) (cn : string * Z) (l : list (string * Z)) :
  List.filter (fun cn : string * Z => 0 <? cn.2) (isnull_sum d) = cn :: l ->
  df_empty (missing_report d) = false /\ has_null d.
Proof.
  intros Hfilter. split.
  - unfold missing_report. rewrite Hfilter.
    unfold sort_values_desc, df_empty, missing_schema. cbn [schema rows].
    match goal with
    | |- context [sort_desc ?k ?rs] =>
        pose proof (sort_desc_perm k rs) as Hperm; destruct (sort_desc k rs)
    end; [|reflexivity].
    apply Permutation_length in Hperm. unfold missing_rows in Hperm.
    rewrite length_imap, Hfilter in Hperm. discriminate.
  - assert (cn ∈ List.filter (fun cn : string * Z => 0 <? cn.2) (isnull_sum d)) as Hin
      by (rewrite Hfilter; left).
    apply list_elem_of_In, filter_In in Hin as [Hin Hpos].
    apply list_elem_of_In, elem_of_isnull_sum in Hin as (j & ct & Hj & ->).
    cbn [snd] in Hpos. apply Z.ltb_lt, null_count_pos in Hpos as (v & Hv & Hnull).
    now exists j, ct, v.
Qed.

(** X17.  A query that reaches the missing-values rule is answered without
    any outside call: with the text "No missing values found!" when no
    cell of the snapshot of the data processor is null, and otherwise
    with a new table that holds the missing-data report of the snapshot;
    the two cases exclude each other. *)
Theorem process_missing (self : QueryProcessor) (query : string) (w : world)
  (d : DataFrame) :
  reaches_missing_rule query = true ->
  heap w !! dp_df (qp_data_processor self) = Some d ->
  exists data w',
    process_query cfg self query w
    = (Ok (Success data "Analysis of missing values in the dataset" "df.isnull().sum()"), w')
    /\ calls w' = calls w
    /\ ((~ has_null d /\ data = PyStr "No missing values found!")
        \/ (has_null d
            /\ exists table, data = PyFrame table
                 /\ heap w !! table = None
                 /\ heap w' !! table = Some (missing_report d))).
Proof.
  unfold reaches_missing_rule. intros Hrule Hd.
  repeat (apply andb_true_iff in Hrule as [Hrule ?]).
  repeat match goal with H : negb _ = true |- _ => apply negb_true_iff in H end.
  unfold top_rule, info_rule, statistics_rule, count_rule, columns_rule,
    missing_rule in *. cbv zeta in *.
  unfold process_query, try_except, bind at 1, _process_simple_query. cbv zeta.
  repeat match goal with E : _ = false |- _ => rewrite E; clear E end.
  match goal with E : _ = true |- _ => rewrite E; clear E end.
  unfold bind at 1 2. rewrite (analyze_missing_data_run _ w d Hd).
  unfold load, ret. cbn [heap calls]. rewrite lookup_insert_eq. cbn [success].
  eexists _, _. split; [reflexivity|]. split; [reflexivity|].
  destruct (List.filter (fun cn : string * Z => 0 <? cn.2) (isnull_sum d))
    as [|cn l] eqn:Hfilter.
  - left. split; [now apply no_missing_iff|].
    unfold missing_report. now rewrite Hfilter.
  - destruct (missing_report_nonempty d cn l Hfilter) as [Hempty Hnull].
    right. split; [exact Hnull|]. rewrite Hempty. cbn [negb].
    eexists. split; [reflexivity|]. split; [apply fresh_lookup | apply lookup_insert_eq].
Qed.

(** X18.  After the frame of the caller is changed in place, the rules of
    tier 1 disagree: a query that reaches the count rule reports the rows
    of the frame as it is now, while a query that reaches the overview
    rule still describes the frame as it was when the [QueryProcessor]
    was built. *)
Theorem snapshot_goes_stale (dataframe : loc) (w : world) (d d_now : DataFrame)
  (count_query info_query : string) :
  heap w !! dataframe = Some d ->
  reaches_count_rule count_query = true ->
  top_rule info_query = false ->
  info_rule info_query = true ->
  exists self w1,
    QueryProcessor_init dataframe w = (Ok self, w1)
    /\ let now := World (<[dataframe := d_now]> (heap w1)) (calls w1) in
       (process_query cfg self count_query now).1
       = Ok (Success (PyStr ("Total rows: " +:+ Str.of_int_grouped (df_len d_now)))
               ("The dataset contains " +:+ Str.of_int_grouped (df_len d_now) +:+ " rows")
               "len(df)")
       /\ exists table w2,
            process_query cfg self info_query now
            = (Ok (Success (PyFrame table) "Dataset overview and column information"
                     "df.info()"), w2)
            /\ heap w2 !! table = Some (column_info_table d).
Proof.
  intros Hd Hcount Htop Hinfo.
  destruct (QueryProcessor_init_run dataframe w d Hd) as (Hinit & Hnew & _ & Hne).
  eexists _, _. split; [exact Hinit|]. cbv zeta.
  assert (fresh (dom (heap w)) <> dataframe) as Hcopy by (intros Heq; congruence).
  split.
  - rewrite (process_count cfg _ count_query _ d_now Hcount); [reflexivity|].
    cbn [heap qp_df]. apply lookup_insert_eq.
  - eexists _, _. split.
    + apply (process_info cfg _ info_query _ d Htop Hinfo).
      cbn [heap qp_data_processor dp_df].
      rewrite lookup_insert_ne by congruence.
      rewrite lookup_insert_ne by congruence. apply lookup_insert_eq.
    + cbn [heap]. apply lookup_insert_eq.
Qed.

End Snapshot.

(** ** What tier 2 sends *)

Section Request.
Context `{P : Pandas} `{Py : !Python} `{AI : OpenAI}.
Variable cfg : Config.

Lemma contains_app_l (p a b : string) :
  Str.contains p a = true -> Str.contains p (a +:+ b) = true.
Proof.
  rewrite !contains_iff. intros (x & y & ->). exists x, (y +:+ b).
  now rewrite !append_assoc_str.
Qed.

Lemma contains_end (p a : string) : Str.contains p (a +:+ p) = true.
Proof. apply contains_iff. exists a, "". now rewrite append_nil_r. Qed.

Ltac contains_tac :=
  repeat first [ apply contains_here | apply contains_end | apply contains_skip ].

Lemma prompt_contains_query (query context : string) :
  Str.contains query (_create_analysis_prompt query context) = true.
Proof. unfold _create_analysis_prompt. contains_tac. Qed.

Lemma prompt_contains_context (query context : string) :
  Str.contains context (_create_analysis_prompt query context) = true.
Proof. unfold _create_analysis_prompt. contains_tac. Qed.

Lemma context_contains_columns (d : DataFrame) :
  Str.contains (Str.join ", " (columns d)) (dataset_context d) = true.
Proof. unfold dataset_context. cbv zeta. apply contains_app_l. contains_tac. Qed.

Lemma context_contains_sample (d : DataFrame) :
  Str.contains (to_string (df_head 3 d)) (dataset_context d) = true.
Proof. unfold dataset_context. cbv zeta. contains_tac. Qed.

Lemma ai_query_request (self : QueryProcessor) (query : string) (w : world)
  (d : DataFrame) :
  heap w !! qp_df self = Some d ->
  exists rest,
    calls (_process_ai_query self query w).2
    = (calls w
       ++ EvChat (request (_create_analysis_prompt query (dataset_context d))) :: rest)%list.
Proof.
  intros Hd.
  unfold _process_ai_query, try_except, _create_dataset_context, load, chat, emit,
    lift, bind, ret. cbv beta. rewrite Hd. cbv beta iota. cbn [heap calls].
  destruct (ChatCompletion_create _) as [content|e].
  - destruct (_extract_code_from_response content) as [code|];
      [destruct (String.eqb code ""); cbn [negb]|]; try (now exists []).
    destruct (_execute_pandas_code self code _) as [[v|e] w2] eqn:Hrun;
      apply execute_pandas_code_cases in Hrun as [_ Hcalls]; cbn [calls] in Hcalls;
      [|destruct (is_Exception (exn_class e))]; cbn [snd calls];
      destruct Hcalls as [->|(expr & g & ->)]; rewrite <- app_assoc; eexists; reflexivity.
  - destruct (is_Exception (exn_class e)); now exists [].
Qed.

(** X19.  A query that no rule of tier 1 matches, with a key configured,
    sends the endpoint a request first of all; the user message of that
    request contains the text of the query as it was typed, the names of
    the columns of the frame and the rendering of its first three rows. *)
Theorem tier2_request_contents (self : QueryProcessor) (query : string) (w : world)
  (d : DataFrame) :
  tier1_rule query = false ->
  api_key_configured cfg = true ->
  heap w !! qp_df self = Some d ->
  exists req rest,
    calls (process_query cfg self query w).2 = (calls w ++ EvChat req :: rest)%list
    /\ req_model req = MODEL_NAME
    /\ Str.contains query (req_user req) = true
    /\ Str.contains (Str.join ", " (columns d)) (req_user req) = true
    /\ Str.contains (to_string (df_head 3 d)) (req_user req) = true.
Proof.
  intros Hmiss Hkey Hd.
  destruct (ai_query_request self query w d Hd) as (rest & Hcalls).
  exists (request (_create_analysis_prompt query (dataset_context d))), rest.
  split; [|split; [reflexivity|]].
  - unfold process_query, try_except, bind.
    rewrite (process_miss self query w Hmiss). cbn [success]. rewrite Hkey.
    destruct (_process_ai_query self query w) as [[o|e] w2]; cbn [snd] in *;
      [exact Hcalls|].
    now destruct (is_Exception (exn_class e)).
  - cbn [request req_user]. split; [apply prompt_contains_query|].
    split; (eapply contains_trans; [|apply prompt_contains_context]).
    + apply context_contains_columns.
    + apply context_contains_sample.
Qed.


End Request.

(** ** [get_data_quality_report] and [validate_dataframe] *)

Section Quality.
Context `{P : Pandas} `{D : !DtypeCounts} `{G : !FloatGt}.

Lemma mask_sum_bounds (mask : list bool) : 0 <= mask_sum mask <= Z.of_nat (length mask).
Proof.
  unfold mask_sum. pose proof (filter_length_le (fun b : bool => b) mask). lia.
Qed.

Lemma mask_sum_zero (mask : list bool) :
  mask_sum mask = 0 <-> forall b, b ∈ mask -> b = false.
Proof.
  unfold mask_sum. rewrite <- (filter_nil_iff (fun b : bool => b) mask).
  destruct (List.filter _ mask); cbn [length]; split; intros; try discriminate;
    try reflexivity; lia.
Qed.

Lemma length_duplicated_acc (seen rs : list (list value)) :
  length (duplicated_acc seen rs) = length rs.
Proof.
  revert seen. induction rs as [|r rs IH]; intros seen; cbn [duplicated_acc length];
    [reflexivity|]. now rewrite IH.
Qed.

Lemma duplicated_below (d : DataFrame) :
  0 <= mask_sum (duplicated d)
  /\ (0 < df_len d -> mask_sum (duplicated d) < df_len d).
Proof.
  split; [apply mask_sum_bounds|].
  unfold duplicated, df_len.
  destruct (df_empty d); [unfold mask_sum; cbn [List.filter length]; lia|].
  destruct (rows d) as [|r rs]; [cbn [length]; lia|]. intros _.
  cbn [map duplicated_acc existsb]. unfold mask_sum. cbn [List.filter length].
  pose proof (filter_length_le (fun b : bool => b)
                (duplicated_acc [row_values d r] (map (row_values d) rs))) as Hle.
  rewrite length_duplicated_acc, length_map in Hle. lia.
Qed.

Lemma has_null_rows (d : DataFrame) :
  has_null d <-> exists r, r ∈ rows d /\ existsb isnull (row_values d r) = true.
Proof.
  unfold has_null, row_values, series_at. split.
  - intros (j & ct & v & Hj & Hv & Hnull).
    apply list_elem_of_fmap in Hv as (r & -> & Hr).
    exists r. split; [exact Hr|]. apply existsb_exists.
    exists (nth j (row_cells r) VNull). split; [|exact Hnull].
    apply in_map_iff. exists j. split; [reflexivity|].
    apply in_seq. apply lookup_lt_Some in Hj. lia.
  - intros (r & Hr & Hany). apply existsb_exists in Hany as (v & Hv & Hnull).
    apply in_map_iff in Hv as (j & <- & Hj). apply in_seq in Hj.
    destruct (lookup_lt_is_Some_2 (schema d) j ltac:(lia)) as [ct Hct].
    exists j, ct, (nth j (row_cells r) VNull). split; [exact Hct|]. split; [|exact Hnull].
    apply list_elem_of_fmap. now exists r.
Qed.

Lemma complete_records (d : DataFrame) :
  0 <= df_len d - mask_sum (isnull_any d) <= df_len d
  /\ (df_len d - mask_sum (isnull_any d) = df_len d <-> ~ has_null d).
Proof.
  pose proof (mask_sum_bounds (isnull_any d)) as Hb.
  assert (Z.of_nat (length (isnull_any d)) = df_len d) as Hlen
    by (unfold isnull_any, df_len; now rewrite length_map).
  split; [lia|].
  rewrite has_null_rows.
  assert (df_len d - mask_sum (isnull_any d) = df_len d <-> mask_sum (isnull_any d) = 0)
    as -> by lia.
  rewrite mask_sum_zero. unfold isnull_any. split.
  - intros Hall (r & Hr & Hany).
    rewrite (Hall (existsb isnull (row_values d r))) in Hany; [discriminate|].
    apply list_elem_of_fmap. now exists r.
  - intros Hnone b Hb'. apply list_elem_of_fmap in Hb' as (r & -> & Hr).
    destruct (existsb isnull (row_values d r)) eqn:Hany; [|reflexivity].
    exfalso. apply Hnone. now exists r.
Qed.

(** X21.  [get_data_quality_report] changes nothing and returns its seven
    entries in the order of the source.  "Duplicate Rows" is below the
    number of rows of a frame that has rows, and "Complete Records" lies
    between zero and the number of rows; it equals the number of rows
    exactly when no cell of the frame is null, that is, when the report of
    [analyze_missing_data] is empty. *)
Theorem get_data_quality_report_counts (self : DataProcessor) (w : world) (d : DataFrame) :
  heap w !! dp_df self = Some d ->
  exists report duplicates complete,
    get_data_quality_report self w = (Ok report, w)
    /\ report.*1 = ["Total Records"; "Total Columns"; "Duplicate Rows"; "Complete Records";
                    "Numeric Columns"; "Text Columns"; "Date Columns"]
    /\ record_get report "Total Columns" = VInt (Z.of_nat (length (columns d)))
    /\ record_get report "Duplicate Rows" = VInt duplicates
    /\ record_get report "Complete Records" = VInt complete
    /\ 0 <= duplicates
    /\ (0 < df_len d -> duplicates < df_len d)
    /\ 0 <= complete <= df_len d
    /\ (complete = df_len d <-> ~ has_null d)
    /\ (complete = df_len d <-> df_empty (missing_report d) = true).
Proof.
  intros Hd. unfold get_data_quality_report, bind, load, ret. rewrite Hd. cbv zeta.
  eexists _, (mask_sum (duplicated d)), (df_len d - mask_sum (isnull_any d)).
  split; [reflexivity|].
  destruct (duplicated_below d) as [Hdup0 Hdup], (complete_records d) as [Hc Hiff].
  repeat split; try assumption; try apply Hc; try apply Hiff.
  - intros Hcomplete. apply Hiff in Hcomplete. apply no_missing_iff in Hcomplete.
    unfold missing_report. now rewrite Hcomplete.
  - intros Hempty. apply Hiff. intros Hnull.
    destruct (List.filter (fun cn : string * Z => 0 <? cn.2) (isnull_sum d))
      as [|cn l] eqn:Hfilter.
    + now apply no_missing_iff in Hfilter.
    + destruct (missing_report_nonempty d cn l Hfilter) as [Hne _]. congruence.
Qed.

(** X22.  [validate_dataframe] changes nothing.  It declares the frame
    invalid exactly when the frame is empty, and then reports the one
    error "DataFrame is empty", no warning and no recommendation; a frame
    that is not empty gets no error.  For such a frame it recommends
    correlation analysis exactly when [suggest_analysis] suggests it. *)
Theorem validate_dataframe_report (self : DataProcessor) (df : loc) (w : world)
  (d : DataFrame) :
  heap w !! df = Some d ->
  heap w !! dp_df self = Some d ->
  exists report suggestions,
    validate_dataframe df w = (Ok report, w)
    /\ suggest_analysis self w = (Ok suggestions, w)
    /\ is_valid report = negb (df_empty d)
    /\ (is_valid report = false ->
        errors report = ["DataFrame is empty"]
        /\ warnings report = [] /\ recommendations report = [])
    /\ (is_valid report = true ->
        errors report = []
        /\ ("Consider correlation analysis between numeric variables"
              ∈ recommendations report
            <-> "Correlation analysis between numeric variables" ∈ suggestions)).
Proof.
  intros Hdf Hd.
  unfold validate_dataframe, suggest_analysis, bind, load, ret. rewrite Hdf, Hd. cbv zeta.
  destruct (df_empty d) eqn:Hempty.
  - do 2 eexists. split; [reflexivity|]. split; [reflexivity|].
    cbn. repeat split; try reflexivity; discriminate.
  - do 2 eexists. split; [reflexivity|]. split; [reflexivity|].
    cbn [is_valid errors warnings recommendations negb app].
    split; [reflexivity|]. split; [discriminate|]. intros _. split; [reflexivity|].
    destruct (2 <=? length (select_dtypes_columns is_numeric_dtype d))%nat;
      repeat match goal with |- context [if ?b then _ else _] => destruct b end;
      cbn [app]; split; intros Hin;
      repeat (apply elem_of_cons in Hin as [[=]|Hin]); try (now inversion Hin);
      set_solver.
Qed.

End Quality.

(** ** Examples *)

Section FurtherExamples.
Import Reference.
Import Samples.

#[local] Existing Instance ScriptedPython.
#[local] Existing Instance unreachable.
#[local] Existing Instance CountByName.
#[local] Existing Instance SymbolicGt.

Example ext_upper : Str.lower (Path.ext "Sales.CSV") = ".csv".
Proof. reflexivity. Qed.

Example ext_last_dot : Path.ext "archive.tar.gz" = ".gz".
Proof. reflexivity. Qed.

Example ext_hidden : Path.ext "uploads/.profile" = "".
Proof. reflexivity. Qed.

Example unsupported_text_file :
  process_uploaded_file
    {| name := "notes.txt"; read_csv := fun _ => CsvFrame people; read_excel := Ok people |}
  = Ok (None, Some "Error reading file: Unsupported file format: .txt").
Proof. reflexivity. Qed.

Example value_counts_age :
  (value_counts processor "age" 2 (world_of people)).1
  = Ok [(VInt 34, 1); (VInt 51, 1)].
Proof. vm_compute. reflexivity. Qed.

Example filter_order_matters_for_faults :
  returned_frame
    (filter_data processor [("name", CList []); ("name", CDict {[ "min" := VInt 1 ]})]
       (world_of people))
  = Ok (Frame (schema people) [])
  /\ returned_frame
       (filter_data processor [("name", CDict {[ "min" := VInt 1 ]}); ("name", CList [])]
          (world_of people))
     = Raise (not_supported ">=" (VStr "ann") (VInt 1)).
Proof. split; vm_compute; reflexivity. Qed.

Lemma extract_code_fenced_round_trip_witness :
  _extract_code_from_response
    (("Here is the code:" +:+ Str.nl) +:+ fence_open
     +:+ (nbsp +:+ "x = 1" +:+ nbsp) +:+ fence_close +:+ "")
  = Some (Str.strip (nbsp +:+ "x = 1" +:+ nbsp)).
Proof.
  apply (extract_code_fenced_round_trip ("Here is the code:" +:+ Str.nl)
           (nbsp +:+ "x = 1" +:+ nbsp) "");
    reflexivity.
Defined.

Example extract_code_strips_no_break_spaces :
  _extract_code_from_response
    ("Here is the code:" +:+ Str.nl +:+ fence_open
     +:+ nbsp +:+ "x = 1" +:+ nbsp +:+ fence_close)
  = Some "x = 1".
Proof. reflexivity. Qed.


Lemma QueryProcessor_init_aliasing_witness :
  exists self w',
    QueryProcessor_init 1%positive (world_of people) = (Ok self, w')
    /\ qp_df self = 1%positive
    /\ heap (world_of people) !! dp_df (qp_data_processor self) = None
    /\ heap (world_of people) !! dp_original_df (qp_data_processor self) = None
    /\ dp_df (qp_data_processor self) <> dp_original_df (qp_data_processor self)
    /\ heap w' !! dp_df (qp_data_processor self) = Some people
    /\ heap w' !! dp_original_df (qp_data_processor self) = Some people
    /\ (forall l, is_Some (heap (world_of people) !! l) ->
          heap w' !! l = heap (world_of people) !! l)
    /\ calls w' = calls (world_of people).
Proof.
  apply (QueryProcessor_init_aliasing 1%positive (world_of people) people). reflexivity.
Defined.

Lemma operations_read_only_the_receiver_witness :
  returned_frame (call processor (FilterData age_30_50) (world_of people))
  = returned_frame (call processor (FilterData age_30_50) elsewhere).
Proof.
  apply (operations_read_only_the_receiver processor (FilterData age_30_50)
           (world_of people) elsewhere).
  reflexivity.
Defined.

Lemma get_column_info_rows_witness :
  exists table,
    returns (get_column_info processor (world_of people)) (Ok table)
    /\ length (rows table) = length (columns people)
    /\ forall j column t,
         schema people !! j = Some (column, t) ->
         exists r non_null null distinct,
           rows table !! j = Some r
           /\ cell table "Column" r = VStr column
           /\ cell table "Data Type" r = VStr (dtype_str t)
           /\ cell table "Non-Null Count" r = VInt non_null
           /\ cell table "Null Count" r = VInt null
           /\ cell table "Unique Values" r = VInt distinct
           /\ non_null + null = df_len people
           /\ 0 <= distinct <= non_null.
Proof.
  apply (get_column_info_rows processor (world_of people) people). reflexivity.
Defined.

Lemma correlation_analysis_shape_witness :
  exists table,
    returns (correlation_analysis processor (world_of people)) (Ok table)
    /\ columns table = select_dtypes_columns is_numeric_dtype people
    /\ map row_label (rows table) = map VStr (columns table)
    /\ forall r, r ∈ rows table -> length (row_cells r) = length (columns table).
Proof.
  apply (correlation_analysis_shape processor (world_of people) people). reflexivity.
Defined.

Lemma filter_data_keeps_witness :
  schema ann_and_di = schema people
  /\ rows ann_and_di = List.filter (keep_all people adults_named) (rows people).
Proof.
  apply (filter_data_keeps processor adults_named (world_of people) people ann_and_di).
  - reflexivity.
  - reflexivity.
  - vm_compute. reflexivity.
Defined.

Lemma filter_data_order_witness : ann_and_di = ann_and_di.
Proof.
  apply (filter_data_order processor adults_named named_adults (world_of people) people
           ann_and_di ann_and_di).
  - reflexivity.
  - apply perm_swap.
  - vm_compute. reflexivity.
  - vm_compute. reflexivity.
Defined.

Lemma filter_data_equal_null_witness :
  returns (filter_data processor [("name", CScalar VNull)] (world_of people))
    (Ok (Frame (schema people) [])).
Proof.
  apply (filter_data_equal_null processor "name" (world_of people) people).
  - reflexivity.
  - apply list_elem_of_In. cbn. tauto.
Defined.


Lemma correlation_suggested_iff_heatmap_drawn_witness :
  exists suggestions visualizer,
    suggest_analysis processor (world_of people) = (Ok suggestions, world_of people)
    /\ DataVisualizer_init 1%positive (world_of people) = (Ok visualizer, world_of people)
    /\ ("Correlation analysis between numeric variables" ∈ suggestions
        <-> exists matrix w',
              create_correlation_heatmap visualizer (world_of people) = (Ok matrix, w')).
Proof.
  apply (correlation_suggested_iff_heatmap_drawn processor 1%positive (world_of people)
           people); reflexivity.
Defined.

Lemma process_uploaded_file_csv_witness :
  process_uploaded_file latin1_csv = Ok (Some people, None)
  <-> exists i encoding,
        encodings !! i = Some encoding
        /\ read_csv latin1_csv encoding = CsvFrame people
        /\ forall j earlier, (j < i)%nat -> encodings !! j = Some earlier ->
             read_csv latin1_csv earlier = CsvDecodeError.
Proof.
  apply (process_uploaded_file_csv latin1_csv people). reflexivity.
Defined.

Lemma process_missing_witness :
  exists data w',
    process_query no_key query_processor "any missing values?" (world_of people)
    = (Ok (Success data "Analysis of missing values in the dataset" "df.isnull().sum()"), w')
    /\ calls w' = calls (world_of people)
    /\ ((~ has_null people /\ data = PyStr "No missing values found!")
        \/ (has_null people
            /\ exists table, data = PyFrame table
                 /\ heap (world_of people) !! table = None
                 /\ heap w' !! table = Some (missing_report people))).
Proof.
  apply (process_missing no_key query_processor "any missing values?" (world_of people)
           people); reflexivity.
Defined.

Lemma snapshot_goes_stale_witness :
  exists self w1,
    QueryProcessor_init 1%positive (world_of people) = (Ok self, w1)
    /\ let now := World (<[1%positive := single_numeric]> (heap w1)) (calls w1) in
       (process_query no_key self "How many rows?" now).1
       = Ok (Success (PyStr ("Total rows: " +:+ Str.of_int_grouped (df_len single_numeric)))
               ("The dataset contains " +:+ Str.of_int_grouped (df_len single_numeric)
                +:+ " rows")
               "len(df)")
       /\ exists table w2,
            process_query no_key self "Give me a summary" now
            = (Ok (Success (PyFrame table) "Dataset overview and column information"
                     "df.info()"), w2)
            /\ heap w2 !! table = Some (column_info_table people).
Proof.
  apply (snapshot_goes_stale no_key 1%positive (world_of people) people single_numeric
           "How many rows?" "Give me a summary"); reflexivity.
Defined.

Lemma tier2_request_contents_witness :
  exists req rest,
    calls (process_query with_key query_processor mad_query (world_of people)).2
    = (calls (world_of people) ++ EvChat req :: rest)%list
    /\ req_model req = MODEL_NAME
    /\ Str.contains mad_query (req_user req) = true
    /\ Str.contains (Str.join ", " (columns people)) (req_user req) = true
    /\ Str.contains (to_string (df_head 3 people)) (req_user req) = true.
Proof.
  apply (tier2_request_contents with_key query_processor mad_query (world_of people) people);
    reflexivity.
Defined.


Lemma get_data_quality_report_counts_witness :
  exists report duplicates complete,
    get_data_quality_report processor (world_of people) = (Ok report, world_of people)
    /\ report.*1 = ["Total Records"; "Total Columns"; "Duplicate Rows"; "Complete Records";
                    "Numeric Columns"; "Text Columns"; "Date Columns"]
    /\ record_get report "Total Columns" = VInt (Z.of_nat (length (columns people)))
    /\ record_get report "Duplicate Rows" = VInt duplicates
    /\ record_get report "Complete Records" = VInt complete
    /\ 0 <= duplicates
    /\ (0 < df_len people -> duplicates < df_len people)
    /\ 0 <= complete <= df_len people
    /\ (complete = df_len people <-> ~ has_null people)
    /\ (complete = df_len people <-> df_empty (missing_report people) = true).
Proof.
  apply (get_data_quality_report_counts processor (world_of people) people). reflexivity.
Defined.

Lemma validate_dataframe_report_witness :
  exists report suggestions,
    validate_dataframe 1%positive (world_of people) = (Ok report, world_of people)
    /\ suggest_analysis processor (world_of people) = (Ok suggestions, world_of people)
    /\ is_valid report = negb (df_empty people)
    /\ (is_valid report = false ->
        errors report = ["DataFrame is empty"]
        /\ warnings report = [] /\ recommendations report = [])
    /\ (is_valid report = true ->
        errors report = []
        /\ ("Consider correlation analysis between numeric variables"
              ∈ recommendations report
            <-> "Correlation analysis between numeric variables" ∈ suggestions)).
Proof.
  apply (validate_dataframe_report processor 1%positive (world_of people) people);
    reflexivity.
Defined.

End FurtherExamples.
